(** * SmartDrive compliance check: the aggregation engine of [main.py]

    A shallow embedding of the four functions of [main.py] that decide what
    the [/check] endpoint answers ([get_traffic_penalties],
    [get_parking_fees], [get_insurance], [check]) with [log_alert], and the
    properties of the specification that are about them.

    Conventions of the model.
    - Python objects that travel through the code (decoded JSON, the dicts
      the functions return, the response body) are values of [value].
    - Python [float] is IEEE binary64: the kernel's primitive [float].
    - Text is [string], the UTF-8 bytes of a [str].  The library calls that
      read text character by character ([str.upper], [str.lower], [int],
      [float]) are modelled on ASCII text, where they are the byte-wise
      maps below; a statement that depends on what they make of a text
      assumes that text ASCII ([Text.isascii]).
    - The interpreter of reference is CPython 3.11 on Linux (glibc):
      [int] refuses more than 4300 digits, [strftime] does not pad the
      year.  [sum] over floats is the plain or the compensated one, as the
      [world] says.
    - A raised exception is a value of [pyexn]; a computation that reads the
      clock, appends to the log or may raise lives in the monad [M].
    - The three upstream services, the clock, the time zone and the file
      system are the fields of a [world]. *)

From Stdlib Require Import ZArith List String Ascii Bool Floats Lia.
From Stdlib Require Import DecimalString Sorted.
From Stdlib Require DecimalZ DecimalPos.
Import ListNotations.

Set Warnings "-inexact-float,-register-all".
#[local] Open Scope string_scope.
#[local] Open Scope Z_scope.

(* ================================================================== *)
(** * Python text *)
(* ================================================================== *)

Module Text.

Definition is_lower (c : ascii) : bool :=
  let n := N_of_ascii c in (97 <=? n)%N && (n <=? 122)%N.

Definition is_upper (c : ascii) : bool :=
  let n := N_of_ascii c in (65 <=? n)%N && (n <=? 90)%N.

Definition is_digit (c : ascii) : bool :=
  let n := N_of_ascii c in (48 <=? n)%N && (n <=? 57)%N.

(** The ASCII whitespace [int] and [float] skip around a literal
    ([Py_ISSPACE]): TAB, LF, VT, FF, CR and space. *)
Definition is_space (c : ascii) : bool :=
  let n := N_of_ascii c in
  ((9 <=? n)%N && (n <=? 13)%N) || (n =? 32)%N.

(** [s.isascii()]: every byte is below 128. *)
Fixpoint isascii (s : string) : bool :=
  match s with
  | EmptyString => true
  | String c s' => (N_of_ascii c <? 128)%N && isascii s'
  end.

Definition upper_char (c : ascii) : ascii :=
  if is_lower c then ascii_of_N (N_of_ascii c - 32) else c.

Definition lower_char (c : ascii) : ascii :=
  if is_upper c then ascii_of_N (N_of_ascii c + 32) else c.

(** [s.upper()], for an ASCII [s] *)
Fixpoint upper (s : string) : string :=
  match s with
  | EmptyString => EmptyString
  | String c s' => String (upper_char c) (upper s')
  end.

(** [s.lower()], for an ASCII [s] *)
Fixpoint lower (s : string) : string :=
  match s with
  | EmptyString => EmptyString
  | String c s' => String (lower_char c) (lower s')
  end.

Fixpoint lstrip (cs : list ascii) : list ascii :=
  match cs with
  | c :: cs' => if is_space c then lstrip cs' else cs
  | [] => []
  end.

(** [cs] without the whitespace [int] and [float] skip at both ends. *)
Definition strip (cs : list ascii) : list ascii :=
  rev (lstrip (rev (lstrip cs))).

Definition digit_val (c : ascii) : Z := Z.of_N (N_of_ascii c) - 48.

(** [str(n)] and [f"{n}"] for an int: decimal, with [-] when negative. *)
Definition str_int (n : Z) : string := NilZero.string_of_int (Z.to_int n).

(** The digits of [cs] in groups of three from the right, joined by
    commas; [k] is the number of digits of [cs] modulo 3 still to emit
    before the next comma. *)
Fixpoint group3 (k : nat) (cs : list ascii) : list ascii :=
  match cs with
  | [] => []
  | c :: cs' =>
      match k with
      | O => ","%char :: c :: group3 2 cs'
      | S k' => c :: group3 k' cs'
      end
  end.

Definition group_digits (cs : list ascii) : list ascii :=
  match (List.length cs mod 3)%nat with
  | O => group3 3 cs
  | k => group3 k cs
  end.

(** [f"{n:,}"] for an int: decimal with a comma every three digits. *)
Definition str_int_grouped (n : Z) : string :=
  let digits := list_ascii_of_string (NilZero.string_of_uint (N.to_uint (Z.abs_N n))) in
  let body := string_of_list_ascii (group_digits digits) in
  if n <? 0 then "-" ++ body else body.

End Text.

(* ================================================================== *)
(** * Python objects, exceptions and the builtins the code calls *)
(* ================================================================== *)

(** The exceptions the modelled code can meet, by class.  [str(e)], the text
    an error-result carries, depends on the interpreter and on the
    [requests] library: it is the [exn_text] of the [world]. *)
Inductive pyexn : Type :=
| AttributeError (type_name attr : string)
| TypeError (what : string)
| ValueError (what : string)
| KeyError (key : string)
| IndexError
| OverflowError (what : string)
| OSError (what : string)
| RequestException (what : string)
| HTTPError (status : Z)
| JSONDecodeError
| ParseError
| BadRequest.

(** A Python object: what [res.json()] and [request.json] decode to, and
    what the functions of [main.py] build and return. A dict is its items
    in insertion order, keys distinct. *)
Inductive value : Type :=
| VNone
| VBool (b : bool)
| VInt (n : Z)
| VFloat (f : float)
| VStr (s : string)
| VList (items : list value)
| VDict (items : list (string * value)).

(** Either an exception was raised or a result came back. *)
Definition result (A : Type) : Type := (pyexn + A)%type.

Definition ok {A} (a : A) : result A := inr a.
Definition raise {A} (e : pyexn) : result A := inl e.

Definition rbind {A B} (r : result A) (k : A -> result B) : result B :=
  match r with
  | inl e => inl e
  | inr a => k a
  end.

(** [map f xs] where [f] may raise: stops at the first exception. *)
Fixpoint rmap {A B} (f : A -> result B) (xs : list A) : result (list B) :=
  match xs with
  | [] => ok []
  | x :: xs' =>
      rbind (f x) (fun y => rbind (rmap f xs') (fun ys => ok (y :: ys)))
  end.

Module Py.

Definition type_name (v : value) : string :=
  match v with
  | VNone => "NoneType"
  | VBool _ => "bool"
  | VInt _ => "int"
  | VFloat _ => "float"
  | VStr _ => "str"
  | VList _ => "list"
  | VDict _ => "dict"
  end.

(** [bool(v)] *)
Definition truthy (v : value) : bool :=
  match v with
  | VNone => false
  | VBool b => b
  | VInt n => negb (n =? 0)
  | VFloat f => negb (PrimFloat.is_zero f)
  | VStr s => negb (String.eqb s "")
  | VList l => match l with [] => false | _ => true end
  | VDict l => match l with [] => false | _ => true end
  end.

(** [isinstance(v, dict)] *)
Definition is_dict (v : value) : bool :=
  match v with VDict _ => true | _ => false end.

Fixpoint lookup (k : string) (items : list (string * value)) : option value :=
  match items with
  | [] => None
  | (k', v) :: rest => if String.eqb k' k then Some v else lookup k rest
  end.

(** [v.get(k, default)]: only a dict has [get]. *)
Definition get (v : value) (k : string) (default : value) : result value :=
  match v with
  | VDict items =>
      ok (match lookup k items with Some x => x | None => default end)
  | _ => raise (AttributeError (type_name v) "get")
  end.

(** [v[k]] for a string key [k]. *)
Definition getitem (v : value) (k : string) : result value :=
  match v with
  | VDict items =>
      match lookup k items with
      | Some x => ok x
      | None => raise (KeyError k)
      end
  | VList _ | VStr _ => raise (TypeError "indices must be integers")
  | _ => raise (TypeError "object is not subscriptable")
  end.

(** [v[0]] *)
Definition getitem0 (v : value) : result value :=
  match v with
  | VList (x :: _) => ok x
  | VList [] => raise IndexError
  | VStr (String c _) => ok (VStr (String c EmptyString))
  | VStr EmptyString => raise IndexError
  | VDict _ => raise (KeyError "0")
  | _ => raise (TypeError "object is not subscriptable")
  end.

(** The objects [for x in v] runs through. *)
Definition iter (v : value) : result (list value) :=
  match v with
  | VList l => ok l
  | VStr s =>
      ok (List.map (fun c => VStr (String c EmptyString)) (list_ascii_of_string s))
  | VDict items => ok (List.map (fun kv => VStr (fst kv)) items)
  | _ => raise (TypeError "object is not iterable")
  end.

(** [v == s] for a string constant [s]. *)
Definition eq_str (v : value) (s : string) : bool :=
  match v with
  | VStr s' => String.eqb s' s
  | _ => false
  end.

(** [v.upper()] and [v.lower()]: only a str has them. *)
Definition upper (v : value) : result string :=
  match v with
  | VStr s => ok (Text.upper s)
  | _ => raise (AttributeError (type_name v) "upper")
  end.

Definition lower (v : value) : result string :=
  match v with
  | VStr s => ok (Text.lower s)
  | _ => raise (AttributeError (type_name v) "lower")
  end.

(** Every str in [v], keys included, is ASCII. *)
Fixpoint ascii_only (v : value) : bool :=
  match v with
  | VStr s => Text.isascii s
  | VList items => forallb ascii_only items
  | VDict items =>
      forallb (fun kv => match kv with
                         | (k, x) => Text.isascii k && ascii_only x
                         end) items
  | _ => true
  end.

End Py.

(* ================================================================== *)
(** * Python numbers: [int], [float] and the conversions between them *)
(* ================================================================== *)

Module Num.

(** The integer part of a finite binary64 number, towards zero. *)
Definition sf_trunc (x : spec_float) : option Z :=
  match x with
  | S754_zero _ => Some 0
  | S754_finite s m e => Some (cond_Zopp s (Z.shiftl (Zpos m) e))
  | S754_infinity _ | S754_nan => None
  end.

(** The largest integer not above a finite binary64 number. *)
Definition sf_floor (x : spec_float) : option Z :=
  match x with
  | S754_zero _ => Some 0
  | S754_finite s m e => Some (Z.shiftl (cond_Zopp s (Zpos m)) e)
  | S754_infinity _ | S754_nan => None
  end.

(** The nearest integer to a finite binary64 number, ties to even. *)
Definition sf_round_half_even (x : spec_float) : option Z :=
  match x with
  | S754_zero _ => Some 0
  | S754_finite s m e =>
      let a :=
        match e with
        | Zneg k =>
            let q := Z.shiftr (Zpos m) (Zpos k) in
            let r := Z.land (Zpos m) (Z.ones (Zpos k)) in
            let half := Z.shiftl 1 (Zpos k - 1) in
            match r ?= half with
            | Lt => q
            | Gt => q + 1
            | Eq => if Z.even q then q else q + 1
            end
        | _ => Z.shiftl (Zpos m) e
        end in
      Some (cond_Zopp s a)
  | S754_infinity _ | S754_nan => None
  end.

(** [math.floor(f)], used to state what the specification says. *)
Definition floor (f : float) : option Z := sf_floor (Prim2SF f).

(** [int(f)] for a float: truncation towards zero. *)
Definition int_of_float (f : float) : result Z :=
  match Prim2SF f with
  | S754_nan => raise (ValueError "cannot convert float NaN to integer")
  | S754_infinity _ => raise (OverflowError "cannot convert float infinity to integer")
  | S754_zero _ => ok 0
  | S754_finite s m e => ok (cond_Zopp s (Z.shiftl (Zpos m) e))
  end.

(** The binary64 number nearest to the integer [n] (ties to even);
    an infinity when [n] is beyond the range. *)
Definition sf_of_Z (n : Z) : spec_float := binary_normalize prec emax n 0 false.

(** [float(n)] for an int. *)
Definition float_of_int (n : Z) : result float :=
  match sf_of_Z n with
  | S754_infinity _ => raise (OverflowError "int too large to convert to float")
  | x => ok (SF2Prim x)
  end.

(** The binary64 number nearest to [n / d] (ties to even), [d > 0]. *)
Definition sf_of_ratio (n : Z) (d : positive) : spec_float :=
  match n with
  | Z0 => S754_zero false
  | Zpos p =>
      let '(q, e, l) := SFdiv_core_binary prec emax (Zpos p) 0 (Zpos d) 0 in
      binary_round_aux prec emax false q e l
  | Zneg p =>
      let '(q, e, l) := SFdiv_core_binary prec emax (Zpos p) 0 (Zpos d) 0 in
      binary_round_aux prec emax true q e l
  end.

(** [n / 1000] for an int [n]: true division, correctly rounded. *)
Definition truediv_1000 (n : Z) : result float :=
  match sf_of_ratio n 1000 with
  | S754_infinity _ =>
      raise (OverflowError "integer division result too large for a float")
  | x => ok (SF2Prim x)
  end.

(** ** Reading numbers from text *)

Definition is_underscore (c : ascii) : bool := Ascii.eqb c "_".

(** Python allows one underscore between two digits of a numeric
    literal; the underscores are dropped, and anywhere else they make the
    text invalid. *)
Fixpoint drop_underscores (prev_digit : bool) (cs : list ascii)
  : option (list ascii) :=
  match cs with
  | [] => Some []
  | c :: cs' =>
      if is_underscore c then
        if prev_digit && match cs' with d :: _ => Text.is_digit d | [] => false end
        then drop_underscores false cs'
        else None
      else option_map (cons c) (drop_underscores (Text.is_digit c) cs')
  end.

(** The leading digits of [cs]: their value after [acc], how many there
    are after [n], and the rest of the text. *)
Fixpoint take_digits (acc : Z) (n : Z) (cs : list ascii) : Z * Z * list ascii :=
  match cs with
  | c :: cs' =>
      if Text.is_digit c
      then take_digits (10 * acc + Text.digit_val c) (n + 1) cs'
      else (acc, n, cs)
  | [] => (acc, n, [])
  end.

(** An optional sign: [true] for [-]. *)
Definition take_sign (cs : list ascii) : bool * list ascii :=
  match cs with
  | c :: cs' =>
      if Ascii.eqb c "-" then (true, cs')
      else if Ascii.eqb c "+" then (false, cs')
      else (false, cs)
  | [] => (false, [])
  end.

(** [sys.int_info.default_max_str_digits]: [int] refuses a literal with
    more digits, leading zeros counted. *)
Definition max_str_digits : Z := 4300.

(** [int(s)] for an ASCII str, base 10; [None] is [ValueError]. *)
Definition parse_int (s : string) : option Z :=
  let '(neg, cs) := take_sign (Text.strip (list_ascii_of_string s)) in
  match drop_underscores false cs with
  | None => None
  | Some cs' =>
      let '(v, n, rest) := take_digits 0 0 cs' in
      match rest with
      | [] =>
          if (0 <? n) && (n <=? max_str_digits)
          then Some (cond_Zopp neg v) else None
      | _ => None
      end
  end.

Definition int_of_str (s : string) : result Z :=
  match parse_int s with
  | Some n => ok n
  | None => raise (ValueError "invalid literal for int() with base 10")
  end.

(** The binary64 number nearest to [m * 10 ^ e10], [m >= 0], with the
    sign [neg]. *)
Definition sf_of_decimal (neg : bool) (m : Z) (e10 : Z) : spec_float :=
  match m with
  | Zpos p =>
      match e10 with
      | Zneg k =>
          let '(q, e, l) :=
            SFdiv_core_binary prec emax (Zpos p) 0 (10 ^ Zpos k) 0 in
          binary_round_aux prec emax neg q e l
      | _ => binary_normalize prec emax (cond_Zopp neg (Zpos p * 10 ^ e10)) 0 neg
      end
  | _ => S754_zero neg
  end.

(** The exponent part of a float literal, [e] or [E] with a signed
    integer, or nothing. *)
Definition take_exponent (cs : list ascii) : option (Z * list ascii) :=
  match cs with
  | c :: cs' =>
      if Ascii.eqb c "e" || Ascii.eqb c "E" then
        let '(neg, cs'') := take_sign cs' in
        let '(v, n, rest) := take_digits 0 0 cs'' in
        if 0 <? n then Some (cond_Zopp neg v, rest) else None
      else Some (0, cs)
  | [] => Some (0, [])
  end.

(** [float(s)] for an ASCII str; [None] is [ValueError]. *)
Definition parse_float (s : string) : option float :=
  let '(neg, cs) := take_sign (Text.strip (list_ascii_of_string s)) in
  let word := Text.lower (string_of_list_ascii cs) in
  if String.eqb word "inf" || String.eqb word "infinity" then
    Some (if neg then neg_infinity else infinity)
  else if String.eqb word "nan" then Some nan
  else
    match drop_underscores false cs with
    | None => None
    | Some cs1 =>
        let '(m1, n1, r1) := take_digits 0 0 cs1 in
        let '(m2, n2, r2) :=
          match r1 with
          | c :: r1' =>
              if Ascii.eqb c "." then take_digits m1 0 r1' else (m1, 0, r1)
          | [] => (m1, 0, [])
          end in
        if 0 <? n1 + n2 then
          match take_exponent r2 with
          | Some (e, []) => Some (SF2Prim (sf_of_decimal neg m2 (e - n2)))
          | _ => None
          end
        else None
    end.

(** [float(v)] *)
Definition to_float (v : value) : result float :=
  match v with
  | VFloat f => ok f
  | VInt n => float_of_int n
  | VBool b => ok (if b then 1%float else 0%float)
  | VStr s =>
      match parse_float s with
      | Some f => ok f
      | None => raise (ValueError "could not convert string to float")
      end
  | _ => raise (TypeError "float() argument must be a string or a real number")
  end.

(** ** [sum] over floats

    [sum(xs)] starts from the int [0]; the first float is added to it, and
    the rest is accumulated in a C double.  From Python 3.12 on the
    accumulation is compensated (Neumaier); before, it is the plain
    left-to-right sum.  [compensated] tells which interpreter runs. *)

Fixpoint sum_plain (acc : float) (xs : list float) : float :=
  match xs with
  | [] => acc
  | x :: xs' => sum_plain (acc + x)%float xs'
  end.

Fixpoint sum_neumaier (acc c : float) (xs : list float) : float :=
  match xs with
  | [] =>
      if negb (PrimFloat.is_zero c) && PrimFloat.is_finite c
      then (acc + c)%float else acc
  | x :: xs' =>
      let t := (acc + x)%float in
      let c' :=
        if (PrimFloat.abs x <=? PrimFloat.abs acc)%float
        then (c + ((acc - t) + x))%float
        else (c + ((x - t) + acc))%float in
      sum_neumaier t c' xs'
  end.

Definition sum_floats (compensated : bool) (xs : list float) : value :=
  match xs with
  | [] => VInt 0
  | x :: xs' =>
      let first := (0 + x)%float in
      VFloat (if compensated then sum_neumaier first 0 xs' else sum_plain first xs')
  end.

(** [int(v)] where [v] is what [sum] returned. *)
Definition int_of_number (v : value) : result Z :=
  match v with
  | VInt n => ok n
  | VFloat f => int_of_float f
  | _ => raise (TypeError "int() argument must be a number")
  end.

(** [sum] over ints. *)
Definition sum_ints (xs : list Z) : Z := fold_left Z.add xs 0.

(** The integer part of [f], towards zero; [None] for an infinity or a
    NaN. *)
Definition trunc (f : float) : option Z := sf_trunc (Prim2SF f).

(** The sum of [g f] over the floats [fs], when [g] is defined on all. *)
Fixpoint sum_with (g : float -> option Z) (fs : list float) : option Z :=
  match fs with
  | [] => Some 0
  | f :: fs' =>
      match g f, sum_with g fs' with
      | Some a, Some b => Some (a + b)
      | _, _ => None
      end
  end.

End Num.

(* ================================================================== *)
(** * [xml.etree.ElementTree] *)
(* ================================================================== *)

Module ET.

(** An element: its tag, the text before its first child ([None] when
    there is none) and its children in document order. *)
Inductive element : Type :=
| Element (tag : string) (text : option string) (children : list element).

Definition tag (e : element) : string :=
  match e with Element t _ _ => t end.

Definition text (e : element) : option string :=
  match e with Element _ t _ => t end.

Definition children (e : element) : list element :=
  match e with Element _ _ cs => cs end.

(** [e.iter()]: [e] and all its descendants, in document order. *)
Fixpoint iter (e : element) : list element :=
  match e with
  | Element _ _ cs => e :: flat_map iter cs
  end.

(** [root.findall(".//" + name)]: the proper descendants of [root] with
    that tag, in document order. *)
Definition findall_descendants (root : element) (name : string) : list element :=
  filter (fun e => String.eqb (tag e) name) (flat_map iter (children root)).

(** [e.findtext(name, default)]: the text of the first child with that
    tag, the empty string when that child has no text, [default] when
    there is no such child. *)
Definition findtext (e : element) (name default : string) : string :=
  match find (fun c => String.eqb (tag c) name) (children e) with
  | Some c => match text c with Some t => t | None => "" end
  | None => default
  end.

(** [bool(e)]: an element with no children is false. *)
Definition truthy (e : element) : bool :=
  match children e with [] => false | _ => true end.

End ET.

(* ================================================================== *)
(** * [datetime] *)
(* ================================================================== *)

Module Datetime.

(** A naive [datetime]: microseconds of local wall-clock time since
    1970-01-01 00:00:00. *)
Definition datetime : Type := Z.

Definition us_per_second : Z := 1000000.
Definition us_per_day : Z := 86400000000.

(** The first and the last second of the years 1 to 9999, the range of a
    [datetime], in seconds from the epoch. *)
Definition min_second : Z := -62135596800.
Definition max_second : Z := 253402300799.

(** [modf(d)]: the fractional part, as a float, and the integer part. *)
Definition modf (d : float) : option (float * Z) :=
  match Num.sf_trunc (Prim2SF d) with
  | Some i => Some ((d - SF2Prim (Num.sf_of_Z i))%float, i)
  | None => None
  end.

(** A float timestamp as whole seconds and microseconds, the
    microseconds rounded half to even: what [fromtimestamp] does first. *)
Definition to_timeval (t : float) : result (Z * Z) :=
  match modf t with
  | None =>
      if PrimFloat.is_nan t
      then raise (ValueError "Invalid value NaN (not a number)")
      else raise (OverflowError "timestamp out of range for platform time_t")
  | Some (frac, sec) =>
      match Num.sf_round_half_even (Prim2SF (frac * 1000000)%float) with
      | None => raise (OverflowError "timestamp out of range for platform time_t")
      | Some us =>
          let '(sec', us') :=
            if 1000000 <=? us then (sec + 1, us - 1000000)
            else if us <? 0 then (sec - 1, us + 1000000)
            else (sec, us) in
          if (- 2 ^ 63 <=? sec') && (sec' <? 2 ^ 63)
          then ok (sec', us')
          else raise (OverflowError "timestamp out of range for platform time_t")
      end
  end.

(** The seconds of local wall-clock time at the instant [t], from the
    epoch, when they fall in the years 1 to 9999; [utcoffset t] is the
    offset of local time from UTC in seconds at that instant. *)
Definition local_seconds (utcoffset : Z -> Z) (t : Z) : option Z :=
  let x := t + utcoffset t in
  if (min_second <=? x) && (x <=? max_second) then Some x else None.

(** The span [fromtimestamp] and [now] look back to tell the two readings
    of a repeated hour apart. *)
Definition max_fold_seconds : Z := 86400.

(** The local wall-clock time at [sec] seconds and [us] microseconds
    after the epoch.  The local time is also taken [max_fold_seconds]
    earlier, and once more when the offset went down in between; each must
    fall in the years 1 to 9999, so an instant of the first day after
    [datetime.min] is refused. *)
Definition localtime (utcoffset : Z -> Z) (sec us : Z) : result datetime :=
  match local_seconds utcoffset sec,
        local_seconds utcoffset (sec - max_fold_seconds) with
  | Some here, Some probe =>
      let transition := here - probe - max_fold_seconds in
      if (transition <? 0) &&
         match local_seconds utcoffset (sec + transition) with
         | Some _ => false
         | None => true
         end
      then raise (ValueError "year is out of range")
      else ok (here * us_per_second + us)
  | _, _ => raise (ValueError "year is out of range")
  end.

(** [datetime.fromtimestamp(t)] *)
Definition fromtimestamp (utcoffset : Z -> Z) (t : float) : result datetime :=
  rbind (to_timeval t) (fun '(sec, us) => localtime utcoffset sec us).

(** [(a - b).days]: a [timedelta] keeps its seconds and microseconds
    non-negative, so the days are the floor. *)
Definition days_between (a b : datetime) : Z := (a - b) / us_per_day.

(** The calendar date of a [datetime]: year, month, day (proleptic
    Gregorian). *)
Definition date_of (d : datetime) : Z * Z * Z :=
  let z := d / us_per_day + 719468 in
  let era := z / 146097 in
  let doe := z - era * 146097 in
  let yoe := (doe - doe / 1460 + doe / 36524 - doe / 146096) / 365 in
  let doy := doe - (365 * yoe + yoe / 4 - yoe / 100) in
  let mp := (5 * doy + 2) / 153 in
  let day := doy - (153 * mp + 2) / 5 + 1 in
  let month := if mp <? 10 then mp + 3 else mp - 9 in
  let year := yoe + era * 400 + (if month <=? 2 then 1 else 0) in
  (year, month, day).

(** [n] in decimal, padded with zeros to [width] digits. *)
Definition zero_padded (width : nat) (n : Z) : string :=
  let digits := Text.str_int n in
  string_of_list_ascii (repeat "0"%char (width - String.length digits)) ++ digits.

(** [d.strftime('%Y-%m-%d')]: glibc shows the year without padding, the
    month and the day on two digits. *)
Definition strftime_ymd (d : datetime) : string :=
  let '(y, m, dd) := date_of d in
  Text.str_int y ++ "-" ++ zero_padded 2 m ++ "-" ++ zero_padded 2 dd.

End Datetime.

(* ================================================================== *)
(** * The world outside the process, and computations in it *)
(* ================================================================== *)

(** What [requests.post] returned: the status code and the decoded body,
    [None] when the body does not decode ([res.json()] or
    [ET.fromstring(res.text)] raises). *)
Record response (A : Type) : Type := Response {
  status_code : Z;
  decoded : option A
}.
Arguments Response {A} _ _.
Arguments status_code {A} _.
Arguments decoded {A} _.

(** One entry of [log.txt], what one [f.write] of [log_alert] appends:
    the local time it was written at and its message, followed by a line
    feed.  (An entry is one line of the file unless its message holds a
    line feed.) *)
Record log_line : Type := LogLine {
  stamp : Datetime.datetime;
  message : string
}.

(** What a request changes as it runs: the entries of the log file, and
    how many times the clock has been read. *)
Record state : Type := State {
  log_file : list log_line;
  ticks : nat
}.

(** Everything the code reads from outside.  The three services answer a
    request for a plate with an exception raised by [requests.post]
    (timeout, connection failure) or with a response. *)
Record world : Type := World {
  TMS_API : string -> result (response value);
  GePG_API : string -> result (response value);
  TIRA_API : string -> result (response ET.element);
  (** the successive readings of the system clock: seconds and
      microseconds since the epoch *)
  clock : nat -> Z * Z;
  (** the offset of local time from UTC, in seconds, at an instant *)
  utcoffset : Z -> Z;
  (** the exception [open(LOG_FILE, "a")] raises in a state, if any *)
  log_fault : state -> option pyexn;
  (** [str(e)] *)
  exn_text : pyexn -> string;
  (** whether [sum] compensates float additions (Python 3.12 and later) *)
  compensated_sum : bool
}.

(** A computation that may read the clock, append to the log and raise. *)
Definition M (A : Type) : Type := state -> result A * state.

Definition ret {A} (a : A) : M A := fun s => (inr a, s).

Definition bind {A B} (m : M A) (k : A -> M B) : M B :=
  fun s =>
    match m s with
    | (inl e, s') => (inl e, s')
    | (inr a, s') => k a s'
    end.

(** A computation with no effect other than raising. *)
Definition lift {A} (r : result A) : M A := fun s => (r, s).

(** [try: m except Exception as e: handler e] *)
Definition try_except {A} (m : M A) (handler : pyexn -> M A) : M A :=
  fun s =>
    match m s with
    | (inl e, s') => handler e s'
    | (inr a, s') => (inr a, s')
    end.

Declare Scope py_scope.
Delimit Scope py_scope with py.
Notation "x <- m ;; k" := (bind m (fun x => k))
  (at level 61, m at next level, right associativity) : py_scope.
Notation "m ;; k" := (bind m (fun _ => k))
  (at level 61, right associativity) : py_scope.
Notation "x <~ r ;; k" := (bind (lift r) (fun x => k))
  (at level 61, r at next level, right associativity) : py_scope.
#[local] Open Scope py_scope.

(** [res.raise_for_status()] *)
Definition raise_for_status {A} (res : response A) : result unit :=
  if (400 <=? status_code res) && (status_code res <? 600)
  then raise (HTTPError (status_code res))
  else ok tt.

(** [res.json()] *)
Definition json (res : response value) : result value :=
  match decoded res with
  | Some v => ok v
  | None => raise JSONDecodeError
  end.

(** [ET.fromstring(res.text)] *)
Definition fromstring (res : response ET.element) : result ET.element :=
  match decoded res with
  | Some root => ok root
  | None => raise ParseError
  end.

(* ================================================================== *)
(** * [main.py] *)
(* ================================================================== *)

(** The string constants of [main.py] are kept as their UTF-8 bytes. *)

(** [f"📛 Violation found for {plate} – Total: {total:,} TZS"] *)
Definition violation_message (plate : string) (total : Z) : string :=
  "📛 Violation found for " ++ plate ++ " – Total: "
    ++ Text.str_int_grouped total ++ " TZS".

(** [f"💸 Parking fee found for {plate} – Total: {int(total):,} TZS"] *)
Definition parking_message (plate : string) (total : Z) : string :=
  "💸 Parking fee found for " ++ plate ++ " – Total: "
    ++ Text.str_int_grouped total ++ " TZS".

(** [f"❌ Insurance expired for {plate} – {days} days ago"] *)
Definition expired_message (plate : string) (days : Z) : string :=
  "❌ Insurance expired for " ++ plate ++ " – " ++ Text.str_int days ++ " days ago".

(** The four notifications, each in the wording [lang] selects. *)
Definition msg_violation (lang : string) : string :=
  if String.eqb lang "en" then "🔴 Traffic Violation"
  else "🔴 Kuna makosa ya barabarani".

Definition msg_parking (lang : string) : string :=
  if String.eqb lang "en" then "🅿️ Unpaid Parking"
  else "🅿️ Kuna maegesho hayajalipwa".

Definition msg_expired (lang : string) : string :=
  if String.eqb lang "en" then "⚠️ Insurance Expired"
  else "⚠️ Bima imekwisha muda wake".

Definition msg_expiring (lang : string) (days : Z) : string :=
  if String.eqb lang "en"
  then "⏳ Insurance expiring soon (" ++ Text.str_int days ++ " days left)"
  else "⏳ Bima inakaribia kuisha (" ++ Text.str_int days ++ " siku)".

(** [isinstance(v, dict) and v.get(k)], as a condition. *)
Definition flag (v : value) (k : string) : bool :=
  Py.is_dict v &&
  match Py.get v k VNone with
  | inr x => Py.truthy x
  | inl _ => false
  end.

(** [v["remaining_days"]] as the int [get_insurance] stores there; any
    other object is outside what [check] can meet (lemma
    [get_insurance_result]) and is a [TypeError] here. *)
Definition remaining_days (v : value) : result Z :=
  rbind (Py.getitem v "remaining_days") (fun d =>
  match d with
  | VInt n => ok n
  | _ => raise (TypeError "remaining_days is not an int")
  end).

(** Lines 107 to 119 of [check]: the notifications, in order. *)
Definition notifications_of (lang : string) (traffic parking insurance : value)
  : result (list value) :=
  let n1 := if flag traffic "found" then [VStr (msg_violation lang)] else [] in
  let n2 := if flag parking "found" then [VStr (msg_parking lang)] else [] in
  let n3 := if flag insurance "expired" then [VStr (msg_expired lang)] else [] in
  rbind (if flag insurance "active"
         then rbind (remaining_days insurance) (fun days =>
              ok (if days <=? 10 then [VStr (msg_expiring lang days)] else []))
         else ok [])
        (fun n4 => ok (n1 ++ n2 ++ n3 ++ n4)%list).

(** The dicts [get_insurance] returns when it found the state of the
    cover. *)
Definition expired_result (days : value) : value :=
  VDict [("expired", VBool true); ("expired_days", days)].

Definition active_dict (valid_till : string) (days_left : Z) : value :=
  VDict [("active", VBool true);
         ("valid_till", VStr valid_till);
         ("remaining_days", VInt days_left)].

(** The two shapes of the report. *)
Definition summary_report (plate : string) (notifications : list value) : value :=
  VDict [("plate", VStr plate);
         ("notifications", VList notifications)].

Definition full_report (plate : string) (traffic parking insurance : value)
  (notifications : list value) : value :=
  VDict [("plate", VStr plate);
         ("traffic_penalties", traffic);
         ("parking_fees", parking);
         ("insurance", insurance);
         ("notifications", VList notifications)].

(** [make_response(jsonify(result), code)] *)
Record http_response : Type := make_response {
  body : value;
  status : Z
}.

Section Main.

Variable w : world.

(** [datetime.now()] *)
Definition datetime_now : M Datetime.datetime :=
  fun s =>
    let '(sec, us) := clock w (ticks s) in
    (Datetime.localtime (utcoffset w) sec us,
     State (log_file s) (S (ticks s))).

(** [[
    def log_alert(message):
        with open(LOG_FILE, "a", encoding="utf-8") as f:
            f.write(f"[{datetime.now()}] {message}\n")
    ]] *)
Definition log_alert (message : string) : M unit :=
  fun s =>
    match log_fault w s with
    | Some e => (inl e, s)
    | None =>
        match datetime_now s with
        | (inr now, s') =>
            (inr tt, State (log_file s' ++ [LogLine now message])%list (ticks s'))
        | (inl e, s') => (inl e, s')
        end
    end.

(** The dict [{"error": str(e)}] every source returns when it failed. *)
Definition error_result (e : pyexn) : value :=
  VDict [("error", VStr (exn_text w e))].

(** ** Traffic penalties *)

(** [float(t.get("charge", 0)) + float(t.get("penalty", 0))] *)
Definition ticket_sum (t : value) : result float :=
  rbind (Py.get t "charge" (VInt 0)) (fun c =>
  rbind (Num.to_float c) (fun charge =>
  rbind (Py.get t "penalty" (VInt 0)) (fun p =>
  rbind (Num.to_float p) (fun penalty =>
  ok (charge + penalty)%float)))).

(** [int(float(t.get("charge", 0)) + float(t.get("penalty", 0)))] *)
Definition ticket_total (t : value) : result Z :=
  rbind (ticket_sum t) Num.int_of_float.

(** The [try] block of [get_traffic_penalties]. *)
Definition traffic_lookup (plate : string) : M value :=
  res <~ TMS_API w plate ;;
  _ <~ raise_for_status res ;;
  data <~ json res ;;
  status <~ Py.get data "status" VNone ;;
  pending <~ (if Py.eq_str status "success"
              then Py.get data "pending_transactions" VNone
              else ok (VBool false)) ;;
  if Py.truthy pending then
    tickets <~ Py.getitem data "pending_transactions" ;;
    items <~ Py.iter tickets ;;
    amounts <~ rmap ticket_total items ;;
    let total := Num.sum_ints amounts in
    log_alert (violation_message plate total) ;;
    ret (VDict [("found", VBool true); ("tickets", tickets); ("total", VInt total)])
  else
    ret (VDict [("found", VBool false)]).

Definition get_traffic_penalties (plate : string) : M value :=
  try_except (traffic_lookup plate) (fun e => ret (error_result e)).

(** ** Parking fees *)

(** [float(b["billAmount"])] *)
Definition bill_amount (b : value) : result float :=
  rbind (Py.getitem b "billAmount") Num.to_float.

(** The [try] block of [get_parking_fees]. *)
Definition parking_lookup (plate : string) : M value :=
  res <~ GePG_API w (Text.upper plate) ;;
  doc <~ json res ;;
  first <~ Py.getitem0 doc ;;
  bills <~ Py.get first "billDetails" (VList []) ;;
  if Py.truthy bills then
    items <~ Py.iter bills ;;
    amounts <~ rmap bill_amount items ;;
    let total := Num.sum_floats (compensated_sum w) amounts in
    shown <~ Num.int_of_number total ;;
    log_alert (parking_message plate shown) ;;
    returned <~ Num.int_of_number total ;;
    ret (VDict [("found", VBool true); ("bills", bills); ("total", VInt returned)])
  else
    ret (VDict [("found", VBool false)]).

Definition get_parking_fees (plate : string) : M value :=
  try_except (parking_lookup plate) (fun e => ret (error_result e)).

(** ** Insurance *)

(** [e.findtext("statusTitle", "").upper() == "ACTIVE"] *)
Definition is_active (e : ET.element) : bool :=
  String.eqb (Text.upper (ET.findtext e "statusTitle" "")) "ACTIVE".

(** [datetime.fromtimestamp(int(e.findtext("coverNoteEndDate", "0")) / 1000)] *)
Definition end_date_of (e : ET.element) : result Datetime.datetime :=
  rbind (Num.int_of_str (ET.findtext e "coverNoteEndDate" "0")) (fun ms =>
  rbind (Num.truediv_1000 ms) (fun end_ts =>
  Datetime.fromtimestamp (utcoffset w) end_ts)).

(** The inner [try] block: the days since the first entry ended. *)
Definition expired_days (plate : string) (first : ET.element) : M value :=
  end_date <~ end_date_of first ;;
  now <- datetime_now ;;
  let days := Datetime.days_between now end_date in
  log_alert (expired_message plate days) ;;
  ret (expired_result (VInt days)).

(** The [else] branch: an entry is active. *)
Definition active_result (active : ET.element) : M value :=
  end_date <~ end_date_of active ;;
  now <- datetime_now ;;
  let days_left := Datetime.days_between end_date now in
  ret (active_dict (Datetime.strftime_ymd end_date) days_left).

(** The outer [try] block of [get_insurance]. *)
Definition insurance_lookup (plate : string) : M value :=
  res <~ TIRA_API w plate ;;
  xml_root <~ fromstring res ;;
  let entries := ET.findall_descendants xml_root "data" in
  match entries with
  | [] => ret (expired_result VNone)
  | first :: _ =>
      let active := find is_active entries in
      match active with
      | Some e =>
          if negb (ET.truthy e)
          then try_except (expired_days plate first)
                          (fun _ => ret (expired_result VNone))
          else active_result e
      | None =>
          try_except (expired_days plate first)
                     (fun _ => ret (expired_result VNone))
      end
  end.

Definition get_insurance (plate : string) : M value :=
  try_except (insurance_lookup plate) (fun e => ret (error_result e)).

(** ** The endpoint *)

(** The [try] block of [check]; [request_json] is what [request.json]
    evaluates to. *)
Definition check_report (request_json : result value) : M http_response :=
  payload <~ request_json ;;
  let data := if Py.truthy payload then payload else VDict [] in
  p <~ Py.get data "plate" (VStr "") ;;
  plate <~ Py.upper p ;;
  l <~ Py.get data "lang" (VStr "en") ;;
  lang <~ Py.lower l ;;
  t <~ Py.get data "type" (VStr "full") ;;
  detail_type <~ Py.lower t ;;
  traffic <- get_traffic_penalties plate ;;
  parking <- get_parking_fees plate ;;
  insurance <- get_insurance plate ;;
  notifications <~ notifications_of lang traffic parking insurance ;;
  let result :=
    if String.eqb detail_type "summary"
    then summary_report plate notifications
    else full_report plate traffic parking insurance notifications in
  ret (make_response result 200).

Definition check (request_json : result value) : M http_response :=
  try_except (check_report request_json)
    (fun e => ret (make_response (VDict [("error", VStr (exn_text w e))]) 500)).

End Main.

(* ================================================================== *)
(** * Vocabulary of the statements *)
(* ================================================================== *)

(** [m], started in [s], returns [a] and leaves the state [s']. *)
Definition returns {A} (m : M A) (s : state) (a : A) (s' : state) : Prop :=
  m s = (inr a, s').

(** [m], started in [s], raises [e] and leaves the state [s']. *)
Definition raises {A} (m : M A) (s : state) (e : pyexn) (s' : state) : Prop :=
  m s = (inl e, s').

(** The text of the field [k] of a request: [default] when the field is
    absent, [None] when it holds something else than a string. *)
Definition field (data : value) (k default : string) : option string :=
  match Py.get data k (VStr default) with
  | inr (VStr s) => Some s
  | _ => None
  end.

(** The plate, language and detail type a request carries, as sent (before
    any normalisation), with the defaults of the wire contract; [None] when
    the request does not follow the contract (a body that is no object, a
    field that is no string). *)
Definition request_fields (payload : value) : option (string * string * string) :=
  let data := if Py.truthy payload then payload else VDict [] in
  match field data "plate" "", field data "lang" "en", field data "type" "full" with
  | Some p, Some l, Some t => Some (p, l, t)
  | _, _, _ => None
  end.

(** The field [k] of a response body. *)
Definition report_field (resp : http_response) (k : string) : option value :=
  match body resp with
  | VDict items => Py.lookup k items
  | _ => None
  end.

(** The keys of a response body, in order. *)
Definition report_keys (resp : http_response) : list string :=
  match body resp with
  | VDict items => List.map fst items
  | _ => []
  end.

(** The status titles of the entries are ASCII text, where [is_active]
    is what the comparison of [get_insurance] gives. *)
Definition ascii_titles (entries : list ET.element) : bool :=
  forallb (fun e => Text.isascii (ET.findtext e "statusTitle" "")) entries.

(** The dicts [get_insurance] can return. *)
Inductive insurance_result (w : world) : value -> Prop :=
| ins_unknown : insurance_result w (expired_result VNone)
| ins_expired (days : Z) : insurance_result w (expired_result (VInt days))
| ins_active (valid_till : string) (days_left : Z) :
    insurance_result w (active_dict valid_till days_left)
| ins_error (e : pyexn) : insurance_result w (error_result w e).

(** The four kinds of notification and their two wordings. *)
Inductive notice : Type :=
| Violation
| UnpaidParking
| InsuranceExpired
| ExpiringSoon (days : Z).

Definition english (n : notice) : string :=
  match n with
  | Violation => "🔴 Traffic Violation"
  | UnpaidParking => "🅿️ Unpaid Parking"
  | InsuranceExpired => "⚠️ Insurance Expired"
  | ExpiringSoon days =>
      "⏳ Insurance expiring soon (" ++ Text.str_int days ++ " days left)"
  end.

Definition swahili (n : notice) : string :=
  match n with
  | Violation => "🔴 Kuna makosa ya barabarani"
  | UnpaidParking => "🅿️ Kuna maegesho hayajalipwa"
  | InsuranceExpired => "⚠️ Bima imekwisha muda wake"
  | ExpiringSoon days =>
      "⏳ Bima inakaribia kuisha (" ++ Text.str_int days ++ " siku)"
  end.

(** The notices the three sub-results call for, in the order [check]
    derives them. *)
Definition triggered (traffic parking insurance : value) : list notice :=
  ((if flag traffic "found" then [Violation] else []) ++
   (if flag parking "found" then [UnpaidParking] else []) ++
   (if flag insurance "expired" then [InsuranceExpired] else []) ++
   (if flag insurance "active" then
      match remaining_days insurance with
      | inr days => if days <=? 10 then [ExpiringSoon days] else []
      | inl _ => []
      end
    else []))%list.

(** The wording the normalised language [lang] selects. *)
Definition wording (lang : string) : notice -> string :=
  if String.eqb lang "en" then english else swahili.

(** The notifications of a report: the notices in the wording of [lang]. *)
Definition notices (lang : string) (ns : list notice) : list value :=
  List.map (fun n => VStr (wording lang n)) ns.

(** ** Concrete worlds *)

Module Examples.

Definition plate : string := "T123ABC".

Definition initial : state := State [] 0.

(** A service that does not answer in time. *)
Definition times_out {A} : string -> result (response A) :=
  fun _ => raise (RequestException "Read timed out.").

(** A service that answers every request with the same document. *)
Definition answers {A} (doc : A) : string -> result (response A) :=
  fun _ => ok (Response 200 (Some doc)).

Definition text_of (e : pyexn) : string :=
  match e with
  | RequestException what => what
  | HTTPError _ => "HTTP error"
  | JSONDecodeError => "Expecting value"
  | ParseError => "syntax error"
  | _ => "error"
  end.

(** The clock stands at 2023-11-14 22:13:20 UTC, local time is UTC+3, the
    log can be written and [sum] is the plain one. *)
Definition world_of
  (tms gepg : string -> result (response value))
  (tira : string -> result (response ET.element)) : world :=
  World tms gepg tira
        (fun _ => (1700000000, 0)) (fun _ => 10800) (fun _ => None)
        text_of false.

Definition ticket (charge penalty : value) : value :=
  VDict [("charge", charge); ("penalty", penalty)].

Definition pending (tickets : list value) : value :=
  VDict [("status", VStr "success"); ("pending_transactions", VList tickets)].

Definition assessment (amounts : list value) : value :=
  VList [VDict [("billDetails",
                 VList (List.map (fun a => VDict [("billAmount", a)]) amounts))]].

Definition cover (status_title : string) (end_date : option string) : ET.element :=
  ET.Element "data" None
    (ET.Element "statusTitle" (Some status_title) [] ::
     match end_date with
     | Some ms => [ET.Element "coverNoteEndDate" (Some ms) []]
     | None => []
     end).

Definition covers (entries : list ET.element) : ET.element :=
  ET.Element "response" None entries.

(** The tickets of the specification's example. *)
Definition two_tickets : list value :=
  [ticket (VFloat 10.6) (VInt 5); ticket (VInt 3) (VFloat 2.9)].

Definition w_tickets : world :=
  world_of (answers (pending two_tickets)) times_out times_out.

(** A ticket whose charge and penalty sum below zero. *)
Definition w_credit : world :=
  world_of (answers (pending [ticket (VFloat (-1.5)) (VInt 0)])) times_out times_out.

(** The bills of the specification's example. *)
Definition w_bills : world :=
  world_of times_out (answers (assessment [VFloat 1200.4; VFloat 300.3])) times_out.

(** The same bills under an interpreter whose [sum] compensates. *)
Definition w_bills_compensated : world :=
  World times_out (answers (assessment [VFloat 1200.4; VFloat 300.3])) times_out
        (fun _ => (1700000000, 0)) (fun _ => 10800) (fun _ => None)
        text_of true.

(** A bill whose amount is below zero. *)
Definition w_refund : world :=
  world_of times_out (answers (assessment [VFloat (-0.5)])) times_out.

(** The insurance service knows no cover for the plate. *)
Definition w_no_cover : world :=
  world_of times_out times_out (answers (covers [])).

(** One cover, not active, with no end date. *)
Definition w_no_end_date : world :=
  world_of times_out times_out (answers (covers [cover "EXPIRED" None])).

(** One cover, not active, whose end date is not a number. *)
Definition w_bad_end_date : world :=
  world_of times_out times_out (answers (covers [cover "EXPIRED" (Some "n/a")])).

(** Two covers, none active: the first ended 30 days before now, the
    second 2 days before now. *)
Definition w_expired : world :=
  world_of times_out times_out
    (answers (covers [cover "EXPIRED" (Some "1697408000000");
                      cover "CANCELLED" (Some "1699827200000")])).

(** One active cover that ends 5 days after now. *)
Definition w_active_5 : world :=
  world_of times_out times_out (answers (covers [cover "Active" (Some "1700432000000")])).

(** One active cover that ends 20 days after now. *)
Definition w_active_20 : world :=
  world_of times_out times_out (answers (covers [cover "ACTIVE" (Some "1701728000000")])).

(** The parking service times out; the other two answer. *)
Definition w_parking_down : world :=
  world_of (answers (pending two_tickets)) times_out
           (answers (covers [cover "Active" (Some "1700432000000")])).

(** What the sources and the log hold in these worlds. *)
Definition timed_out : value := VDict [("error", VStr "Read timed out.")].

Definition found_tickets (tickets : list value) (total : Z) : value :=
  VDict [("found", VBool true); ("tickets", VList tickets); ("total", VInt total)].

Definition found_bills (amounts : list value) (total : Z) : value :=
  VDict [("found", VBool true);
         ("bills", VList (List.map (fun a => VDict [("billAmount", a)]) amounts));
         ("total", VInt total)].

(** The local time the clock shows, 2023-11-15 01:13:20. *)
Definition local_now : Datetime.datetime := 1700010800000000.

Definition logged (message : string) (readings : nat) : state :=
  State [LogLine local_now message] readings.

(** A request body with the given string fields. *)
Definition request (fields : list (string * string)) : value :=
  VDict (List.map (fun kv => (fst kv, VStr (snd kv))) fields).

End Examples.

(** ** Vocabulary of the further properties *)

(** The dicts the traffic and the parking lookups return. *)
Definition not_found : value := VDict [("found", VBool false)].

Definition tickets_found (tickets : list value) (total : Z) : value :=
  VDict [("found", VBool true); ("tickets", VList tickets); ("total", VInt total)].

Definition bills_found (bills : list value) (total : Z) : value :=
  VDict [("found", VBool true); ("bills", VList bills); ("total", VInt total)].

(** The body of the answer to a request [check] could not read. *)
Definition failure_body (w : world) (e : pyexn) : value :=
  VDict [("error", VStr (exn_text w e))].

(** [s'] holds the log of [s] followed by at most [n] more entries, and
    the clock was read at most [k] times from [s] to [s']. *)
Definition grows (n k : nat) (s s' : state) : Prop :=
  exists extra,
    log_file s' = (log_file s ++ extra)%list /\
    (List.length extra <= n)%nat /\
    (ticks s <= ticks s' <= ticks s + k)%nat.

(** Whatever [m] does, it adds at most [n] entries to the log and reads
    the clock at most [k] times. *)
Definition bounded {A} (n k : nat) (m : M A) : Prop :=
  forall s, grows n k s (snd (m s)).

(** The world [w] with another traffic, parking or insurance service. *)
Definition with_TMS (w : world) (tms : string -> result (response value)) : world :=
  World tms (GePG_API w) (TIRA_API w)
        (clock w) (utcoffset w) (log_fault w) (exn_text w) (compensated_sum w).

Definition with_GePG (w : world) (gepg : string -> result (response value)) : world :=
  World (TMS_API w) gepg (TIRA_API w)
        (clock w) (utcoffset w) (log_fault w) (exn_text w) (compensated_sum w).

Definition with_TIRA (w : world) (tira : string -> result (response ET.element))
  : world :=
  World (TMS_API w) (GePG_API w) tira
        (clock w) (utcoffset w) (log_fault w) (exn_text w) (compensated_sum w).

(** The value of the key [k] of a decoded JSON object, [None] (of Python)
    when the key is missing. *)
Definition item (items : list (string * value)) (k : string) : value :=
  match Py.lookup k items with
  | Some x => x
  | None => VNone
  end.

(** The notices of a list are in the order in which [check] derives them:
    violation, parking, expired, expiring soon. *)
Definition rank (n : notice) : nat :=
  match n with
  | Violation => 0
  | UnpaidParking => 1
  | InsuranceExpired => 2
  | ExpiringSoon _ => 3
  end.

(** ** More concrete worlds *)

Module Cases.

(** The traffic service answers with HTTP 500 and a body that lists the
    two tickets. *)
Definition w_tms_500 : world :=
  Examples.world_of
    (fun _ => ok (Response 500 (Some (Examples.pending Examples.two_tickets))))
    Examples.times_out Examples.times_out.

(** The traffic service reports a failure, with tickets attached. *)
Definition w_tms_failed : world :=
  Examples.world_of
    (Examples.answers
       (VDict [("status", VStr "failed");
               ("pending_transactions", VList Examples.two_tickets)]))
    Examples.times_out Examples.times_out.

(** The traffic service reports success and no pending transaction. *)
Definition w_tms_clean : world :=
  Examples.world_of (Examples.answers (Examples.pending []))
                    Examples.times_out Examples.times_out.

(** One of the tickets has a charge that is no number. *)
Definition w_bad_ticket : world :=
  Examples.world_of
    (Examples.answers
       (Examples.pending [Examples.ticket (VInt 30000) (VInt 0);
                          Examples.ticket (VStr "n/a") (VInt 0)]))
    Examples.times_out Examples.times_out.

(** The parking service answers with an empty array. *)
Definition w_gepg_empty : world :=
  Examples.world_of Examples.times_out (Examples.answers (VList []))
                    Examples.times_out.

(** The parking service answers with an assessment that has no bill. *)
Definition w_gepg_no_bill : world :=
  Examples.world_of Examples.times_out
                    (Examples.answers (VList [VDict [("billDetails", VList [])]]))
                    Examples.times_out.

(** The second bill has no amount. *)
Definition w_bad_bill : world :=
  Examples.world_of Examples.times_out
    (Examples.answers
       (VList [VDict [("billDetails",
                       VList [VDict [("billAmount", VInt 1000)];
                              VDict [("billId", VStr "B2")]])]]))
    Examples.times_out.

(** The parking service answers the two bills with HTTP 500. *)
Definition w_gepg_500 : world :=
  Examples.world_of Examples.times_out
    (fun _ => ok (Response 500
                    (Some (Examples.assessment [VFloat 1200.4; VFloat 300.3]))))
    Examples.times_out.

(** An expired cover first, then an active one that ends 5 days after
    now. *)
Definition w_active_second : world :=
  Examples.world_of Examples.times_out Examples.times_out
    (Examples.answers
       (Examples.covers [Examples.cover "EXPIRED" (Some "1697408000000");
                         Examples.cover "active" (Some "1700432000000")])).

(** An active cover whose end date is no number. *)
Definition w_active_bad_date : world :=
  Examples.world_of Examples.times_out Examples.times_out
    (Examples.answers (Examples.covers [Examples.cover "ACTIVE" (Some "n/a")])).

(** A cover still marked active that ended 5 days before now. *)
Definition w_overdue : world :=
  Examples.world_of Examples.times_out Examples.times_out
    (Examples.answers (Examples.covers [Examples.cover "ACTIVE" (Some "1699568000000")])).

(** A cancelled cover whose end date is 5 days after now. *)
Definition w_cancelled_early : world :=
  Examples.world_of Examples.times_out Examples.times_out
    (Examples.answers
       (Examples.covers [Examples.cover "CANCELLED" (Some "1700432000000")])).

(** Tickets, bills and an expired cover at once. *)
Definition w_all : world :=
  Examples.world_of
    (Examples.answers (Examples.pending Examples.two_tickets))
    (Examples.answers (Examples.assessment [VFloat 1200.4; VFloat 300.3]))
    (Examples.answers (Examples.covers [Examples.cover "EXPIRED" (Some "1697408000000")])).

(** As [w_all], with a log file that cannot be opened. *)
Definition w_read_only : world :=
  World (TMS_API w_all) (GePG_API w_all) (TIRA_API w_all)
        (clock w_all) (utcoffset w_all)
        (fun _ => Some (OSError "Permission denied"))
        (exn_text w_all) (compensated_sum w_all).

End Cases.

(* ================================================================== *)
(** * The builtins on a few inputs *)
(* ================================================================== *)

Example parse_int_examples :
  Num.parse_int "1697408000000" = Some 1697408000000 /\
  Num.parse_int " -12_3 " = Some (-123) /\
  Num.parse_int "" = None /\
  Num.parse_int "12.0" = None /\
  Num.parse_int "n/a" = None.
Proof. repeat split; reflexivity. Qed.

(** A file separator is no whitespace for [int] and [float]; a literal of
    4300 digits is read, one of 4301 is refused. *)
Example parse_limits_examples :
  Num.parse_int (String (ascii_of_nat 28) "12") = None /\
  Num.parse_float (String (ascii_of_nat 28) "10") = None /\
  Num.parse_int (String (ascii_of_nat 11) "12") = Some 12 /\
  Num.parse_int (string_of_list_ascii (repeat "0"%char 4300)) = Some 0 /\
  Num.parse_int (string_of_list_ascii (repeat "0"%char 4301)) = None.
Proof. repeat split; vm_compute; reflexivity. Qed.

Example parse_float_examples :
  Num.parse_float "10.6" = Some 10.6%float /\
  Num.parse_float " 1_000.25e-2 " = Some 10.0025%float /\
  Num.parse_float "-.5" = Some (-0.5)%float /\
  Num.parse_float "1e400" = Some infinity /\
  Num.parse_float "1e" = None /\
  Num.parse_float "12 TZS" = None.
Proof. repeat split; vm_compute; reflexivity. Qed.

Example int_of_float_examples :
  Num.int_of_float 15.6%float = ok 15 /\
  Num.int_of_float (-1.5)%float = ok (-1) /\
  Num.floor (-1.5)%float = Some (-2) /\
  Num.int_of_float infinity = raise (OverflowError "cannot convert float infinity to integer").
Proof. repeat split; vm_compute; reflexivity. Qed.

Example sum_floats_examples :
  Num.sum_floats false [0.1; 0.1; 0.1; 0.1; 0.1; 0.1; 0.1; 0.1; 0.1; 0.1]%float
  = VFloat 0.99999999999999989 /\
  Num.sum_floats true [0.1; 0.1; 0.1; 0.1; 0.1; 0.1; 0.1; 0.1; 0.1; 0.1]%float
  = VFloat 1.
Proof. split; vm_compute; reflexivity. Qed.

Example fromtimestamp_examples :
  Num.truediv_1000 1697408000123 = ok 1697408000.123%float /\
  Datetime.to_timeval 1697408000.123%float = ok (1697408000, 123000) /\
  Datetime.to_timeval (-1.5)%float = ok (-2, 500000) /\
  Datetime.fromtimestamp (fun _ => 10800) 1697408000.123%float = ok 1697418800123000 /\
  Datetime.strftime_ymd 1697418800123000 = "2023-10-16" /\
  Datetime.strftime_ymd 951782400000000 = "2000-02-29" /\
  Datetime.days_between 0 1 = -1.
Proof. repeat split; vm_compute; reflexivity. Qed.

(** The first day after [datetime.min] is refused, the next second is
    read; the last second of the year 9999 is read, the next refused; a
    year below 1000 is printed without padding. *)
Example datetime_range_examples :
  Datetime.fromtimestamp (fun _ => 10800) (-62135521201)%float
  = raise (ValueError "year is out of range") /\
  Datetime.fromtimestamp (fun _ => 10800) (-62135521200)%float
  = ok (-62135510400000000) /\
  Datetime.fromtimestamp (fun _ => 10800) 253402289999%float
  = ok 253402300799000000 /\
  Datetime.fromtimestamp (fun _ => 10800) 253402290000%float
  = raise (ValueError "year is out of range") /\
  Datetime.strftime_ymd (-40000000000000000) = "702-06-15".
Proof. repeat split; vm_compute; reflexivity. Qed.

Example str_int_examples :
  Text.str_int (-15) = "-15" /\
  Text.str_int_grouped 1234567 = "1,234,567" /\
  Text.str_int_grouped (-1500) = "-1,500" /\
  Text.str_int_grouped 999 = "999".
Proof. repeat split; reflexivity. Qed.

(** [findall(".//data")] gives nested entries too, in document order, and
    not the root. *)
Example findall_descendants_example :
  ET.findall_descendants
    (ET.Element "data" None
       [ET.Element "data" (Some "a") [ET.Element "data" (Some "b") []];
        ET.Element "list" None [ET.Element "data" (Some "c") []]])
    "data"
  = [ET.Element "data" (Some "a") [ET.Element "data" (Some "b") []];
     ET.Element "data" (Some "b") [];
     ET.Element "data" (Some "c") []].
Proof. reflexivity. Qed.

(* ================================================================== *)
(** * Running a computation *)
(* ================================================================== *)

Lemma returns_or_raises {A} (m : M A) (s : state) :
  (exists a s', returns m s a s') \/ (exists e s', raises m s e s').
Proof.
  unfold returns, raises.
  destruct (m s) as [[e | a] s'].
  - right. now exists e, s'.
  - left. now exists a, s'.
Qed.

Lemma returns_inj {A} (m : M A) s a1 s1 a2 s2 :
  returns m s a1 s1 -> returns m s a2 s2 -> a1 = a2 /\ s1 = s2.
Proof.
  unfold returns. intros H1 H2. rewrite H1 in H2. now inversion H2.
Qed.

Lemma bind_returns {A B} (m : M A) (k : A -> M B) s a s' :
  returns m s a s' -> bind m k s = k a s'.
Proof. unfold returns, bind. now intros ->. Qed.

Lemma bind_raises {A B} (m : M A) (k : A -> M B) s e s' :
  raises m s e s' -> bind m k s = (inl e, s').
Proof. unfold raises, bind. now intros ->. Qed.

Lemma bind_lift_ok {A B} (r : result A) (k : A -> M B) s a :
  r = ok a -> bind (lift r) k s = k a s.
Proof. intros ->. reflexivity. Qed.

Lemma bind_lift_raise {A B} (r : result A) (k : A -> M B) s e :
  r = raise e -> bind (lift r) k s = (inl e, s).
Proof. intros ->. reflexivity. Qed.

(** A [try] whose handler returns a value never raises: it returns what the
    block returned, or what the handler made of the exception. *)
Lemma try_except_ret {A} (m : M A) (h : pyexn -> A) s :
  exists a s',
    returns (try_except m (fun e => ret (h e))) s a s' /\
    (forall b t, returns m s b t -> a = b /\ s' = t) /\
    (forall e t, raises m s e t -> a = h e /\ s' = t).
Proof.
  unfold returns, raises, try_except, ret.
  destruct (m s) as [[e | a] t].
  - exists (h e), t.
    split; [reflexivity | split; intros ? ? Hx; now inversion Hx].
  - exists a, t.
    split; [reflexivity | split; intros ? ? Hx; now inversion Hx].
Qed.

(** ** The three sources never raise *)

Section Sources.

Variable w : world.

Lemma get_traffic_penalties_returns plate s :
  exists v s',
    returns (get_traffic_penalties w plate) s v s' /\
    (forall b t, returns (traffic_lookup w plate) s b t -> v = b /\ s' = t) /\
    (forall e t, raises (traffic_lookup w plate) s e t ->
                 v = error_result w e /\ s' = t).
Proof. apply try_except_ret. Qed.

Lemma get_parking_fees_returns plate s :
  exists v s',
    returns (get_parking_fees w plate) s v s' /\
    (forall b t, returns (parking_lookup w plate) s b t -> v = b /\ s' = t) /\
    (forall e t, raises (parking_lookup w plate) s e t ->
                 v = error_result w e /\ s' = t).
Proof. apply try_except_ret. Qed.

Lemma get_insurance_returns plate s :
  exists v s',
    returns (get_insurance w plate) s v s' /\
    (forall b t, returns (insurance_lookup w plate) s b t -> v = b /\ s' = t) /\
    (forall e t, raises (insurance_lookup w plate) s e t ->
                 v = error_result w e /\ s' = t).
Proof. apply try_except_ret. Qed.

(** The inner [try] of the expired branch returns an expired result. *)
Lemma expired_branch_returns plate first s :
  exists d s',
    returns (try_except (expired_days w plate first)
                        (fun _ => ret (expired_result VNone))) s
            (expired_result d) s' /\
    (d = VNone \/ exists days, d = VInt days).
Proof.
  unfold returns, try_except, expired_days, bind, lift, ret.
  destruct (end_date_of w first) as [e | end_date].
  - exists VNone, s. split; [reflexivity | now left].
  - destruct (datetime_now w s) as [[e | now] s1].
    + exists VNone, s1. split; [reflexivity | now left].
    + destruct (log_alert w _ s1) as [[e | []] s2].
      * exists VNone, s2. split; [reflexivity | now left].
      * eexists _, s2. split; [reflexivity | right; eauto].
Qed.

(** Whatever the insurance service answers, [get_insurance] returns one of
    four dicts. *)
Lemma get_insurance_result plate s v s' :
  returns (get_insurance w plate) s v s' -> insurance_result w v.
Proof.
  unfold returns, get_insurance, try_except at 1, insurance_lookup, bind, lift, ret.
  destruct (TIRA_API w plate) as [e | res].
  { intros H; inversion H; constructor. }
  destruct (fromstring res) as [e | root].
  { intros H; inversion H; constructor. }
  destruct (ET.findall_descendants root "data") as [| first rest] eqn:Hentries.
  { intros H; inversion H; constructor. }
  destruct (expired_branch_returns plate first s) as (d & t & Hd & Hshape).
  unfold returns, ret in Hd.
  assert (Hexp : insurance_result w (expired_result d))
    by (destruct Hshape as [-> | [days ->]]; constructor).
  destruct (find is_active (first :: rest)) as [active |].
  - destruct (negb (ET.truthy active)).
    + rewrite Hd. intros H; inversion H; subst; exact Hexp.
    + unfold active_result, bind, lift, ret.
      destruct (end_date_of w active) as [e | end_date].
      { intros H; inversion H; constructor. }
      destruct (datetime_now w s) as [[e | now] s1].
      { intros H; inversion H; constructor. }
      intros H; inversion H; constructor.
  - rewrite Hd. intros H; inversion H; subst; exact Hexp.
Qed.

End Sources.

(** ** The aggregator *)

Lemma field_get data k default x :
  field data k default = Some x -> Py.get data k (VStr default) = ok (VStr x).
Proof.
  unfold field. destruct (Py.get data k (VStr default)) as [e | []];
    intros H; inversion H; reflexivity.
Qed.

Lemma request_fields_get payload p l t :
  request_fields payload = Some (p, l, t) ->
  let data := if Py.truthy payload then payload else VDict [] in
  Py.get data "plate" (VStr "") = ok (VStr p) /\
  Py.get data "lang" (VStr "en") = ok (VStr l) /\
  Py.get data "type" (VStr "full") = ok (VStr t).
Proof.
  unfold request_fields. cbv zeta.
  destruct (field _ "plate" "") as [p' |] eqn:Hp; [| discriminate].
  destruct (field _ "lang" "en") as [l' |] eqn:Hl; [| discriminate].
  destruct (field _ "type" "full") as [t' |] eqn:Ht; [| discriminate].
  intros H; inversion H; subst.
  auto using field_get.
Qed.

(** How the four dicts of [get_insurance] answer the tests of [check]. *)
Lemma insurance_flags w v :
  insurance_result w v ->
  (flag v "expired" = true /\ flag v "active" = false) \/
  (flag v "expired" = false /\ flag v "active" = false) \/
  (exists valid_till days,
      v = active_dict valid_till days /\
      flag v "expired" = false /\ flag v "active" = true /\
      remaining_days v = ok days).
Proof.
  intros [| days | valid_till days | e].
  - left. split; reflexivity.
  - left. split; reflexivity.
  - right. right. exists valid_till, days. repeat split; reflexivity.
  - right. left. split; reflexivity.
Qed.

(** The notifications [check] derives from the three sub-results are the
    triggered notices in the wording of the language. *)
Lemma notifications_of_notices w lang traffic parking insurance :
  insurance_result w insurance ->
  notifications_of lang traffic parking insurance
  = ok (notices lang (triggered traffic parking insurance)).
Proof.
  intros Hins. unfold notifications_of, triggered, notices, wording.
  unfold msg_violation, msg_parking, msg_expired, msg_expiring.
  destruct (insurance_flags w insurance Hins)
    as [[-> ->] | [[-> ->] | (vt & days & _ & -> & -> & ->)]];
    destruct (flag traffic "found"), (flag parking "found");
    cbn [rbind ok];
    try (destruct (days <=? 10));
    destruct (String.eqb lang "en"); reflexivity.
Qed.

(** What [check] answers to a request that follows the wire contract, from
    what the three sources returned. *)
Lemma check_run w payload s p l t traffic s1 parking s2 insurance s3 :
  request_fields payload = Some (p, l, t) ->
  returns (get_traffic_penalties w (Text.upper p)) s traffic s1 ->
  returns (get_parking_fees w (Text.upper p)) s1 parking s2 ->
  returns (get_insurance w (Text.upper p)) s2 insurance s3 ->
  let ns := notices (Text.lower l) (triggered traffic parking insurance) in
  returns (check w (ok payload)) s
    (make_response
       (if String.eqb (Text.lower t) "summary"
        then summary_report (Text.upper p) ns
        else full_report (Text.upper p) traffic parking insurance ns)
       200)
    s3.
Proof.
  intros Hreq Ht Hp Hi ns.
  destruct (request_fields_get _ _ _ _ Hreq) as (Hplate & Hlang & Htype).
  pose proof (get_insurance_result _ _ _ _ _ Hi) as Hshape.
  unfold returns, check, try_except, check_report.
  erewrite bind_lift_ok by reflexivity. cbv zeta.
  erewrite bind_lift_ok by exact Hplate.
  erewrite bind_lift_ok by reflexivity.
  erewrite bind_lift_ok by exact Hlang.
  erewrite bind_lift_ok by reflexivity.
  erewrite bind_lift_ok by exact Htype.
  erewrite bind_lift_ok by reflexivity.
  erewrite bind_returns by exact Ht.
  erewrite bind_returns by exact Hp.
  erewrite bind_returns by exact Hi.
  erewrite bind_lift_ok
    by (apply (notifications_of_notices w); exact Hshape).
  reflexivity.
Qed.

Lemma sources_run w plate s :
  exists traffic s1 parking s2 insurance s3,
    returns (get_traffic_penalties w plate) s traffic s1 /\
    returns (get_parking_fees w plate) s1 parking s2 /\
    returns (get_insurance w plate) s2 insurance s3.
Proof.
  destruct (get_traffic_penalties_returns w plate s) as (traffic & s1 & Ht & _).
  destruct (get_parking_fees_returns w plate s1) as (parking & s2 & Hp & _).
  destruct (get_insurance_returns w plate s2) as (insurance & s3 & Hi & _).
  exists traffic, s1, parking, s2, insurance, s3. auto.
Qed.

(** ** Text of the notifications *)

Lemma length_append (a b : string) :
  String.length (a ++ b) = (String.length a + String.length b)%nat.
Proof. induction a as [| c a IH]; simpl; [reflexivity | now rewrite IH]. Qed.

Lemma append_inv_head (p a b : string) : p ++ a = p ++ b -> a = b.
Proof.
  induction p as [| c p IH]; simpl; intros H; [exact H |].
  injection H as H. auto.
Qed.

Lemma append_inv_tail (a b c : string) : a ++ c = b ++ c -> a = b.
Proof.
  revert b. induction a as [| x a IH]; intros [| y b] H; simpl in H.
  - reflexivity.
  - apply (f_equal String.length) in H. simpl in H.
    rewrite length_append in H. lia.
  - apply (f_equal String.length) in H. simpl in H.
    rewrite length_append in H. lia.
  - injection H as -> H. f_equal. auto.
Qed.

Lemma str_int_inj (a b : Z) : Text.str_int a = Text.str_int b -> a = b.
Proof.
  unfold Text.str_int. intros H.
  apply DecimalZ.to_int_inj.
  assert (Hnil : forall z, Z.to_int z <> Decimal.Pos Decimal.Nil /\
                           Z.to_int z <> Decimal.Neg Decimal.Nil).
  { intros [| q | q]; simpl; split; try discriminate;
      intros E; injection E as E; now apply DecimalPos.Unsigned.to_uint_nonnil in E. }
  pose proof (NilZero.isi (Z.to_int a) (proj1 (Hnil a)) (proj2 (Hnil a))) as Ha.
  pose proof (NilZero.isi (Z.to_int b) (proj1 (Hnil b)) (proj2 (Hnil b))) as Hb.
  rewrite H in Ha. rewrite Ha in Hb. now injection Hb.
Qed.

Lemma english_inj (a b : notice) : english a = english b -> a = b.
Proof.
  destruct a as [| | | x], b as [| | | y]; simpl; intros H;
    try reflexivity; try discriminate.
  injection H as H. apply append_inv_tail in H.
  now apply str_int_inj in H as ->.
Qed.

Lemma swahili_inj (a b : notice) : swahili a = swahili b -> a = b.
Proof.
  destruct a as [| | | x], b as [| | | y]; simpl; intros H;
    try reflexivity; try discriminate.
  injection H as H. apply append_inv_tail in H.
  now apply str_int_inj in H as ->.
Qed.

Lemma wording_inj lang (a b : notice) : wording lang a = wording lang b -> a = b.
Proof.
  unfold wording. destruct (String.eqb lang "en");
    [apply english_inj | apply swahili_inj].
Qed.

Lemma in_notices lang (n : notice) (ns : list notice) :
  In (VStr (wording lang n)) (notices lang ns) <-> In n ns.
Proof.
  unfold notices. rewrite in_map_iff. split.
  - intros (k & Hk & Hin). injection Hk as Hk.
    now apply wording_inj in Hk as ->.
  - intros Hin. now exists n.
Qed.

(** The expiring-soon notice is triggered exactly by an active result with
    at most ten days left. *)
Lemma expiring_soon_triggered w traffic parking insurance n :
  insurance_result w insurance ->
  In (ExpiringSoon n) (triggered traffic parking insurance) <->
  (exists valid_till, insurance = active_dict valid_till n) /\ n <= 10.
Proof.
  intros Hins. unfold triggered. rewrite !in_app_iff.
  assert (Hno : forall (b : bool) (k : notice),
             (forall m, k <> ExpiringSoon m) ->
             ~ In (ExpiringSoon n) (if b then [k] else [])).
  { intros [] k Hk H; [| exact H].
    destruct H as [H | []]. now apply (Hk n). }
  split.
  - intros [H | [H | [H | H]]];
      try (exfalso; revert H; apply Hno; discriminate).
    destruct (insurance_flags w insurance Hins)
      as [[_ Ha] | [[_ Ha] | (vt & days & -> & _ & Ha & Hd)]];
      rewrite Ha in H; try (now simpl in H).
    rewrite Hd in H. cbv beta iota delta [ok] in H.
    destruct (Z.leb_spec days 10) as [Hle | Hgt]; [| now simpl in H].
    destruct H as [H | []]. injection H as ->.
    split; [now exists vt | exact Hle].
  - intros [[vt ->] Hle]. right. right. right.
    change (flag (active_dict vt n) "active") with true.
    change (remaining_days (active_dict vt n)) with (@ok Z n).
    cbv beta iota delta [ok].
    apply Z.leb_le in Hle. rewrite Hle. now left.
Qed.

Lemma report_notifications plate traffic parking insurance ns (summary : bool) :
  report_field
    (make_response
       (if summary then summary_report plate ns
        else full_report plate traffic parking insurance ns) 200)
    "notifications" = Some (VList ns).
Proof. destruct summary; reflexivity. Qed.

(* ================================================================== *)
(** * The aggregator: isolation of failures, shape, wording *)
(* ================================================================== *)

(** C3. Each of the three source fetches returns a dict whatever happens
    inside it: when its [try] block raises [e] it returns the error-result
    [{"error": str(e)}] instead of raising.  For a request that follows the
    wire contract and does not ask for the summary, [check] runs the three
    fetches one after the other, whatever each returned, and answers with
    status 200 and a report whose keys are plate, traffic_penalties,
    parking_fees, insurance and notifications, the three sub-results being
    what the three fetches returned. *)
Theorem source_failures_stay_in_the_report
  (w : world) (payload : value) (s : state) (p l t : string) :
  request_fields payload = Some (p, l, t) ->
  Text.lower t <> "summary" ->
  (forall plate s0,
      (exists v s', returns (get_traffic_penalties w plate) s0 v s') /\
      (exists v s', returns (get_parking_fees w plate) s0 v s') /\
      (exists v s', returns (get_insurance w plate) s0 v s')) /\
  (forall e, Py.getitem (error_result w e) "error" = ok (VStr (exn_text w e))) /\
  exists traffic s1 parking s2 insurance s3 resp,
    (returns (get_traffic_penalties w (Text.upper p)) s traffic s1 /\
     forall e s', raises (traffic_lookup w (Text.upper p)) s e s' ->
                  traffic = error_result w e) /\
    (returns (get_parking_fees w (Text.upper p)) s1 parking s2 /\
     forall e s', raises (parking_lookup w (Text.upper p)) s1 e s' ->
                  parking = error_result w e) /\
    (returns (get_insurance w (Text.upper p)) s2 insurance s3 /\
     forall e s', raises (insurance_lookup w (Text.upper p)) s2 e s' ->
                  insurance = error_result w e) /\
    returns (check w (ok payload)) s resp s3 /\
    status resp = 200 /\
    report_keys resp
    = ["plate"; "traffic_penalties"; "parking_fees"; "insurance"; "notifications"] /\
    report_field resp "traffic_penalties" = Some traffic /\
    report_field resp "parking_fees" = Some parking /\
    report_field resp "insurance" = Some insurance.
Proof.
  intros Hreq Hfull. split; [| split; [reflexivity |]].
  - intros plate s0.
    destruct (get_traffic_penalties_returns w plate s0) as (v1 & t1 & H1 & _).
    destruct (get_parking_fees_returns w plate s0) as (v2 & t2 & H2 & _).
    destruct (get_insurance_returns w plate s0) as (v3 & t3 & H3 & _).
    eauto 10.
  - destruct (get_traffic_penalties_returns w (Text.upper p) s)
      as (traffic & s1 & Ht & _ & Hte).
    destruct (get_parking_fees_returns w (Text.upper p) s1)
      as (parking & s2 & Hp & _ & Hpe).
    destruct (get_insurance_returns w (Text.upper p) s2)
      as (insurance & s3 & Hi & _ & Hie).
    pose proof (check_run w payload s p l t _ _ _ _ _ _ Hreq Ht Hp Hi) as Hrun.
    cbv zeta in Hrun.
    apply String.eqb_neq in Hfull. rewrite Hfull in Hrun.
    eexists traffic, s1, parking, s2, insurance, s3, _.
    split; [split; [exact Ht | intros e s' He; now apply (Hte e s')] |].
    split; [split; [exact Hp | intros e s' He; now apply (Hpe e s')] |].
    split; [split; [exact Hi | intros e s' He; now apply (Hie e s')] |].
    split; [exact Hrun |].
    repeat split; reflexivity.
Qed.

(** C7. [check] emits the expiring-soon notification with [n] days, in
    the wording of the language, exactly when [get_insurance] returned an
    active result whose [remaining_days] is [n] and [n <= 10]. *)
Theorem expiring_soon_iff_active_within_ten_days
  (w : world) (payload : value) (s : state) (p l t : string) :
  request_fields payload = Some (p, l, t) ->
  exists traffic s1 parking s2 insurance s3 resp ns,
    returns (get_traffic_penalties w (Text.upper p)) s traffic s1 /\
    returns (get_parking_fees w (Text.upper p)) s1 parking s2 /\
    returns (get_insurance w (Text.upper p)) s2 insurance s3 /\
    returns (check w (ok payload)) s resp s3 /\
    report_field resp "notifications" = Some (VList ns) /\
    forall n,
      In (VStr (wording (Text.lower l) (ExpiringSoon n))) ns <->
      (exists valid_till, insurance = active_dict valid_till n) /\ n <= 10.
Proof.
  intros Hreq.
  destruct (sources_run w (Text.upper p) s)
    as (traffic & s1 & parking & s2 & insurance & s3 & Ht & Hp & Hi).
  pose proof (check_run w payload s p l t _ _ _ _ _ _ Hreq Ht Hp Hi) as Hrun.
  cbv zeta in Hrun.
  eexists traffic, s1, parking, s2, insurance, s3, _, _.
  repeat (split; [eassumption |]).
  split; [apply report_notifications with (summary := String.eqb (Text.lower t) "summary") |].
  intros n. rewrite in_notices.
  apply (expiring_soon_triggered w).
  exact (get_insurance_result w _ _ _ _ Hi).
Qed.

(** C8, as amended.  The detail type is compared after lower-casing.  A
    request whose lower-cased type is "summary" gets status 200 and a body
    with exactly the fields plate and notifications, whatever the sources
    returned; any other request (the type unset included) gets status 200
    and the full report: plate, the three sub-results, notifications. *)
Theorem report_shape_by_lowercased_type
  (w : world) (payload : value) (s : state) (p l t : string) :
  request_fields payload = Some (p, l, t) ->
  exists traffic s1 parking s2 insurance s3 resp ns,
    returns (get_traffic_penalties w (Text.upper p)) s traffic s1 /\
    returns (get_parking_fees w (Text.upper p)) s1 parking s2 /\
    returns (get_insurance w (Text.upper p)) s2 insurance s3 /\
    returns (check w (ok payload)) s resp s3 /\
    status resp = 200 /\
    (Text.lower t = "summary" ->
     body resp = summary_report (Text.upper p) ns /\
     report_keys resp = ["plate"; "notifications"]) /\
    (Text.lower t <> "summary" ->
     body resp = full_report (Text.upper p) traffic parking insurance ns /\
     report_keys resp
     = ["plate"; "traffic_penalties"; "parking_fees"; "insurance"; "notifications"]).
Proof.
  intros Hreq.
  destruct (sources_run w (Text.upper p) s)
    as (traffic & s1 & parking & s2 & insurance & s3 & Ht & Hp & Hi).
  pose proof (check_run w payload s p l t _ _ _ _ _ _ Hreq Ht Hp Hi) as Hrun.
  cbv zeta in Hrun.
  eexists traffic, s1, parking, s2, insurance, s3, _, _.
  repeat (split; [eassumption |]).
  split; [reflexivity |].
  split; intros Hty.
  - apply String.eqb_eq in Hty. rewrite Hty. split; reflexivity.
  - apply String.eqb_neq in Hty. rewrite Hty. split; reflexivity.
Qed.

(** C9, as amended.  The language is compared after lower-casing: a
    request whose lower-cased language is "en" (the language unset
    included) gets every notification in the English wording, and any
    other request gets every notification in the Swahili wording, for all
    four kinds. *)
Theorem wording_by_lowercased_lang
  (w : world) (payload : value) (s : state) (p l t : string) :
  request_fields payload = Some (p, l, t) ->
  exists traffic s1 parking s2 insurance s3 resp,
    returns (get_traffic_penalties w (Text.upper p)) s traffic s1 /\
    returns (get_parking_fees w (Text.upper p)) s1 parking s2 /\
    returns (get_insurance w (Text.upper p)) s2 insurance s3 /\
    returns (check w (ok payload)) s resp s3 /\
    (Text.lower l = "en" ->
     report_field resp "notifications"
     = Some (VList (List.map (fun n => VStr (english n))
                             (triggered traffic parking insurance)))) /\
    (Text.lower l <> "en" ->
     report_field resp "notifications"
     = Some (VList (List.map (fun n => VStr (swahili n))
                             (triggered traffic parking insurance)))).
Proof.
  intros Hreq.
  destruct (sources_run w (Text.upper p) s)
    as (traffic & s1 & parking & s2 & insurance & s3 & Ht & Hp & Hi).
  pose proof (check_run w payload s p l t _ _ _ _ _ _ Hreq Ht Hp Hi) as Hrun.
  cbv zeta in Hrun.
  eexists traffic, s1, parking, s2, insurance, s3, _.
  repeat (split; [eassumption |]).
  split; intros Hl;
    rewrite (report_notifications _ _ _ _ _ (String.eqb (Text.lower t) "summary"));
    unfold notices, wording.
  - apply String.eqb_eq in Hl. now rewrite Hl.
  - apply String.eqb_neq in Hl. now rewrite Hl.
Qed.

(** C10. [lang] and [type] are lower-cased before they are compared.
    Whatever the case of the letters of the request's lang, the
    notifications are in English when it reads en once lower-cased (EN, En,
    ...) and in Swahili otherwise; whatever the case of its type, the
    report has the two keys of the summary when it reads summary once
    lower-cased (SUMMARY, ...) and the five keys of the full report
    otherwise; and two requests for the same plate whose languages and
    types differ only by case get the same answer. *)
Theorem lang_and_type_are_case_insensitive
  (w : world) (payload : value) (s : state) (p l t : string) :
  request_fields payload = Some (p, l, t) ->
  exists traffic s1 parking s2 insurance s3 resp,
    returns (get_traffic_penalties w (Text.upper p)) s traffic s1 /\
    returns (get_parking_fees w (Text.upper p)) s1 parking s2 /\
    returns (get_insurance w (Text.upper p)) s2 insurance s3 /\
    returns (check w (ok payload)) s resp s3 /\
    (Text.lower l = "en" ->
     report_field resp "notifications"
     = Some (VList (List.map (fun n => VStr (english n))
                             (triggered traffic parking insurance)))) /\
    (Text.lower l <> "en" ->
     report_field resp "notifications"
     = Some (VList (List.map (fun n => VStr (swahili n))
                             (triggered traffic parking insurance)))) /\
    (Text.lower t = "summary" ->
     report_keys resp = ["plate"; "notifications"]) /\
    (Text.lower t <> "summary" ->
     report_keys resp
     = ["plate"; "traffic_penalties"; "parking_fees"; "insurance"; "notifications"]) /\
    forall payload' l' t',
      request_fields payload' = Some (p, l', t') ->
      Text.lower l' = Text.lower l ->
      Text.lower t' = Text.lower t ->
      check w (ok payload') s = check w (ok payload) s.
Proof.
  intros Hreq.
  destruct (sources_run w (Text.upper p) s)
    as (traffic & s1 & parking & s2 & insurance & s3 & Ht & Hp & Hi).
  pose proof (check_run w payload s p l t _ _ _ _ _ _ Hreq Ht Hp Hi) as Hrun.
  cbv zeta in Hrun.
  eexists traffic, s1, parking, s2, insurance, s3, _.
  split; [exact Ht |]. split; [exact Hp |]. split; [exact Hi |].
  split; [exact Hrun |].
  split; [| split; [| split; [| split]]].
  - intros Hl.
    rewrite (report_notifications _ _ _ _ _ (String.eqb (Text.lower t) "summary")).
    unfold notices, wording. apply String.eqb_eq in Hl. now rewrite Hl.
  - intros Hl.
    rewrite (report_notifications _ _ _ _ _ (String.eqb (Text.lower t) "summary")).
    unfold notices, wording. apply String.eqb_neq in Hl. now rewrite Hl.
  - intros Hty. apply String.eqb_eq in Hty. now rewrite Hty.
  - intros Hty. apply String.eqb_neq in Hty. now rewrite Hty.
  - intros payload' l' t' Hreq' Hl Hty.
    pose proof (check_run w payload' s p l' t' _ _ _ _ _ _ Hreq' Ht Hp Hi) as Hrun'.
    unfold returns in Hrun, Hrun'. cbv zeta in Hrun'.
    rewrite Hrun, Hrun', Hl, Hty. reflexivity.
Qed.

(* ================================================================== *)
(** * Insurance: the state of the cover *)
(* ================================================================== *)

Lemma find_is_active_none (entries : list ET.element) :
  (forall e, In e entries ->
             Text.upper (ET.findtext e "statusTitle" "") <> "ACTIVE") ->
  find is_active entries = None.
Proof.
  induction entries as [| x xs IH]; intros H; simpl; [reflexivity |].
  unfold is_active at 1.
  destruct (String.eqb_spec (Text.upper (ET.findtext x "statusTitle" "")) "ACTIVE")
    as [Heq | _].
  - exfalso. apply (H x); [now left | exact Heq].
  - apply IH. intros e He. apply H. now right.
Qed.

(** An entry whose status title reads ACTIVE has a child, so it is true
    as a condition: [if not active] fails for it. *)
Lemma active_entry_is_truthy (e : ET.element) :
  is_active e = true -> ET.truthy e = true.
Proof.
  unfold is_active, ET.findtext, ET.truthy.
  destruct (ET.children e) as [| c cs]; [discriminate | reflexivity].
Qed.

(** The insurance fetch up to the choice of the branch, when the service
    answered with a document that has entries, none of them active. *)
Lemma get_insurance_none_active w plate s res root first rest :
  TIRA_API w plate = ok res ->
  decoded res = Some root ->
  ET.findall_descendants root "data" = first :: rest ->
  find is_active (first :: rest) = None ->
  get_insurance w plate s
  = try_except (expired_days w plate first)
               (fun _ => ret (expired_result VNone)) s.
Proof.
  intros Hres Hdoc Hentries Hactive.
  unfold get_insurance, insurance_lookup, try_except at 1.
  erewrite bind_lift_ok by exact Hres.
  erewrite bind_lift_ok by (unfold fromstring; now rewrite Hdoc).
  cbv zeta. rewrite Hentries, Hactive.
  destruct (expired_branch_returns w plate first s) as (d & s' & Hd & _).
  unfold returns in Hd. now rewrite Hd.
Qed.

Lemma expired_days_run w plate first s end_date now s1 s2 :
  end_date_of w first = ok end_date ->
  returns (datetime_now w) s now s1 ->
  returns (log_alert w (expired_message plate (Datetime.days_between now end_date)))
          s1 tt s2 ->
  returns (expired_days w plate first) s
          (expired_result (VInt (Datetime.days_between now end_date))) s2.
Proof.
  intros Hend Hnow Hlog. unfold returns, expired_days.
  erewrite bind_lift_ok by exact Hend.
  erewrite bind_returns by exact Hnow.
  cbv zeta. erewrite bind_returns by exact Hlog.
  reflexivity.
Qed.

(** C1, as amended.  When the document of the insurance service parses
    and holds no "data" entry, [get_insurance] returns
    [{"expired": True, "expired_days": None}], the dict of an expired cover
    whose day count is unknown, and changes nothing else; that dict passes
    the test of the expired notification, so every report built from it
    carries "Insurance Expired" in the wording of the language. *)
Theorem no_entries_is_reported_expired
  (w : world) (plate : string) (s : state)
  (res : response ET.element) (root : ET.element) :
  TIRA_API w plate = ok res ->
  decoded res = Some root ->
  ET.findall_descendants root "data" = [] ->
  returns (get_insurance w plate) s (expired_result VNone) s /\
  flag (expired_result VNone) "expired" = true /\
  forall lang traffic parking,
  exists ns,
    notifications_of lang traffic parking (expired_result VNone) = ok ns /\
    In (VStr (wording lang InsuranceExpired)) ns.
Proof.
  intros Hres Hdoc Hentries. split; [| split; [reflexivity |]].
  - unfold returns, get_insurance, insurance_lookup, try_except.
    erewrite bind_lift_ok by exact Hres.
    erewrite bind_lift_ok by (unfold fromstring; now rewrite Hdoc).
    cbv zeta. now rewrite Hentries.
  - intros lang traffic parking.
    exists (notices lang (triggered traffic parking (expired_result VNone))).
    split; [apply (notifications_of_notices w); constructor |].
    apply in_notices. unfold triggered. rewrite !in_app_iff.
    right. right. left. now left.
Qed.

(** C2, as amended.  In the branch with entries (their status titles
    ASCII text) but no active one, [get_insurance] never raises and never
    returns an error-result: it returns an expired dict, whose
    [expired_days] is [None] or an int.  When the text of the first entry's
    coverNoteEndDate is present but is no integer literal (ASCII text that
    [int] refuses, the empty text included), the day count is unknown
    ([None]) and nothing else changes.  When the field is missing, its text
    defaults to "0": the end date is the epoch and, when the clock can be
    read and the log written, the day count is the whole days from the
    epoch to now. *)
Theorem unreadable_end_date_is_expired
  (w : world) (plate : string) (s : state)
  (res : response ET.element) (root first : ET.element) (rest : list ET.element) :
  TIRA_API w plate = ok res ->
  decoded res = Some root ->
  ET.findall_descendants root "data" = first :: rest ->
  ascii_titles (first :: rest) = true ->
  (forall e, In e (first :: rest) ->
             Text.upper (ET.findtext e "statusTitle" "") <> "ACTIVE") ->
  (forall d,
      Py.getitem (expired_result d) "expired" = ok (VBool true) /\
      Py.getitem (expired_result d) "expired_days" = ok d /\
      forall e, expired_result d <> error_result w e) /\
  (exists d s',
      returns (get_insurance w plate) s (expired_result d) s' /\
      (d = VNone \/ exists days, d = VInt days)) /\
  (Text.isascii (ET.findtext first "coverNoteEndDate" "0") = true ->
   Num.parse_int (ET.findtext first "coverNoteEndDate" "0") = None ->
   returns (get_insurance w plate) s (expired_result VNone) s) /\
  (find (fun c => String.eqb (ET.tag c) "coverNoteEndDate") (ET.children first) = None ->
   forall epoch now s1 s2,
     Datetime.localtime (utcoffset w) 0 0 = ok epoch ->
     returns (datetime_now w) s now s1 ->
     returns (log_alert w (expired_message plate (Datetime.days_between now epoch)))
             s1 tt s2 ->
     returns (get_insurance w plate) s
             (expired_result (VInt (Datetime.days_between now epoch))) s2).
Proof.
  intros Hres Hdoc Hentries _ Hnone.
  apply find_is_active_none in Hnone.
  pose proof (get_insurance_none_active w plate s res root first rest
                Hres Hdoc Hentries Hnone) as Hget.
  split; [| split; [| split]].
  - intros d. repeat split. intros e He. discriminate He.
  - destruct (expired_branch_returns w plate first s) as (d & s' & Hd & Hshape).
    exists d, s'. split; [| exact Hshape].
    unfold returns in *. now rewrite Hget.
  - intros _ Hparse. unfold returns. rewrite Hget.
    unfold try_except, expired_days, end_date_of, Num.int_of_str.
    rewrite Hparse. reflexivity.
  - intros Hmissing epoch now s1 s2 Hepoch Hnow Hlog.
    assert (Hend : end_date_of w first = ok epoch).
    { unfold end_date_of, ET.findtext. rewrite Hmissing.
      change (Num.int_of_str "0") with (@ok Z 0).
      change (Num.truediv_1000 0) with (@ok float 0%float).
      unfold rbind, ok, Datetime.fromtimestamp.
      change (Datetime.to_timeval 0%float) with (@ok (Z * Z) (0, 0)).
      exact Hepoch. }
    pose proof (expired_days_run w plate first s epoch now s1 s2 Hend Hnow Hlog) as Hrun.
    unfold returns in *. rewrite Hget. unfold try_except. now rewrite Hrun.
Qed.

(** C6. When the document has entries (their status titles ASCII text)
    and no entry's status title is ACTIVE in any case, [get_insurance]
    reads the end date of the first entry in document order (its
    coverNoteEndDate as an integer of milliseconds, divided by 1000, then
    [fromtimestamp]) and, the clock and the log permitting, returns a dict
    whose [expired] is [True] and whose [expired_days] is the whole days of
    now minus that end date. *)
Theorem expired_days_from_first_entry
  (w : world) (plate : string) (s : state)
  (res : response ET.element) (root first : ET.element) (rest : list ET.element)
  (end_date now : Datetime.datetime) (s1 s2 : state) :
  TIRA_API w plate = ok res ->
  decoded res = Some root ->
  ET.findall_descendants root "data" = first :: rest ->
  ascii_titles (first :: rest) = true ->
  (forall e, In e (first :: rest) ->
             Text.upper (ET.findtext e "statusTitle" "") <> "ACTIVE") ->
  end_date_of w first = ok end_date ->
  returns (datetime_now w) s now s1 ->
  returns (log_alert w (expired_message plate (Datetime.days_between now end_date)))
          s1 tt s2 ->
  (exists v,
      returns (get_insurance w plate) s v s2 /\
      Py.getitem v "expired" = ok (VBool true) /\
      Py.getitem v "expired_days"
      = ok (VInt (Datetime.days_between now end_date))) /\
  (exists ms end_ts,
      Num.parse_int (ET.findtext first "coverNoteEndDate" "0") = Some ms /\
      Num.truediv_1000 ms = ok end_ts /\
      Datetime.fromtimestamp (utcoffset w) end_ts = ok end_date) /\
  Datetime.days_between now end_date = (now - end_date) / 86400000000.
Proof.
  intros Hres Hdoc Hentries _ Hnone Hend Hnow Hlog.
  apply find_is_active_none in Hnone.
  split; [| split; [| reflexivity]].
  - pose proof (expired_days_run w plate first s end_date now s1 s2 Hend Hnow Hlog)
      as Hrun.
    exists (expired_result (VInt (Datetime.days_between now end_date))).
    split; [| split; reflexivity].
    unfold returns in *.
    rewrite (get_insurance_none_active w plate s res root first rest
               Hres Hdoc Hentries Hnone).
    unfold try_except. now rewrite Hrun.
  - revert Hend. unfold end_date_of, Num.int_of_str.
    destruct (Num.parse_int _) as [ms |];
      cbv beta iota delta [rbind ok raise]; [| discriminate].
    destruct (Num.truediv_1000 ms) as [e | end_ts] eqn:Hdiv; [discriminate |].
    intros Hend. now exists ms, end_ts.
Qed.

(* ================================================================== *)
(** * Totals: truncation and sums *)
(* ================================================================== *)

(** The sign of a finite non-zero float is whether it is below zero. *)
Lemma Prim2SF_finite_sign (f : float) s m e :
  Prim2SF f = S754_finite s m e -> (f <? 0)%float = s.
Proof.
  unfold Prim2SF.
  destruct (PrimFloat.is_nan f); [discriminate |].
  destruct (PrimFloat.is_zero f) eqn:Hz; [discriminate |].
  destruct (PrimFloat.is_infinity f); [discriminate |].
  destruct (Z.frexp f) as [r ex].
  destruct (shr_fexp prec emax _ _ _) as [sh e'].
  destruct (shr_m sh); try discriminate.
  intros H. injection H as <- _ _.
  unfold PrimFloat.get_sign. now rewrite Hz.
Qed.

Lemma int_of_float_trunc (f : float) (n : Z) :
  Num.int_of_float f = ok n -> Num.trunc f = Some n.
Proof.
  unfold Num.int_of_float, Num.trunc.
  destruct (Prim2SF f); simpl; intros H; inversion H; reflexivity.
Qed.

(** Towards zero and downwards agree on a float that is not below zero. *)
Lemma trunc_floor (f : float) (n : Z) :
  (f <? 0)%float = false -> Num.trunc f = Some n -> Num.floor f = Some n.
Proof.
  unfold Num.trunc, Num.floor. intros Hsign.
  destruct (Prim2SF f) as [| | | s m e] eqn:Hf; simpl; try (intros H; exact H).
  apply Prim2SF_finite_sign in Hf. rewrite Hsign in Hf. subst s.
  intros H; exact H.
Qed.

Lemma rmap_rbind {A B C} (g : A -> result B) (h : B -> result C) xs zs :
  rmap (fun x => rbind (g x) h) xs = ok zs ->
  exists ys, rmap g xs = ok ys /\ rmap h ys = ok zs.
Proof.
  revert zs. induction xs as [| x xs IH]; simpl; intros zs H.
  - inversion H. now exists [].
  - unfold rbind at 1 2 in H. destruct (g x) as [e | y]; [discriminate |].
    destruct (h y) as [e | z] eqn:Hz; [discriminate |].
    destruct (rmap (fun x => rbind (g x) h) xs) as [e | zs'] eqn:Hrest;
      [discriminate |].
    destruct (IH zs' eq_refl) as (ys & Hys & Hzs).
    inversion H; subst. exists (y :: ys). simpl.
    rewrite Hys, Hz, Hzs. split; reflexivity.
Qed.

Lemma fold_left_add (xs : list Z) (a : Z) :
  fold_left Z.add xs a = a + fold_left Z.add xs 0.
Proof.
  revert a. induction xs as [| x xs IH]; intros a; simpl; [lia |].
  rewrite (IH (a + x)), (IH x). lia.
Qed.

(** [sum] over the truncated floats is the sum of their integer parts. *)
Lemma sum_ints_trunc (fs : list float) (ns : list Z) :
  rmap Num.int_of_float fs = ok ns ->
  Num.sum_with Num.trunc fs = Some (Num.sum_ints ns).
Proof.
  revert ns. induction fs as [| f fs IH]; simpl; intros ns H.
  - inversion H. reflexivity.
  - unfold rbind in H.
    destruct (Num.int_of_float f) as [e | n] eqn:Hf; [discriminate |].
    destruct (rmap Num.int_of_float fs) as [e | ns'] eqn:Hrest; [discriminate |].
    inversion H; subst.
    rewrite (int_of_float_trunc f n Hf), (IH ns' eq_refl).
    unfold Num.sum_ints. simpl. now rewrite (fold_left_add ns' n).
Qed.

Lemma sum_with_floor (fs : list float) (total : Z) :
  Forall (fun f => (f <? 0)%float = false) fs ->
  Num.sum_with Num.trunc fs = Some total ->
  Num.sum_with Num.floor fs = Some total.
Proof.
  intros Hall. revert total.
  induction Hall as [| f fs Hf _ IH]; simpl; intros total H; [exact H |].
  destruct (Num.trunc f) as [a |] eqn:Ha; [| discriminate].
  destruct (Num.sum_with Num.trunc fs) as [b |]; [| discriminate].
  now rewrite (trunc_floor f a Hf Ha), (IH b eq_refl).
Qed.

Lemma sum_plain_fold (xs : list float) (acc : float) :
  Num.sum_plain acc xs = fold_left PrimFloat.add xs acc.
Proof.
  revert acc. induction xs as [| x xs IH]; intros acc; simpl; [reflexivity |].
  apply IH.
Qed.

Lemma getitem_get (d : value) (k : string) (default b : value) :
  Py.getitem d k = ok b -> Py.get d k default = ok b.
Proof.
  destruct d; simpl; try discriminate.
  destruct (Py.lookup k items); [intros H; exact H | discriminate].
Qed.

(** A loop whose body raises on every str runs to its end only over a
    list: the characters of a non-empty str and the keys of a non-empty
    dict are strs. *)
Lemma looped_over_a_list {B} (f : value -> result B) v items ys :
  (forall s, exists e, f (VStr s) = raise e) ->
  Py.truthy v = true ->
  Py.iter v = ok items ->
  rmap f items = ok ys ->
  v = VList items.
Proof.
  intros Hstr Htrue Hiter Hmap.
  destruct v as [| b | n | x | s | l | kvs]; simpl in Hiter; try discriminate.
  - destruct s as [| c s]; [discriminate |].
    inversion Hiter; subst. simpl in Hmap.
    destruct (Hstr (String c EmptyString)) as [e He].
    rewrite He in Hmap. discriminate.
  - now inversion Hiter.
  - destruct kvs as [| [k x] kvs]; [discriminate |].
    inversion Hiter; subst. simpl in Hmap.
    destruct (Hstr k) as [e He]. rewrite He in Hmap. discriminate.
Qed.

Lemma flag_error_result w e k :
  String.eqb "error" k = false -> flag (error_result w e) k = false.
Proof.
  intros H. unfold flag, error_result.
  cbn [Py.is_dict Py.get Py.lookup andb ok]. now rewrite H.
Qed.

(** One step of a lookup that ended with a dict flagged "found": the step
    [x] did not raise, since the error-result of the handler, [Herr], has
    no such flag. *)
Tactic Notation "step" constr(x) "as" simple_intropattern(pat) "eqn" ident(E)
  "in" hyp(H) "else" hyp(Herr) :=
  destruct x as pat eqn:E; cbv beta iota in H; [now apply Herr in H |].

(** C4, as amended.  When the traffic lookup finds tickets, the total it
    returns is the sum over the tickets of the integer part, towards zero,
    of [float(charge) + float(penalty)]: each ticket's sum is truncated
    before it is accumulated.  Truncation towards zero is the floor for a
    sum that is not below zero, so for such tickets the total is the sum
    of the floors. *)
Theorem penalty_total_truncates_each_ticket
  (w : world) (plate : string) (s : state) (v : value) (s' : state) :
  returns (get_traffic_penalties w plate) s v s' ->
  flag v "found" = true ->
  exists tickets sums total,
    v = VDict [("found", VBool true);
               ("tickets", VList tickets);
               ("total", VInt total)] /\
    rmap ticket_sum tickets = ok sums /\
    Num.sum_with Num.trunc sums = Some total /\
    (Forall (fun f => (f <? 0)%float = false) sums ->
     Num.sum_with Num.floor sums = Some total).
Proof.
  unfold returns, get_traffic_penalties, try_except, traffic_lookup, bind, lift, ret.
  intros Hrun Hfound.
  assert (Herr : forall e t,
             (@inr pyexn value (error_result w e), t) = (inr v, s') -> False).
  { intros e t H. inversion H; subst.
    now rewrite flag_error_result in Hfound. }
  step (TMS_API w plate) as [e | res] eqn Hres in Hrun else Herr.
  step (raise_for_status res) as [e | []] eqn Hstatus in Hrun else Herr.
  step (json res) as [e | data] eqn Hdata in Hrun else Herr.
  step (Py.get data "status" VNone) as [e | st] eqn Hst in Hrun else Herr.
  step (if Py.eq_str st "success"
        then Py.get data "pending_transactions" VNone
        else ok (VBool false))
    as [e | pending] eqn Hpending in Hrun else Herr.
  destruct (Py.truthy pending) eqn:Htrue; cbv beta iota in Hrun;
    [| inversion Hrun; subst; discriminate].
  step (Py.getitem data "pending_transactions")
    as [e | tickets] eqn Hget in Hrun else Herr.
  step (Py.iter tickets) as [e | items] eqn Hiter in Hrun else Herr.
  step (rmap ticket_total items) as [e | amounts] eqn Hmap in Hrun else Herr.
  step (log_alert w (violation_message plate (Num.sum_ints amounts)) s)
    as [[e | []] t] eqn Hlog in Hrun else Herr.
  inversion Hrun; subst. clear Hrun Herr Hfound.
  assert (Hsame : pending = tickets).
  { destruct (Py.eq_str st "success"); [| inversion Hpending; subst; discriminate].
    rewrite (getitem_get _ _ VNone _ Hget) in Hpending. now inversion Hpending. }
  subst pending.
  assert (Hlist : tickets = VList items).
  { apply (looped_over_a_list ticket_total tickets items amounts); auto.
    intros x. eexists. reflexivity. }
  subst tickets.
  destruct (rmap_rbind ticket_sum Num.int_of_float items amounts Hmap)
    as (sums & Hsums & Hints).
  exists items, sums, (Num.sum_ints amounts).
  split; [reflexivity | split; [exact Hsums |]].
  pose proof (sum_ints_trunc sums amounts Hints) as Htrunc.
  split; [exact Htrunc |].
  intros Hall. now apply sum_with_floor.
Qed.

(** C5, as amended.  When the parking lookup finds bills, the list is not
    empty and the total it returns is the integer part, towards zero, of
    the float sum of [float(billAmount)] over the bills: one truncation,
    applied to the sum.  Under an interpreter whose [sum] is the plain one
    the float sum is the left-to-right sum from zero.  Truncation towards
    zero is the floor when the sum is not below zero. *)
Theorem parking_total_truncates_the_sum
  (w : world) (plate : string) (s : state) (v : value) (s' : state) :
  returns (get_parking_fees w plate) s v s' ->
  flag v "found" = true ->
  exists bills amounts sum total,
    v = VDict [("found", VBool true);
               ("bills", VList bills);
               ("total", VInt total)] /\
    bills <> [] /\
    rmap bill_amount bills = ok amounts /\
    Num.sum_floats (compensated_sum w) amounts = VFloat sum /\
    (compensated_sum w = false -> sum = fold_left PrimFloat.add amounts 0%float) /\
    Num.trunc sum = Some total /\
    ((sum <? 0)%float = false -> Num.floor sum = Some total).
Proof.
  unfold returns, get_parking_fees, try_except, parking_lookup, bind, lift, ret.
  intros Hrun Hfound.
  assert (Herr : forall e t,
             (@inr pyexn value (error_result w e), t) = (inr v, s') -> False).
  { intros e t H. inversion H; subst.
    now rewrite flag_error_result in Hfound. }
  step (GePG_API w (Text.upper plate))
    as [e | res] eqn Hres in Hrun else Herr.
  step (json res) as [e | doc] eqn Hdoc in Hrun else Herr.
  step (Py.getitem0 doc) as [e | first] eqn Hfirst in Hrun else Herr.
  step (Py.get first "billDetails" (VList []))
    as [e | bills] eqn Hbills in Hrun else Herr.
  destruct (Py.truthy bills) eqn:Htrue; cbv beta iota in Hrun;
    [| inversion Hrun; subst; discriminate].
  step (Py.iter bills) as [e | items] eqn Hiter in Hrun else Herr.
  step (rmap bill_amount items) as [e | amounts] eqn Hmap in Hrun else Herr.
  step (Num.int_of_number (Num.sum_floats (compensated_sum w) amounts))
    as [e | total] eqn Htotal in Hrun else Herr.
  step (log_alert w (parking_message plate total) s)
    as [[e | []] t] eqn Hlog in Hrun else Herr.
  inversion Hrun; subst. clear Hrun Herr Hfound.
  assert (Hlist : bills = VList items).
  { apply (looped_over_a_list bill_amount bills items amounts); auto.
    intros x. eexists. reflexivity. }
  subst bills.
  destruct items as [| b items]; [discriminate |].
  simpl in Hmap. unfold rbind at 1 in Hmap.
  destruct (bill_amount b) as [e | a] eqn:Ha; [discriminate |].
  unfold rbind in Hmap.
  destruct (rmap bill_amount items) as [e | rest] eqn:Hrest; [discriminate |].
  inversion Hmap; subst amounts. clear Hmap.
  simpl in Htotal.
  apply int_of_float_trunc in Htotal.
  eexists (b :: items), (a :: rest), _, total.
  split; [reflexivity |].
  split; [discriminate |].
  split; [simpl; now rewrite Ha, Hrest |].
  split; [reflexivity |].
  split; [| split; [exact Htotal | intros Hsign; now apply trunc_floor]].
  intros Hplain. rewrite Hplain. simpl. apply sum_plain_fold.
Qed.

(* ================================================================== *)
(** * The properties on concrete worlds *)
(* ================================================================== *)

(** ** Insurance *)

(** No cover known: the fetch returns the dict of an expired cover with an
    unknown day count, the very dict it returns for a cover whose end date
    cannot be read, and the report carries "Insurance Expired". *)
Lemma no_cover_is_reported_as_expired :
  ET.findall_descendants (Examples.covers []) "data" = [] /\
  returns (get_insurance Examples.w_no_cover Examples.plate) Examples.initial
          (expired_result VNone) Examples.initial /\
  returns (get_insurance Examples.w_bad_end_date Examples.plate) Examples.initial
          (expired_result VNone) Examples.initial /\
  flag (expired_result VNone) "expired" = true /\
  returns (check Examples.w_no_cover (ok (Examples.request [("plate", "t123abc")])))
          Examples.initial
          (make_response
             (full_report "T123ABC" Examples.timed_out Examples.timed_out
                          (expired_result VNone)
                          [VStr "⚠️ Insurance Expired"])
             200)
          Examples.initial.
Proof. repeat split; vm_compute; reflexivity. Qed.

Lemma no_entries_is_reported_expired_at_no_cover :
  returns (get_insurance Examples.w_no_cover Examples.plate) Examples.initial
          (expired_result VNone) Examples.initial /\
  exists ns,
    notifications_of "en" Examples.timed_out Examples.timed_out (expired_result VNone)
    = ok ns /\
    In (VStr "⚠️ Insurance Expired") ns.
Proof.
  destruct (no_entries_is_reported_expired
              Examples.w_no_cover Examples.plate Examples.initial
              (Response 200 (Some (Examples.covers []))) (Examples.covers [])
              eq_refl eq_refl eq_refl) as (Hrun & _ & Hnote).
  split; [exact Hrun |].
  exact (Hnote "en" Examples.timed_out Examples.timed_out).
Defined.

(** A cover that is not active and has no coverNoteEndDate: the text
    defaults to "0" and the fetch returns 19675 expired days, the days from
    1970-01-01 to the day of the request, not an unknown count. *)
Lemma missing_end_date_counts_from_the_epoch :
  find (fun c => String.eqb (ET.tag c) "coverNoteEndDate")
       (ET.children (Examples.cover "EXPIRED" None)) = None /\
  ET.findtext (Examples.cover "EXPIRED" None) "coverNoteEndDate" "0" = "0" /\
  returns (get_insurance Examples.w_no_end_date Examples.plate) Examples.initial
          (expired_result (VInt 19675))
          (Examples.logged "❌ Insurance expired for T123ABC – 19675 days ago" 2) /\
  expired_result (VInt 19675) <> expired_result VNone.
Proof.
  repeat split; try (vm_compute; reflexivity). discriminate.
Qed.

Lemma no_active_entry_at (entries : list ET.element) :
  forallb (fun e => negb (is_active e)) entries = true ->
  forall e, In e entries -> Text.upper (ET.findtext e "statusTitle" "") <> "ACTIVE".
Proof.
  rewrite forallb_forall. intros H e He Heq.
  specialize (H e He). unfold is_active in H.
  apply String.eqb_eq in Heq. rewrite Heq in H. discriminate.
Qed.

Lemma unreadable_end_date_is_expired_at_bad_date :
  Num.parse_int "n/a" = None /\
  returns (get_insurance Examples.w_bad_end_date Examples.plate) Examples.initial
          (expired_result VNone) Examples.initial /\
  Py.getitem (expired_result VNone) "expired_days" = ok VNone.
Proof.
  split; [reflexivity |].
  refine (let H := unreadable_end_date_is_expired
            Examples.w_bad_end_date Examples.plate Examples.initial
            (Response 200 (Some (Examples.covers [Examples.cover "EXPIRED" (Some "n/a")])))
            (Examples.covers [Examples.cover "EXPIRED" (Some "n/a")])
            (Examples.cover "EXPIRED" (Some "n/a")) []
            eq_refl eq_refl eq_refl eq_refl _ in
          conj (proj1 (proj2 (proj2 H)) eq_refl eq_refl)
               (proj1 (proj2 (proj1 H VNone)))).
  apply no_active_entry_at. reflexivity.
Defined.

(** Two covers, none active: the first in document order ended 30 days
    ago, the second, more recent, 2 days ago; the fetch reports 30. *)
Lemma expired_days_from_first_entry_at_two_covers :
  (exists v,
      returns (get_insurance Examples.w_expired Examples.plate) Examples.initial v
              (Examples.logged "❌ Insurance expired for T123ABC – 30 days ago" 2) /\
      Py.getitem v "expired" = ok (VBool true) /\
      Py.getitem v "expired_days" = ok (VInt 30)) /\
  (exists ms end_ts,
      Num.parse_int "1697408000000" = Some ms /\
      Num.truediv_1000 ms = ok end_ts /\
      Datetime.fromtimestamp (fun _ => 10800) end_ts = ok 1697418800000000).
Proof.
  refine (let H := expired_days_from_first_entry
            Examples.w_expired Examples.plate Examples.initial
            (Response 200 (Some (Examples.covers
               [Examples.cover "EXPIRED" (Some "1697408000000");
                Examples.cover "CANCELLED" (Some "1699827200000")])))
            (Examples.covers
               [Examples.cover "EXPIRED" (Some "1697408000000");
                Examples.cover "CANCELLED" (Some "1699827200000")])
            (Examples.cover "EXPIRED" (Some "1697408000000"))
            [Examples.cover "CANCELLED" (Some "1699827200000")]
            1697418800000000 Examples.local_now
            (State [] 1)
            (Examples.logged "❌ Insurance expired for T123ABC – 30 days ago" 2)
            eq_refl eq_refl eq_refl eq_refl _ _ _ _ in
          conj (proj1 H) (proj1 (proj2 H))).
  - apply no_active_entry_at. reflexivity.
  - vm_compute. reflexivity.
  - vm_compute. reflexivity.
  - vm_compute. reflexivity.
Defined.

(** ** Totals *)

(** The tickets of the specification: 10.6 + 5 gives 15, 3 + 2.9 gives 5,
    the total is 20; the integer part of the sum of all four is 21. *)
Lemma penalty_total_truncates_each_ticket_at_two_tickets :
  returns (get_traffic_penalties Examples.w_tickets Examples.plate) Examples.initial
          (Examples.found_tickets Examples.two_tickets 20)
          (Examples.logged "📛 Violation found for T123ABC – Total: 20 TZS" 1) /\
  (exists tickets sums,
      Examples.found_tickets Examples.two_tickets 20
      = Examples.found_tickets tickets 20 /\
      rmap ticket_sum tickets = ok sums /\
      Num.sum_with Num.trunc sums = Some 20 /\
      (Forall (fun f => (f <? 0)%float = false) sums ->
       Num.sum_with Num.floor sums = Some 20)) /\
  Num.trunc (10.6 + 5 + (3 + 2.9))%float = Some 21.
Proof.
  assert (Hrun : returns (get_traffic_penalties Examples.w_tickets Examples.plate)
                         Examples.initial
                         (Examples.found_tickets Examples.two_tickets 20)
                         (Examples.logged
                            "📛 Violation found for T123ABC – Total: 20 TZS" 1))
    by (vm_compute; reflexivity).
  split; [exact Hrun | split; [| vm_compute; reflexivity]].
  destruct (penalty_total_truncates_each_ticket
              Examples.w_tickets Examples.plate Examples.initial _ _ Hrun eq_refl)
    as (tickets & sums & total & Hv & Hsums & Htrunc & Hfloor).
  injection Hv as <- <-.
  exists Examples.two_tickets, sums. auto.
Defined.

(** A ticket whose charge is -1.5: the total is -1, the integer part
    towards zero, while the floor of the ticket's sum is -2. *)
Lemma negative_ticket_is_not_floored :
  returns (get_traffic_penalties Examples.w_credit Examples.plate) Examples.initial
          (Examples.found_tickets [Examples.ticket (VFloat (-1.5)) (VInt 0)] (-1))
          (Examples.logged "📛 Violation found for T123ABC – Total: -1 TZS" 1) /\
  rmap ticket_sum [Examples.ticket (VFloat (-1.5)) (VInt 0)] = ok [(-1.5)%float] /\
  Num.sum_with Num.floor [(-1.5)%float] = Some (-2) /\
  Num.sum_with Num.floor [(-1.5)%float] <> Some (-1).
Proof.
  repeat split; try (vm_compute; reflexivity).
  vm_compute. discriminate.
Qed.

(** The bills of the specification: 1200.4 + 300.3 is 1500.7 as a float,
    the total is 1500. *)
Lemma parking_total_truncates_the_sum_at_two_bills :
  returns (get_parking_fees Examples.w_bills Examples.plate) Examples.initial
          (Examples.found_bills [VFloat 1200.4; VFloat 300.3] 1500)
          (Examples.logged "💸 Parking fee found for T123ABC – Total: 1,500 TZS" 1) /\
  (exists amounts sum,
      rmap bill_amount
           (List.map (fun a => VDict [("billAmount", a)]) [VFloat 1200.4; VFloat 300.3])
      = ok amounts /\
      Num.sum_floats false amounts = VFloat sum /\
      sum = fold_left PrimFloat.add amounts 0%float /\
      Num.trunc sum = Some 1500 /\
      Num.floor sum = Some 1500).
Proof.
  assert (Hrun : returns (get_parking_fees Examples.w_bills Examples.plate)
                         Examples.initial
                         (Examples.found_bills [VFloat 1200.4; VFloat 300.3] 1500)
                         (Examples.logged
                            "💸 Parking fee found for T123ABC – Total: 1,500 TZS" 1))
    by (vm_compute; reflexivity).
  split; [exact Hrun |].
  destruct (parking_total_truncates_the_sum
              Examples.w_bills Examples.plate Examples.initial _ _ Hrun eq_refl)
    as (bills & amounts & sum & total & Hv & _ & Hamounts & Hsum & Hplain & Htrunc & Hfloor).
  injection Hv as <- <-.
  exists amounts, sum.
  split; [exact Hamounts |].
  split; [exact Hsum |].
  split; [exact (Hplain eq_refl) |].
  split; [exact Htrunc |].
  apply Hfloor.
  simpl in Hamounts. injection Hamounts as <-.
  simpl in Hsum. injection Hsum as <-.
  vm_compute. reflexivity.
Defined.

(** The same bills total 1500 under a compensated [sum] too. *)
Lemma two_bills_compensated :
  returns (get_parking_fees Examples.w_bills_compensated Examples.plate)
          Examples.initial
          (Examples.found_bills [VFloat 1200.4; VFloat 300.3] 1500)
          (Examples.logged "💸 Parking fee found for T123ABC – Total: 1,500 TZS" 1).
Proof. vm_compute. reflexivity. Qed.

(** A bill of -0.5: the total is 0, the integer part towards zero, while
    the floor of the sum is -1. *)
Lemma negative_bill_is_not_floored :
  returns (get_parking_fees Examples.w_refund Examples.plate) Examples.initial
          (Examples.found_bills [VFloat (-0.5)] 0)
          (Examples.logged "💸 Parking fee found for T123ABC – Total: 0 TZS" 1) /\
  Num.sum_floats false [(-0.5)%float] = VFloat (-0.5) /\
  Num.floor (-0.5)%float = Some (-1) /\
  Num.floor (-0.5)%float <> Some 0.
Proof.
  repeat split; try (vm_compute; reflexivity).
  vm_compute. discriminate.
Qed.

(** ** The aggregator *)

(** The parking service times out: the report still holds the tickets and
    the cover, the parking sub-result is the error-result with the message
    of the timeout, and the status is 200. *)
Lemma parking_timeout_report :
  returns (check Examples.w_parking_down (ok (Examples.request [("plate", "t123abc")])))
          Examples.initial
          (make_response
             (full_report "T123ABC"
                (Examples.found_tickets Examples.two_tickets 20)
                Examples.timed_out
                (active_dict "2023-11-20" 5)
                [VStr "🔴 Traffic Violation";
                 VStr "⏳ Insurance expiring soon (5 days left)"])
             200)
          (Examples.logged "📛 Violation found for T123ABC – Total: 20 TZS" 2).
Proof. vm_compute. reflexivity. Qed.

Lemma source_failures_stay_in_the_report_at_parking_timeout :
  raises (parking_lookup Examples.w_parking_down "T123ABC")
         (Examples.logged "📛 Violation found for T123ABC – Total: 20 TZS" 1)
         (RequestException "Read timed out.")
         (Examples.logged "📛 Violation found for T123ABC – Total: 20 TZS" 1) /\
  exists traffic parking insurance resp s3,
    traffic = Examples.found_tickets Examples.two_tickets 20 /\
    parking = error_result Examples.w_parking_down (RequestException "Read timed out.") /\
    returns (check Examples.w_parking_down
                   (ok (Examples.request [("plate", "t123abc")])))
            Examples.initial resp s3 /\
    status resp = 200 /\
    report_field resp "traffic_penalties" = Some traffic /\
    report_field resp "parking_fees" = Some parking /\
    report_field resp "insurance" = Some insurance.
Proof.
  split; [vm_compute; reflexivity |].
  destruct (source_failures_stay_in_the_report
              Examples.w_parking_down (Examples.request [("plate", "t123abc")])
              Examples.initial "t123abc" "en" "full" eq_refl)
    as (_ & _ & traffic & s1 & parking & s2 & insurance & s3 & resp
        & (Ht & _) & (Hp & Hpe) & _ & Hcheck & Hstatus & _ & Hrt & Hrp & Hri).
  - vm_compute. discriminate.
  - exists traffic, parking, insurance, resp, s3.
    assert (Hs1 : traffic = Examples.found_tickets Examples.two_tickets 20 /\
                  s1 = Examples.logged
                         "📛 Violation found for T123ABC – Total: 20 TZS" 1).
    { unfold returns in Ht. vm_compute in Ht. injection Ht as <- <-.
      split; reflexivity. }
    destruct Hs1 as [Htraffic Hs1].
    split; [exact Htraffic |].
    split; [| repeat split; assumption].
    apply (Hpe _ s1). rewrite Hs1. vm_compute. reflexivity.
Defined.

(** An active cover with 5 days left: the notification is emitted. *)
Lemma expiring_soon_iff_active_within_ten_days_at_5 :
  exists resp s',
    returns (check Examples.w_active_5 (ok (Examples.request [("plate", "t123abc")])))
            Examples.initial resp s' /\
    report_field resp "insurance" = Some (active_dict "2023-11-20" 5) /\
    exists ns,
      report_field resp "notifications" = Some (VList ns) /\
      In (VStr "⏳ Insurance expiring soon (5 days left)") ns.
Proof.
  destruct (expiring_soon_iff_active_within_ten_days
              Examples.w_active_5 (Examples.request [("plate", "t123abc")])
              Examples.initial "t123abc" "en" "full" eq_refl)
    as (traffic & s1 & parking & s2 & insurance & s3 & resp & ns
        & Ht & Hp & Hi & Hcheck & Hns & Hiff).
  assert (Hresp : resp = make_response
                           (full_report "T123ABC" Examples.timed_out Examples.timed_out
                              (active_dict "2023-11-20" 5)
                              [VStr "⏳ Insurance expiring soon (5 days left)"])
                           200).
  { unfold returns in Hcheck. vm_compute in Hcheck. now injection Hcheck as <- _. }
  assert (Hins : insurance = active_dict "2023-11-20" 5).
  { unfold returns in Ht, Hp, Hi.
    vm_compute in Ht. injection Ht as _ <-.
    vm_compute in Hp. injection Hp as _ <-.
    vm_compute in Hi. now injection Hi as <- _. }
  exists resp, s3. split; [exact Hcheck |].
  split; [rewrite Hresp; reflexivity |].
  exists ns. split; [exact Hns |].
  apply (Hiff 5). split; [exists "2023-11-20"; exact Hins | lia].
Defined.

(** An active cover with 20 days left: no notification. *)
Lemma active_20_days_is_silent :
  returns (check Examples.w_active_20 (ok (Examples.request [("plate", "t123abc")])))
          Examples.initial
          (make_response
             (full_report "T123ABC" Examples.timed_out Examples.timed_out
                          (active_dict "2023-12-05" 20) [])
             200)
          (State [] 1).
Proof. vm_compute. reflexivity. Qed.

(** The type "SUMMARY", which is not the string "summary", gets the
    two-field summary and not the full report. *)
Lemma summary_in_capitals_gets_the_summary :
  request_fields (Examples.request [("plate", "t123abc"); ("type", "SUMMARY")])
  = Some ("t123abc", "en", "SUMMARY") /\
  "SUMMARY" <> "summary" /\
  returns (check Examples.w_tickets
                 (ok (Examples.request [("plate", "t123abc"); ("type", "SUMMARY")])))
          Examples.initial
          (make_response
             (summary_report "T123ABC" [VStr "🔴 Traffic Violation"]) 200)
          (Examples.logged "📛 Violation found for T123ABC – Total: 20 TZS" 1) /\
  report_keys (make_response
                 (summary_report "T123ABC" [VStr "🔴 Traffic Violation"]) 200)
  = ["plate"; "notifications"].
Proof.
  split; [reflexivity |].
  split; [discriminate |].
  split; [vm_compute |]; reflexivity.
Qed.

Lemma report_shape_by_lowercased_type_at_summary :
  exists resp s',
    returns (check Examples.w_tickets
                   (ok (Examples.request [("plate", "t123abc"); ("type", "Summary")])))
            Examples.initial resp s' /\
    status resp = 200 /\
    report_keys resp = ["plate"; "notifications"].
Proof.
  destruct (report_shape_by_lowercased_type
              Examples.w_tickets
              (Examples.request [("plate", "t123abc"); ("type", "Summary")])
              Examples.initial "t123abc" "en" "Summary" eq_refl)
    as (traffic & s1 & parking & s2 & insurance & s3 & resp & ns
        & _ & _ & _ & Hcheck & Hstatus & Hsummary & _).
  exists resp, s3.
  split; [exact Hcheck |].
  split; [exact Hstatus |].
  exact (proj2 (Hsummary eq_refl)).
Defined.

(** The language "EN", which is not the string "en", gets the English
    wording and not the Swahili one. *)
Lemma lang_in_capitals_gets_english :
  request_fields (Examples.request [("plate", "t123abc"); ("lang", "EN")])
  = Some ("t123abc", "EN", "full") /\
  "EN" <> "en" /\
  exists resp s',
    returns (check Examples.w_tickets
                   (ok (Examples.request [("plate", "t123abc"); ("lang", "EN")])))
            Examples.initial resp s' /\
    report_field resp "notifications" = Some (VList [VStr (english Violation)]) /\
    english Violation <> swahili Violation.
Proof.
  split; [reflexivity |].
  split; [discriminate |].
  eexists _, _. split; [vm_compute; reflexivity |].
  split; [reflexivity | discriminate].
Qed.

Lemma wording_by_lowercased_lang_at_fr :
  exists resp s',
    returns (check Examples.w_tickets
                   (ok (Examples.request [("plate", "t123abc"); ("lang", "fr")])))
            Examples.initial resp s' /\
    report_field resp "notifications"
    = Some (VList [VStr "🔴 Kuna makosa ya barabarani"]).
Proof.
  destruct (wording_by_lowercased_lang
              Examples.w_tickets
              (Examples.request [("plate", "t123abc"); ("lang", "fr")])
              Examples.initial "t123abc" "fr" "full" eq_refl)
    as (traffic & s1 & parking & s2 & insurance & s3 & resp
        & Ht & Hp & Hi & Hcheck & _ & Hsw).
  exists resp, s3. split; [exact Hcheck |].
  rewrite Hsw by (vm_compute; discriminate).
  unfold returns in Ht, Hp, Hi.
  vm_compute in Ht. injection Ht as <- <-.
  vm_compute in Hp. injection Hp as <- <-.
  vm_compute in Hi. injection Hi as <- _.
  reflexivity.
Defined.

(** EN and SUMMARY, for an active cover with 5 days left: the summary,
    with the expiring-soon notification in English, as for en and
    summary. *)
Lemma lang_and_type_are_case_insensitive_at_capitals :
  exists resp s3,
    returns (check Examples.w_active_5
               (ok (Examples.request
                      [("plate", "t123abc"); ("lang", "EN"); ("type", "SUMMARY")])))
            Examples.initial resp s3 /\
    report_field resp "notifications"
    = Some (VList [VStr "⏳ Insurance expiring soon (5 days left)"]) /\
    report_keys resp = ["plate"; "notifications"] /\
    check Examples.w_active_5
          (ok (Examples.request
                 [("plate", "t123abc"); ("lang", "en"); ("type", "summary")]))
          Examples.initial
    = check Examples.w_active_5
            (ok (Examples.request
                   [("plate", "t123abc"); ("lang", "EN"); ("type", "SUMMARY")]))
            Examples.initial.
Proof.
  destruct (lang_and_type_are_case_insensitive
              Examples.w_active_5
              (Examples.request
                 [("plate", "t123abc"); ("lang", "EN"); ("type", "SUMMARY")])
              Examples.initial "t123abc" "EN" "SUMMARY" eq_refl)
    as (traffic & s1 & parking & s2 & insurance & s3 & resp
        & Ht & Hp & Hi & Hcheck & Hen & _ & Hsummary & _ & Hsame).
  exists resp, s3.
  split; [exact Hcheck |].
  split; [| split].
  - rewrite (Hen eq_refl).
    unfold returns in Ht, Hp, Hi.
    vm_compute in Ht. injection Ht as <- <-.
    vm_compute in Hp. injection Hp as <- <-.
    vm_compute in Hi. injection Hi as <- _.
    reflexivity.
  - exact (Hsummary eq_refl).
  - apply (Hsame (Examples.request
                    [("plate", "t123abc"); ("lang", "en"); ("type", "summary")])
                 "en" "summary"); reflexivity.
Defined.

(** "EN" and "SUMMARY" select the English wording and the summary. *)
Lemma capitals_select_english_and_summary :
  returns (check Examples.w_active_5
                 (ok (Examples.request
                        [("plate", "t123abc"); ("lang", "EN"); ("type", "SUMMARY")])))
          Examples.initial
          (make_response
             (summary_report "T123ABC"
                             [VStr "⏳ Insurance expiring soon (5 days left)"])
             200)
          (State [] 1).
Proof. vm_compute. reflexivity. Qed.

(* ================================================================== *)
(** * The log and the clock *)
(* ================================================================== *)

Lemma grows_refl s : grows 0 0 s s.
Proof.
  exists []. rewrite app_nil_r. simpl. repeat split; lia.
Qed.

Lemma grows_trans n1 k1 n2 k2 s1 s2 s3 :
  grows n1 k1 s1 s2 -> grows n2 k2 s2 s3 -> grows (n1 + n2) (k1 + k2) s1 s3.
Proof.
  intros (x & Hx & Hnx & Hkx) (y & Hy & Hny & Hky).
  exists (x ++ y)%list. rewrite Hy, Hx, app_assoc, length_app.
  repeat split; lia.
Qed.

Lemma grows_weaken n k n' k' s s' :
  (n <= n')%nat -> (k <= k')%nat -> grows n k s s' -> grows n' k' s s'.
Proof.
  intros Hn Hk (x & Hx & Hnx & Hkx). exists x. repeat split; try assumption; lia.
Qed.

Lemma bounded_weaken {A} n k n' k' (m : M A) :
  (n <= n')%nat -> (k <= k')%nat -> bounded n k m -> bounded n' k' m.
Proof. intros Hn Hk H s. exact (grows_weaken n k n' k' _ _ Hn Hk (H s)). Qed.

Lemma bounded_ret {A} (a : A) : bounded 0 0 (ret a).
Proof. intros s. apply grows_refl. Qed.

Lemma bounded_lift {A} (r : result A) : bounded 0 0 (lift r).
Proof. intros s. apply grows_refl. Qed.

Lemma bounded_bind {A B} n1 k1 n2 k2 (m : M A) (f : A -> M B) :
  bounded n1 k1 m -> (forall a, bounded n2 k2 (f a)) ->
  bounded (n1 + n2) (k1 + k2) (bind m f).
Proof.
  intros Hm Hf s. unfold bind. specialize (Hm s).
  destruct (m s) as [[e | a] s1]; simpl in *.
  - apply (grows_weaken n1 k1); [lia | lia | exact Hm].
  - exact (grows_trans _ _ _ _ _ _ _ Hm (Hf a s1)).
Qed.

Lemma bounded_try {A} n1 k1 n2 k2 (m : M A) (h : pyexn -> M A) :
  bounded n1 k1 m -> (forall e, bounded n2 k2 (h e)) ->
  bounded (n1 + n2) (k1 + k2) (try_except m h).
Proof.
  intros Hm Hh s. unfold try_except. specialize (Hm s).
  destruct (m s) as [[e | a] s1]; simpl in *.
  - exact (grows_trans _ _ _ _ _ _ _ Hm (Hh e s1)).
  - apply (grows_weaken n1 k1); [lia | lia | exact Hm].
Qed.

(** A step that cannot touch the state leaves the bound of what follows. *)
Lemma bounded_after_lift {A B} n k (r : result A) (f : A -> M B) :
  (forall a, bounded n k (f a)) -> bounded n k (bind (lift r) f).
Proof. intros Hf. exact (bounded_bind 0 0 n k _ _ (bounded_lift r) Hf). Qed.

Lemma bounded_now w : bounded 0 1 (datetime_now w).
Proof.
  intros s. unfold datetime_now. destruct (clock w (ticks s)) as [sec us].
  exists []. simpl. rewrite app_nil_r. repeat split; lia.
Qed.

Lemma bounded_log w message : bounded 1 1 (log_alert w message).
Proof.
  intros s. unfold log_alert, datetime_now.
  destruct (log_fault w s); [apply (grows_weaken 0 0); [lia | lia | apply grows_refl] |].
  destruct (clock w (ticks s)) as [sec us].
  destruct (Datetime.localtime (utcoffset w) sec us) as [e | now]; simpl.
  - exists []. simpl. rewrite app_nil_r. repeat split; lia.
  - eexists [_]. simpl. repeat split; lia.
Qed.

Lemma bounded_traffic w plate : bounded 1 1 (get_traffic_penalties w plate).
Proof.
  unfold get_traffic_penalties.
  apply (bounded_try 1 1 0 0); [| intros; apply bounded_ret].
  unfold traffic_lookup.
  repeat (apply bounded_after_lift; intros).
  destruct (Py.truthy _).
  - repeat (apply bounded_after_lift; intros).
    apply (bounded_bind 1 1 0 0); [apply bounded_log | intros; apply bounded_ret].
  - apply (bounded_weaken 0 0); [lia | lia | apply bounded_ret].
Qed.

Lemma bounded_parking w plate : bounded 1 1 (get_parking_fees w plate).
Proof.
  unfold get_parking_fees.
  apply (bounded_try 1 1 0 0); [| intros; apply bounded_ret].
  unfold parking_lookup.
  repeat (apply bounded_after_lift; intros).
  destruct (Py.truthy _).
  - repeat (apply bounded_after_lift; intros).
    apply (bounded_bind 1 1 0 0); [apply bounded_log |].
    intros. apply bounded_after_lift. intros. apply bounded_ret.
  - apply (bounded_weaken 0 0); [lia | lia | apply bounded_ret].
Qed.

Lemma bounded_expired_branch w plate first :
  bounded 1 2 (try_except (expired_days w plate first)
                          (fun _ => ret (expired_result VNone))).
Proof.
  apply (bounded_try 1 2 0 0); [| intros; apply bounded_ret].
  unfold expired_days. apply bounded_after_lift. intros end_date.
  apply (bounded_bind 0 1 1 1); [apply bounded_now |]. intros now.
  apply (bounded_bind 1 1 0 0); [apply bounded_log | intros; apply bounded_ret].
Qed.

Lemma bounded_insurance w plate : bounded 1 2 (get_insurance w plate).
Proof.
  unfold get_insurance.
  apply (bounded_try 1 2 0 0); [| intros; apply bounded_ret].
  unfold insurance_lookup.
  repeat (apply bounded_after_lift; intros). cbv zeta.
  destruct (ET.findall_descendants _ "data") as [| first rest].
  { apply (bounded_weaken 0 0); [lia | lia | apply bounded_ret]. }
  assert (Hactive : forall e, bounded 1 2 (active_result w e)).
  { intros e. unfold active_result. apply bounded_after_lift. intros end_date.
    apply (bounded_weaken 0 1); [lia | lia |].
    apply (bounded_bind 0 1 0 0); [apply bounded_now | intros; apply bounded_ret]. }
  destruct (find is_active (first :: rest)) as [e |].
  - destruct (negb (ET.truthy e)); [apply bounded_expired_branch | apply Hactive].
  - apply bounded_expired_branch.
Qed.

(** X1. Whatever the request and the three services, [check] only appends
    to the log: the entries it found there stay, in their order, and at
    most three entries (one per call of [log_alert]) follow them; it reads
    the clock at most four times. *)
Theorem check_only_appends_to_the_log
  (w : world) (request_json : result value) (s : state) :
  exists extra,
    log_file (snd (check w request_json s)) = (log_file s ++ extra)%list /\
    (List.length extra <= 3)%nat /\
    (ticks s <= ticks (snd (check w request_json s)) <= ticks s + 4)%nat.
Proof.
  assert (H : bounded 3 4 (check w request_json)); [| exact (H s)].
  unfold check.
  apply (bounded_try 3 4 0 0); [| intros; apply bounded_ret].
  unfold check_report.
  apply bounded_after_lift. intros payload. cbv zeta.
  repeat (apply bounded_after_lift; intros).
  apply (bounded_bind 1 1 2 3); [apply bounded_traffic |]. intros traffic.
  apply (bounded_bind 1 1 1 2); [apply bounded_parking |]. intros parking.
  apply (bounded_bind 1 2 0 0); [apply bounded_insurance |]. intros insurance.
  apply bounded_after_lift. intros. apply bounded_ret.
Qed.

(** [log_alert] either appends its entry, stamped with the local time, or
    raises and leaves the log as it was. *)
Lemma log_alert_cases w message s :
  (exists now,
      log_fault w s = None /\
      log_alert w message s
      = (inr tt, State (log_file s ++ [LogLine now message])%list (S (ticks s)))) \/
  (exists e s', log_alert w message s = (inl e, s') /\ log_file s' = log_file s).
Proof.
  unfold log_alert, datetime_now.
  destruct (log_fault w s) as [e |].
  - right. now exists e, s.
  - destruct (clock w (ticks s)) as [sec us].
    destruct (Datetime.localtime (utcoffset w) sec us) as [e | now].
    + right. eexists e, _. split; reflexivity.
    + left. exists now. split; reflexivity.
Qed.

(** What a sequence has when it counts as true. *)
Lemma truthy_list_nonempty (items : list value) :
  Py.truthy (VList items) = true -> items <> [].
Proof. destruct items; [discriminate | discriminate]. Qed.

(** A traffic or parking lookup that did not find anything, or failed,
    wrote nothing. *)
Ltac nothing_found :=
  eexists _, _; split;
  [ reflexivity
  | right; split;
    [ first [ left; reflexivity | right; eexists; reflexivity ]
    | first [ reflexivity | assumption ] ] ].

Lemma traffic_run w plate s :
  exists v s',
    returns (get_traffic_penalties w plate) s v s' /\
    ((exists tickets amounts now,
         tickets <> [] /\
         rmap ticket_total tickets = ok amounts /\
         v = tickets_found tickets (Num.sum_ints amounts) /\
         log_fault w s = None /\
         s' = State (log_file s
                     ++ [LogLine now (violation_message plate (Num.sum_ints amounts))])%list
                    (S (ticks s))) \/
     ((v = not_found \/ exists e, v = error_result w e) /\ log_file s' = log_file s)).
Proof.
  unfold returns, get_traffic_penalties, try_except, traffic_lookup, bind, lift, ret.
  destruct (TMS_API w plate) as [e | res]; cbv beta iota; [nothing_found |].
  destruct (raise_for_status res) as [e | []]; cbv beta iota; [nothing_found |].
  destruct (json res) as [e | data]; cbv beta iota; [nothing_found |].
  destruct (Py.get data "status" VNone) as [e | st]; cbv beta iota; [nothing_found |].
  destruct (if Py.eq_str st "success"
            then Py.get data "pending_transactions" VNone
            else ok (VBool false)) as [e | pending] eqn:Hpending;
    cbv beta iota; [nothing_found |].
  destruct (Py.truthy pending) eqn:Htrue; cbv beta iota; [| nothing_found].
  destruct (Py.getitem data "pending_transactions") as [e | tickets] eqn:Hget;
    cbv beta iota; [nothing_found |].
  destruct (Py.iter tickets) as [e | items] eqn:Hiter; cbv beta iota; [nothing_found |].
  destruct (rmap ticket_total items) as [e | amounts] eqn:Hmap;
    cbv beta iota; [nothing_found |].
  assert (Hsame : pending = tickets).
  { destruct (Py.eq_str st "success"); [| inversion Hpending; subst; discriminate].
    rewrite (getitem_get _ _ VNone _ Hget) in Hpending. now inversion Hpending. }
  subst pending.
  assert (Hlist : tickets = VList items).
  { apply (looped_over_a_list ticket_total tickets items amounts); auto.
    intros x. eexists. reflexivity. }
  subst tickets.
  destruct (log_alert_cases w (violation_message plate (Num.sum_ints amounts)) s)
    as [(now & Hfault & Hlog) | (e & t & Hlog & Hkept)]; rewrite Hlog; cbv beta iota.
  - eexists _, _. split; [reflexivity |]. left.
    exists items, amounts, now.
    split; [now apply truthy_list_nonempty |].
    repeat split; assumption.
  - nothing_found.
Qed.

Lemma parking_run w plate s :
  exists v s',
    returns (get_parking_fees w plate) s v s' /\
    ((exists bills amounts total now,
         bills <> [] /\
         rmap bill_amount bills = ok amounts /\
         Num.int_of_number (Num.sum_floats (compensated_sum w) amounts) = ok total /\
         v = bills_found bills total /\
         log_fault w s = None /\
         s' = State (log_file s ++ [LogLine now (parking_message plate total)])%list
                    (S (ticks s))) \/
     ((v = not_found \/ exists e, v = error_result w e) /\ log_file s' = log_file s)).
Proof.
  unfold returns, get_parking_fees, try_except, parking_lookup, bind, lift, ret.
  destruct (GePG_API w (Text.upper plate)) as [e | res]; cbv beta iota; [nothing_found |].
  destruct (json res) as [e | doc]; cbv beta iota; [nothing_found |].
  destruct (Py.getitem0 doc) as [e | first]; cbv beta iota; [nothing_found |].
  destruct (Py.get first "billDetails" (VList [])) as [e | bills];
    cbv beta iota; [nothing_found |].
  destruct (Py.truthy bills) eqn:Htrue; cbv beta iota; [| nothing_found].
  destruct (Py.iter bills) as [e | items] eqn:Hiter; cbv beta iota; [nothing_found |].
  destruct (rmap bill_amount items) as [e | amounts] eqn:Hmap;
    cbv beta iota; [nothing_found |].
  destruct (Num.int_of_number (Num.sum_floats (compensated_sum w) amounts))
    as [e | total] eqn:Htotal; cbv beta iota; [nothing_found |].
  assert (Hlist : bills = VList items).
  { apply (looped_over_a_list bill_amount bills items amounts); auto.
    intros x. eexists. reflexivity. }
  subst bills.
  destruct (log_alert_cases w (parking_message plate total) s)
    as [(now & Hfault & Hlog) | (e & t & Hlog & Hkept)]; rewrite Hlog; cbv beta iota.
  - eexists _, _. split; [reflexivity |]. left.
    exists items, amounts, total, now.
    split; [now apply truthy_list_nonempty |].
    repeat split; assumption.
  - nothing_found.
Qed.

Lemma expired_branch_run w plate first s :
  exists v s',
    try_except (expired_days w plate first)
               (fun _ => ret (expired_result VNone)) s = (inr v, s') /\
    ((exists days now,
         v = expired_result (VInt days) /\
         log_fault w (State (log_file s) (S (ticks s))) = None /\
         s' = State (log_file s ++ [LogLine now (expired_message plate days)])%list
                    (S (S (ticks s)))) \/
     (v = expired_result VNone /\ log_file s' = log_file s)).
Proof.
  unfold try_except, expired_days, bind, lift, ret.
  destruct (end_date_of w first) as [e | end_date]; cbv beta iota.
  { eexists _, _. split; [reflexivity | right; split; reflexivity]. }
  unfold datetime_now at 1.
  destruct (clock w (ticks s)) as [sec us].
  destruct (Datetime.localtime (utcoffset w) sec us) as [e | now]; cbv beta iota.
  { eexists _, _. split; [reflexivity | right; split; reflexivity]. }
  destruct (log_alert_cases w (expired_message plate (Datetime.days_between now end_date))
                            (State (log_file s) (S (ticks s))))
    as [(stamp & Hfault & Hlog) | (e & t & Hlog & Hkept)]; rewrite Hlog; cbv beta iota.
  - eexists _, _. split; [reflexivity |]. left.
    exists (Datetime.days_between now end_date), stamp.
    repeat split; assumption.
  - eexists _, _. split; [reflexivity | right; split; [reflexivity | exact Hkept]].
Qed.

Lemma insurance_run w plate s :
  exists v s',
    returns (get_insurance w plate) s v s' /\
    ((exists days now,
         v = expired_result (VInt days) /\
         log_fault w (State (log_file s) (S (ticks s))) = None /\
         s' = State (log_file s ++ [LogLine now (expired_message plate days)])%list
                    (S (S (ticks s)))) \/
     ((v = expired_result VNone \/
       (exists valid_till days_left, v = active_dict valid_till days_left) \/
       (exists e, v = error_result w e)) /\
      log_file s' = log_file s)).
Proof.
  unfold returns, get_insurance, try_except at 1, insurance_lookup, bind, lift.
  assert (Herror : forall e t,
             log_file t = log_file s ->
             exists v s',
               (@inr pyexn value (error_result w e), t) = (inr v, s') /\
               ((exists days now,
                    v = expired_result (VInt days) /\
                    log_fault w (State (log_file s) (S (ticks s))) = None /\
                    s' = State (log_file s
                                ++ [LogLine now (expired_message plate days)])%list
                               (S (S (ticks s)))) \/
                ((v = expired_result VNone \/
                  (exists valid_till days_left, v = active_dict valid_till days_left) \/
                  (exists e, v = error_result w e)) /\
                 log_file s' = log_file s))).
  { intros e t Ht. eexists _, _. split; [reflexivity |].
    right. split; [right; right; now exists e | exact Ht]. }
  destruct (TIRA_API w plate) as [e | res]; cbv beta iota; [now apply Herror |].
  destruct (fromstring res) as [e | root]; cbv beta iota; [now apply Herror |].
  cbv zeta.
  destruct (ET.findall_descendants root "data") as [| first rest].
  { eexists _, _. split; [reflexivity |]. right. split; [now left | reflexivity]. }
  destruct (expired_branch_run w plate first s) as (v & s' & Hrun & Hcases).
  assert (Hexpired :
            exists v0 s0,
              match try_except (expired_days w plate first)
                               (fun _ => ret (expired_result VNone)) s with
              | (inl e, t) => (inr (error_result w e), t)
              | (inr a, t) => (@inr pyexn value a, t)
              end = (inr v0, s0) /\
              ((exists days now,
                   v0 = expired_result (VInt days) /\
                   log_fault w (State (log_file s) (S (ticks s))) = None /\
                   s0 = State (log_file s
                               ++ [LogLine now (expired_message plate days)])%list
                              (S (S (ticks s)))) \/
               ((v0 = expired_result VNone \/
                 (exists valid_till days_left, v0 = active_dict valid_till days_left) \/
                 (exists e, v0 = error_result w e)) /\
                log_file s0 = log_file s))).
  { rewrite Hrun. exists v, s'. split; [reflexivity |].
    destruct Hcases as [Hknown | [-> Hkept]]; [now left |].
    right. split; [now left | exact Hkept]. }
  destruct (find is_active (first :: rest)) as [active |]; [| exact Hexpired].
  destruct (negb (ET.truthy active)); [exact Hexpired |].
  unfold active_result, bind, lift, ret.
  destruct (end_date_of w active) as [e | end_date]; cbv beta iota;
    [now apply Herror |].
  unfold datetime_now.
  destruct (clock w (ticks s)) as [sec us].
  destruct (Datetime.localtime (utcoffset w) sec us) as [e | now]; cbv beta iota;
    [now apply Herror |].
  eexists _, _. split; [reflexivity |].
  right. split; [right; left; eauto | reflexivity].
Qed.

(** X2. The traffic lookup returns one of three dicts, and writes to the
    log exactly when it found tickets: then the ticket list is not empty
    and one entry, the violation message with the plate and the total, is
    appended; when it found nothing or failed the log is as it was. *)
Theorem traffic_lookup_logs_what_it_finds (w : world) (plate : string) (s : state) :
  exists v s',
    returns (get_traffic_penalties w plate) s v s' /\
    ((exists tickets total now,
         tickets <> [] /\
         v = tickets_found tickets total /\
         log_file s'
         = (log_file s ++ [LogLine now (violation_message plate total)])%list) \/
     ((v = not_found \/ exists e, v = error_result w e) /\ log_file s' = log_file s)).
Proof.
  destruct (traffic_run w plate s) as (v & s' & Hrun & Hcases).
  exists v, s'. split; [exact Hrun |].
  destruct Hcases as [(tickets & amounts & now & Hne & _ & Hv & _ & Hs) | Hnone];
    [left | now right].
  exists tickets, (Num.sum_ints amounts), now. subst s'. auto.
Qed.

(** X3. The parking lookup returns one of three dicts, and writes to the
    log exactly when it found bills: then the bill list is not empty and
    one entry, the parking message with the plate and the total, is
    appended; when it found nothing or failed the log is as it was. *)
Theorem parking_lookup_logs_what_it_finds (w : world) (plate : string) (s : state) :
  exists v s',
    returns (get_parking_fees w plate) s v s' /\
    ((exists bills total now,
         bills <> [] /\
         v = bills_found bills total /\
         log_file s'
         = (log_file s ++ [LogLine now (parking_message plate total)])%list) \/
     ((v = not_found \/ exists e, v = error_result w e) /\ log_file s' = log_file s)).
Proof.
  destruct (parking_run w plate s) as (v & s' & Hrun & Hcases).
  exists v, s'. split; [exact Hrun |].
  destruct Hcases
    as [(bills & amounts & total & now & Hne & _ & _ & Hv & _ & Hs) | Hnone];
    [left | now right].
  exists bills, total, now. subst s'. auto.
Qed.

(** X4. The insurance lookup writes to the log only when it returns an
    expired cover with a known day count: then one entry, the expired
    message with the plate and the days, is appended.  With no cover, an
    unknown day count, an active cover or an error-result the log is as it
    was. *)
Theorem insurance_lookup_logs_known_expiries (w : world) (plate : string) (s : state) :
  exists v s',
    returns (get_insurance w plate) s v s' /\
    ((exists days now,
         v = expired_result (VInt days) /\
         log_file s'
         = (log_file s ++ [LogLine now (expired_message plate days)])%list) \/
     ((v = expired_result VNone \/
       (exists valid_till days_left, v = active_dict valid_till days_left) \/
       (exists e, v = error_result w e)) /\
      log_file s' = log_file s)).
Proof.
  destruct (insurance_run w plate s) as (v & s' & Hrun & Hcases).
  exists v, s'. split; [exact Hrun |].
  destruct Hcases as [(days & now & Hv & _ & Hs) | Hnone]; [left | now right].
  exists days, now. subst s'. auto.
Qed.

(** X5. When the log file can never be opened, no finding gets through:
    the traffic and the parking lookups never return found (tickets or
    bills that are there come back as an error-result), and the insurance
    lookup never returns a known number of expired days. *)
Theorem unwritable_log_hides_findings (w : world) :
  (forall st, log_fault w st <> None) ->
  forall plate s,
    (exists v s',
        returns (get_traffic_penalties w plate) s v s' /\
        (v = not_found \/ exists e, v = error_result w e)) /\
    (exists v s',
        returns (get_parking_fees w plate) s v s' /\
        (v = not_found \/ exists e, v = error_result w e)) /\
    (exists v s',
        returns (get_insurance w plate) s v s' /\
        (v = expired_result VNone \/
         (exists valid_till days_left, v = active_dict valid_till days_left) \/
         (exists e, v = error_result w e))).
Proof.
  intros Hfault plate s. split; [| split].
  - destruct (traffic_run w plate s) as (v & s' & Hrun & Hcases).
    exists v, s'. split; [exact Hrun |].
    destruct Hcases as [(tickets & amounts & now & _ & _ & _ & Hopen & _) | [Hv _]];
      [now apply Hfault in Hopen | exact Hv].
  - destruct (parking_run w plate s) as (v & s' & Hrun & Hcases).
    exists v, s'. split; [exact Hrun |].
    destruct Hcases
      as [(bills & amounts & total & now & _ & _ & _ & _ & Hopen & _) | [Hv _]];
      [now apply Hfault in Hopen | exact Hv].
  - destruct (insurance_run w plate s) as (v & s' & Hrun & Hcases).
    exists v, s'. split; [exact Hrun |].
    destruct Hcases as [(days & now & _ & Hopen & _) | [Hv _]];
      [now apply Hfault in Hopen | exact Hv].
Qed.

(** The two tickets are there, and the log cannot be opened: the lookup
    returns the error-result of the failed [open]. *)
Lemma unwritable_log_hides_findings_at_read_only :
  returns (get_traffic_penalties Cases.w_read_only Examples.plate) Examples.initial
          (error_result Cases.w_read_only (OSError "Permission denied"))
          Examples.initial /\
  exists v s',
    returns (get_parking_fees Cases.w_read_only Examples.plate) Examples.initial v s' /\
    (v = not_found \/ exists e, v = error_result Cases.w_read_only e).
Proof.
  split; [vm_compute; reflexivity |].
  refine (proj1 (proj2 (unwritable_log_hides_findings Cases.w_read_only _
                          Examples.plate Examples.initial))).
  intros st. discriminate.
Defined.

(* ================================================================== *)
(** * What decides the answer of the traffic and the parking lookups *)
(* ================================================================== *)

Lemma get_item (items : list (string * value)) (k : string) :
  Py.get (VDict items) k VNone = ok (item items k).
Proof. reflexivity. Qed.

Lemma json_decoded (res : response value) (doc : value) :
  decoded res = Some doc -> json res = ok doc.
Proof. unfold json. now intros ->. Qed.

Lemma fromstring_decoded (res : response ET.element) (root : ET.element) :
  decoded res = Some root -> fromstring res = ok root.
Proof. unfold fromstring. now intros ->. Qed.

(** A loop stops at the first item its body raises on. *)
Lemma rmap_raises {A B} (f : A -> result B) (xs : list A) (x : A) (e : pyexn) :
  In x xs -> f x = raise e -> exists e', rmap f xs = raise e'.
Proof.
  induction xs as [| y ys IH]; intros Hin Hx; [destruct Hin |].
  simpl. destruct (f y) as [e0 | b] eqn:Hy; [now exists e0 |].
  destruct Hin as [-> | Hin]; [rewrite Hx in Hy; discriminate |].
  destruct (IH Hin Hx) as [e' ->]. now exists e'.
Qed.

(** X6. When the traffic service answered without an HTTP error and its
    body decodes to an object, the lookup returns found: False exactly when
    the status of the object is not the string success or its pending
    transactions are missing or count as false (None, an empty list);
    nothing is written then. *)
Theorem traffic_nothing_found_iff
  (w : world) (plate : string) (s : state)
  (res : response value) (items : list (string * value)) :
  TMS_API w plate = ok res ->
  raise_for_status res = ok tt ->
  decoded res = Some (VDict items) ->
  forall s',
    returns (get_traffic_penalties w plate) s not_found s' <->
    s' = s /\
    (Py.eq_str (item items "status") "success" = false \/
     Py.truthy (item items "pending_transactions") = false).
Proof.
  intros Hres Hstatus Hdoc s'.
  unfold returns, get_traffic_penalties, try_except, traffic_lookup.
  erewrite bind_lift_ok by exact Hres.
  erewrite bind_lift_ok by exact Hstatus.
  erewrite bind_lift_ok by (apply json_decoded; exact Hdoc).
  erewrite bind_lift_ok by apply get_item.
  destruct (Py.eq_str (item items "status") "success") eqn:Hs.
  - erewrite bind_lift_ok by apply get_item.
    destruct (Py.truthy (item items "pending_transactions")) eqn:Ht.
    + unfold bind, lift, ret.
      destruct (Py.getitem (VDict items) "pending_transactions") as [e | tickets];
        cbv beta iota;
        [split; [intros H; inversion H | intros [_ [H | H]]; discriminate] |].
      destruct (Py.iter tickets) as [e | ts]; cbv beta iota;
        [split; [intros H; inversion H | intros [_ [H | H]]; discriminate] |].
      destruct (rmap ticket_total ts) as [e | amounts]; cbv beta iota;
        [split; [intros H; inversion H | intros [_ [H | H]]; discriminate] |].
      destruct (log_alert w _ s) as [[e | []] t];
        (split; [intros H; inversion H | intros [_ [H | H]]; discriminate]).
    + unfold ret. split.
      * intros H. inversion H. auto.
      * now intros [-> _].
  - erewrite bind_lift_ok by reflexivity.
    cbn [Py.truthy]. unfold ret. split.
    + intros H. inversion H. auto.
    + now intros [-> _].
Qed.

(** The service reports a failure and attaches two tickets: nothing is
    found. *)
Lemma traffic_nothing_found_iff_at_failed :
  returns (get_traffic_penalties Cases.w_tms_failed Examples.plate) Examples.initial
          not_found Examples.initial <->
  Examples.initial = Examples.initial /\
  (Py.eq_str (item [("status", VStr "failed");
                    ("pending_transactions", VList Examples.two_tickets)] "status")
             "success" = false \/
   Py.truthy (item [("status", VStr "failed");
                    ("pending_transactions", VList Examples.two_tickets)]
                   "pending_transactions") = false).
Proof.
  apply (traffic_nothing_found_iff Cases.w_tms_failed Examples.plate Examples.initial
           (Response 200 (Some (VDict [("status", VStr "failed");
                                       ("pending_transactions",
                                        VList Examples.two_tickets)]))));
    reflexivity.
Defined.

(** X7. When the body of the parking service decodes to an array whose
    first element is an object, whatever the HTTP status, the lookup
    returns found: False exactly when that object has no billDetails or its
    billDetails count as false (an empty list, None); nothing is written
    then. *)
Theorem parking_nothing_found_iff
  (w : world) (plate : string) (s : state)
  (res : response value) (items : list (string * value)) (rest : list value) :
  GePG_API w (Text.upper plate) = ok res ->
  decoded res = Some (VList (VDict items :: rest)) ->
  forall s',
    returns (get_parking_fees w plate) s not_found s' <->
    s' = s /\
    (Py.lookup "billDetails" items = None \/
     exists bills, Py.lookup "billDetails" items = Some bills /\
                   Py.truthy bills = false).
Proof.
  intros Hres Hdoc s'.
  unfold returns, get_parking_fees, try_except, parking_lookup.
  erewrite bind_lift_ok by exact Hres.
  erewrite bind_lift_ok by (apply json_decoded; exact Hdoc).
  erewrite bind_lift_ok by reflexivity.
  erewrite bind_lift_ok by reflexivity.
  destruct (Py.lookup "billDetails" items) as [bills |] eqn:Hbills.
  - destruct (Py.truthy bills) eqn:Ht.
    + assert (Hno : ~ (s' = s /\
                       (Some bills = None \/
                        exists b, Some bills = Some b /\ Py.truthy b = false))).
      { intros [_ [H | (b & Hb & Hf)]]; [discriminate |].
        inversion Hb; subst. rewrite Ht in Hf. discriminate. }
      unfold bind, lift, ret.
      destruct (Py.iter bills) as [e | bs]; cbv beta iota;
        [split; [intros H; inversion H | intros H; now apply Hno in H] |].
      destruct (rmap bill_amount bs) as [e | amounts]; cbv beta iota;
        [split; [intros H; inversion H | intros H; now apply Hno in H] |].
      destruct (Num.int_of_number _) as [e | total]; cbv beta iota;
        [split; [intros H; inversion H | intros H; now apply Hno in H] |].
      destruct (log_alert w _ s) as [[e | []] t];
        (split; [intros H; inversion H | intros H; now apply Hno in H]).
    + unfold ret. split.
      * intros H. inversion H. split; [reflexivity |]. right. now exists bills.
      * now intros [-> _].
  - cbn [Py.truthy]. unfold ret. split.
    + intros H. inversion H. auto.
    + now intros [-> _].
Qed.

(** An assessment with an empty list of bills. *)
Lemma parking_nothing_found_iff_at_no_bill :
  returns (get_parking_fees Cases.w_gepg_no_bill Examples.plate) Examples.initial
          not_found Examples.initial <->
  Examples.initial = Examples.initial /\
  (Py.lookup "billDetails" [("billDetails", VList [])] = None \/
   exists bills, Py.lookup "billDetails" [("billDetails", VList [])] = Some bills /\
                 Py.truthy bills = false).
Proof.
  apply (parking_nothing_found_iff Cases.w_gepg_no_bill Examples.plate Examples.initial
           (Response 200 (Some (VList [VDict [("billDetails", VList [])]])))
           [("billDetails", VList [])] []);
    reflexivity.
Defined.

(** X8. A body of the parking service that decodes to anything other than
    an array whose first element is an object (an empty array, an object, a
    string, an array of numbers) makes the lookup return an error-result;
    nothing is written. *)
Theorem parking_needs_an_array_of_objects
  (w : world) (plate : string) (s : state) (res : response value) (doc : value) :
  GePG_API w (Text.upper plate) = ok res ->
  decoded res = Some doc ->
  (forall items rest, doc <> VList (VDict items :: rest)) ->
  exists e, returns (get_parking_fees w plate) s (error_result w e) s.
Proof.
  intros Hres Hdoc Hshape.
  unfold returns, get_parking_fees, try_except, parking_lookup.
  erewrite bind_lift_ok by exact Hres.
  erewrite bind_lift_ok by (apply json_decoded; exact Hdoc).
  unfold bind, lift, ret.
  destruct doc as [| b | n | f | str | l | kvs]; cbn [Py.getitem0];
    try (eexists; reflexivity).
  - destruct str as [| c str]; eexists; reflexivity.
  - destruct l as [| x l]; [eexists; reflexivity |].
    destruct x as [| b | n | f | str | l' | kvs]; cbn [Py.get];
      try (eexists; reflexivity).
    now destruct (Hshape kvs l).
Qed.

(** The empty array: [res.json()[0]] raises IndexError. *)
Lemma parking_needs_an_array_of_objects_at_empty :
  exists e,
    returns (get_parking_fees Cases.w_gepg_empty Examples.plate) Examples.initial
            (error_result Cases.w_gepg_empty e) Examples.initial.
Proof.
  apply (parking_needs_an_array_of_objects Cases.w_gepg_empty Examples.plate
           Examples.initial (Response 200 (Some (VList []))) (VList []));
    [reflexivity | reflexivity | discriminate].
Defined.

(** X9. One ticket whose amount cannot be computed (a charge or penalty
    that is no number, a ticket that is no object; the text in it ASCII)
    fails the whole traffic lookup: it returns an error-result, not the
    total of the other tickets, and writes nothing. *)
Theorem one_bad_ticket_fails_the_lookup
  (w : world) (plate : string) (s : state) (res : response value)
  (items : list (string * value)) (tickets : list value) (t : value) (e : pyexn) :
  TMS_API w plate = ok res ->
  raise_for_status res = ok tt ->
  decoded res = Some (VDict items) ->
  Py.eq_str (item items "status") "success" = true ->
  Py.lookup "pending_transactions" items = Some (VList tickets) ->
  In t tickets ->
  Py.ascii_only t = true ->
  ticket_total t = raise e ->
  exists e', returns (get_traffic_penalties w plate) s (error_result w e') s.
Proof.
  intros Hres Hstatus Hdoc Hsuccess Hpending Hin _ Hbad.
  destruct (rmap_raises ticket_total tickets t e Hin Hbad) as [e' Hmap].
  exists e'.
  unfold returns, get_traffic_penalties, try_except, traffic_lookup.
  erewrite bind_lift_ok by exact Hres.
  erewrite bind_lift_ok by exact Hstatus.
  erewrite bind_lift_ok by (apply json_decoded; exact Hdoc).
  erewrite bind_lift_ok by apply get_item.
  rewrite Hsuccess.
  erewrite bind_lift_ok by apply get_item.
  unfold item. rewrite Hpending.
  assert (Htrue : Py.truthy (VList tickets) = true)
    by (destruct tickets; [destruct Hin | reflexivity]).
  rewrite Htrue.
  erewrite bind_lift_ok by (cbn [Py.getitem]; rewrite Hpending; reflexivity).
  erewrite bind_lift_ok by reflexivity.
  erewrite bind_lift_raise by exact Hmap.
  reflexivity.
Qed.

(** The second of two tickets has the charge "n/a". *)
Lemma one_bad_ticket_fails_the_lookup_at_bad_ticket :
  exists e',
    returns (get_traffic_penalties Cases.w_bad_ticket Examples.plate) Examples.initial
            (error_result Cases.w_bad_ticket e') Examples.initial.
Proof.
  eapply (one_bad_ticket_fails_the_lookup Cases.w_bad_ticket Examples.plate
            Examples.initial _ _ _ (Examples.ticket (VStr "n/a") (VInt 0)));
    [ reflexivity | reflexivity | reflexivity | reflexivity | reflexivity
    | right; left; reflexivity
    | reflexivity
    | vm_compute; reflexivity ].
Defined.

(** X10. One bill whose amount cannot be read (no billAmount, an amount
    that is no number, a bill that is no object; the text in it ASCII)
    fails the whole parking lookup: it returns an error-result, not the
    total of the other bills, and writes nothing. *)
Theorem one_bad_bill_fails_the_lookup
  (w : world) (plate : string) (s : state) (res : response value)
  (items : list (string * value)) (rest bills : list value) (b : value) (e : pyexn) :
  GePG_API w (Text.upper plate) = ok res ->
  decoded res = Some (VList (VDict items :: rest)) ->
  Py.lookup "billDetails" items = Some (VList bills) ->
  In b bills ->
  Py.ascii_only b = true ->
  bill_amount b = raise e ->
  exists e', returns (get_parking_fees w plate) s (error_result w e') s.
Proof.
  intros Hres Hdoc Hbills Hin _ Hbad.
  destruct (rmap_raises bill_amount bills b e Hin Hbad) as [e' Hmap].
  exists e'.
  unfold returns, get_parking_fees, try_except, parking_lookup.
  erewrite bind_lift_ok by exact Hres.
  erewrite bind_lift_ok by (apply json_decoded; exact Hdoc).
  erewrite bind_lift_ok by reflexivity.
  erewrite bind_lift_ok by (cbn [Py.get]; rewrite Hbills; reflexivity).
  assert (Htrue : Py.truthy (VList bills) = true)
    by (destruct bills; [destruct Hin | reflexivity]).
  rewrite Htrue.
  erewrite bind_lift_ok by reflexivity.
  erewrite bind_lift_raise by exact Hmap.
  reflexivity.
Qed.

(** The second of two bills has no billAmount. *)
Lemma one_bad_bill_fails_the_lookup_at_bad_bill :
  exists e',
    returns (get_parking_fees Cases.w_bad_bill Examples.plate) Examples.initial
            (error_result Cases.w_bad_bill e') Examples.initial.
Proof.
  eapply (one_bad_bill_fails_the_lookup Cases.w_bad_bill Examples.plate
            Examples.initial _ _ _ _ (VDict [("billId", VStr "B2")]));
    [ reflexivity | reflexivity | reflexivity
    | right; left; reflexivity
    | reflexivity
    | vm_compute; reflexivity ].
Defined.

(** X11. An HTTP status from 400 to 599 of the traffic service makes the
    traffic lookup return the error-result of that HTTP error, whatever the
    body holds; nothing is written. *)
Theorem traffic_http_error_is_an_error_result
  (w : world) (plate : string) (s : state) (res : response value) :
  TMS_API w plate = ok res ->
  400 <= status_code res < 600 ->
  returns (get_traffic_penalties w plate) s
          (error_result w (HTTPError (status_code res))) s.
Proof.
  intros Hres [Hlow Hhigh].
  unfold returns, get_traffic_penalties, try_except, traffic_lookup.
  erewrite bind_lift_ok by exact Hres.
  erewrite bind_lift_raise; [reflexivity |].
  unfold raise_for_status.
  apply Z.leb_le in Hlow. apply Z.ltb_lt in Hhigh.
  now rewrite Hlow, Hhigh.
Qed.

(** HTTP 500 with the two tickets in the body. *)
Lemma traffic_http_error_is_an_error_result_at_500 :
  returns (get_traffic_penalties Cases.w_tms_500 Examples.plate) Examples.initial
          (error_result Cases.w_tms_500 (HTTPError 500)) Examples.initial.
Proof.
  apply (traffic_http_error_is_an_error_result Cases.w_tms_500 Examples.plate
           Examples.initial
           (Response 500 (Some (Examples.pending Examples.two_tickets))));
    [reflexivity | simpl; lia].
Defined.

(** X12. The parking and the insurance lookups never look at the HTTP
    status: two responses with the same body and different status codes
    (200 and 500, say) give the same result and the same log. *)
Theorem parking_and_insurance_ignore_the_http_status
  (w : world) (plate : string) (s : state) (code code' : Z)
  (bills : option value) (covers : option ET.element) :
  get_parking_fees (with_GePG w (fun _ => ok (Response code bills))) plate s
  = get_parking_fees (with_GePG w (fun _ => ok (Response code' bills))) plate s /\
  get_insurance (with_TIRA w (fun _ => ok (Response code covers))) plate s
  = get_insurance (with_TIRA w (fun _ => ok (Response code' covers))) plate s.
Proof. split; reflexivity. Qed.

(* ================================================================== *)
(** * The active branch of the insurance lookup *)
(* ================================================================== *)

(** [next(e for e in entries if ...)] is the first entry that passes. *)
Lemma find_first {A} (f : A -> bool) (before : list A) (e : A) (after : list A) :
  (forall x, In x before -> f x = false) ->
  f e = true ->
  find f (before ++ e :: after)%list = Some e.
Proof.
  induction before as [| x xs IH]; intros Hbefore He; simpl.
  - now rewrite He.
  - rewrite (Hbefore x) by now left.
    apply IH; [| exact He]. intros y Hy. apply Hbefore. now right.
Qed.

(** The insurance fetch up to the choice of the branch, when the first
    active entry of the document is [e]. *)
Lemma get_insurance_active w plate s res root before e after :
  TIRA_API w plate = ok res ->
  decoded res = Some root ->
  ET.findall_descendants root "data" = (before ++ e :: after)%list ->
  (forall x, In x before -> is_active x = false) ->
  is_active e = true ->
  get_insurance w plate s
  = try_except (active_result w e) (fun err => ret (error_result w err)) s.
Proof.
  intros Hres Hdoc Hentries Hbefore He.
  pose proof (find_first is_active before e after Hbefore He) as Hfind.
  unfold get_insurance, insurance_lookup, try_except at 1.
  erewrite bind_lift_ok by exact Hres.
  erewrite bind_lift_ok by (apply fromstring_decoded; exact Hdoc).
  cbv zeta. rewrite Hentries.
  destruct (before ++ e :: after)%list as [| first rest] eqn:Hlist;
    [now destruct before |].
  rewrite Hfind, (active_entry_is_truthy e He).
  reflexivity.
Qed.

Lemma datetime_now_keeps_the_log w s now s1 :
  returns (datetime_now w) s now s1 -> log_file s1 = log_file s.
Proof.
  unfold returns, datetime_now.
  destruct (clock w (ticks s)) as [sec us].
  intros H. now inversion H.
Qed.

(** Whole days from a later to an earlier instant are below zero. *)
Lemma days_between_negative (a b : Datetime.datetime) :
  a < b -> Datetime.days_between a b < 0.
Proof.
  intros Hlt. unfold Datetime.days_between, Datetime.us_per_day.
  apply Z.div_lt_upper_bound; lia.
Qed.

(** Which sub-result calls for which of the first three notices. *)
Lemma triggered_members traffic parking insurance :
  (In Violation (triggered traffic parking insurance)
   <-> flag traffic "found" = true) /\
  (In UnpaidParking (triggered traffic parking insurance)
   <-> flag parking "found" = true) /\
  (In InsuranceExpired (triggered traffic parking insurance)
   <-> flag insurance "expired" = true).
Proof.
  unfold triggered.
  destruct (flag traffic "found"), (flag parking "found"),
    (flag insurance "expired"), (flag insurance "active");
    try destruct (remaining_days insurance) as [e | days];
    try destruct (days <=? 10);
    simpl; repeat split; intros H;
    try reflexivity; try discriminate;
    repeat (destruct H as [H | H]; try discriminate H); auto.
Qed.

(** X13. When some entry of the insurance document is active (its
    statusTitle, upper-cased, reads ACTIVE; the titles up to it are ASCII
    text), the lookup reports the first such entry in document order,
    whatever comes before or after it: with a readable end date it returns
    a dict whose [active] is [True], whose [valid_till] is the end date as
    [strftime('%Y-%m-%d')] prints it and whose [remaining_days] is the
    whole days from now to the end date, and writes nothing to the log. *)
Theorem first_active_entry_is_reported
  (w : world) (plate : string) (s : state) (res : response ET.element)
  (root : ET.element) (before : list ET.element) (e : ET.element)
  (after : list ET.element) (end_date now : Datetime.datetime) (s1 : state) :
  TIRA_API w plate = ok res ->
  decoded res = Some root ->
  ET.findall_descendants root "data" = (before ++ e :: after)%list ->
  ascii_titles (before ++ [e]) = true ->
  (forall x, In x before -> is_active x = false) ->
  is_active e = true ->
  end_date_of w e = ok end_date ->
  returns (datetime_now w) s now s1 ->
  (exists v,
      returns (get_insurance w plate) s v s1 /\
      Py.getitem v "active" = ok (VBool true) /\
      Py.getitem v "valid_till" = ok (VStr (Datetime.strftime_ymd end_date)) /\
      Py.getitem v "remaining_days"
      = ok (VInt (Datetime.days_between end_date now))) /\
  log_file s1 = log_file s.
Proof.
  intros Hres Hdoc Hentries _ Hbefore He Hend Hnow.
  split; [| exact (datetime_now_keeps_the_log w s now s1 Hnow)].
  exists (active_dict (Datetime.strftime_ymd end_date)
                      (Datetime.days_between end_date now)).
  split; [| repeat split; reflexivity].
  unfold returns.
  rewrite (get_insurance_active w plate s res root before e after
             Hres Hdoc Hentries Hbefore He).
  unfold try_except, active_result.
  erewrite bind_lift_ok by exact Hend.
  erewrite bind_returns by exact Hnow.
  reflexivity.
Qed.

(** An expired cover comes first, the active one second: the second is
    reported, with its 5 days. *)
Lemma first_active_entry_is_reported_at_second :
  (exists v,
      returns (get_insurance Cases.w_active_second Examples.plate) Examples.initial
              v (State [] 1) /\
      Py.getitem v "active" = ok (VBool true) /\
      Py.getitem v "valid_till" = ok (VStr "2023-11-20") /\
      Py.getitem v "remaining_days" = ok (VInt 5)) /\
  log_file (State [] 1) = log_file Examples.initial.
Proof.
  apply (first_active_entry_is_reported Cases.w_active_second Examples.plate
           Examples.initial
           (Response 200
              (Some (Examples.covers
                       [Examples.cover "EXPIRED" (Some "1697408000000");
                        Examples.cover "active" (Some "1700432000000")])))
           (Examples.covers
              [Examples.cover "EXPIRED" (Some "1697408000000");
               Examples.cover "active" (Some "1700432000000")])
           [Examples.cover "EXPIRED" (Some "1697408000000")]
           (Examples.cover "active" (Some "1700432000000"))
           []
           1700442800000000 Examples.local_now (State [] 1));
    try (vm_compute; reflexivity).
  intros x [<- | []]. vm_compute. reflexivity.
Defined.

(** X14. An active entry whose end date cannot be read (ASCII text that is
    no integer, a timestamp out of range) makes the lookup return an
    error-result: unlike the expired branch, the active branch has no inner
    [try], so the cover is reported neither active nor expired.  Nothing is
    written and the clock is not read. *)
Theorem active_entry_with_unreadable_date_is_an_error
  (w : world) (plate : string) (s : state) (res : response ET.element)
  (root : ET.element) (before : list ET.element) (e : ET.element)
  (after : list ET.element) (err : pyexn) :
  TIRA_API w plate = ok res ->
  decoded res = Some root ->
  ET.findall_descendants root "data" = (before ++ e :: after)%list ->
  ascii_titles (before ++ [e]) = true ->
  (forall x, In x before -> is_active x = false) ->
  is_active e = true ->
  Text.isascii (ET.findtext e "coverNoteEndDate" "0") = true ->
  end_date_of w e = raise err ->
  exists err',
    returns (get_insurance w plate) s (error_result w err') s /\
    Py.getitem (error_result w err') "error" = ok (VStr (exn_text w err')) /\
    flag (error_result w err') "active" = false /\
    flag (error_result w err') "expired" = false.
Proof.
  intros Hres Hdoc Hentries _ Hbefore He _ Hend.
  exists err. split; [| repeat split; reflexivity].
  unfold returns.
  rewrite (get_insurance_active w plate s res root before e after
             Hres Hdoc Hentries Hbefore He).
  unfold try_except, active_result.
  erewrite bind_lift_raise by exact Hend.
  reflexivity.
Qed.

(** The only cover is active and its end date reads "n/a". *)
Lemma active_entry_with_unreadable_date_is_an_error_at_bad_date :
  exists err',
    returns (get_insurance Cases.w_active_bad_date Examples.plate) Examples.initial
            (error_result Cases.w_active_bad_date err') Examples.initial /\
    Py.getitem (error_result Cases.w_active_bad_date err') "error"
    = ok (VStr (exn_text Cases.w_active_bad_date err')) /\
    flag (error_result Cases.w_active_bad_date err') "active" = false /\
    flag (error_result Cases.w_active_bad_date err') "expired" = false.
Proof.
  eapply (active_entry_with_unreadable_date_is_an_error Cases.w_active_bad_date
            Examples.plate Examples.initial
            (Response 200
               (Some (Examples.covers [Examples.cover "ACTIVE" (Some "n/a")])))
            (Examples.covers [Examples.cover "ACTIVE" (Some "n/a")])
            [] (Examples.cover "ACTIVE" (Some "n/a")) []);
    try (vm_compute; reflexivity).
  intros x [].
Defined.

(** X15. The status title wins over the end date: an entry still marked
    ACTIVE (the titles up to it ASCII text) whose end date is already in
    the past is returned as active with a number of remaining days below
    zero, and every report built from it carries the expiring-soon
    notification with that negative number and not the expired one;
    nothing is written to the log. *)
Theorem overdue_active_cover_is_expiring_soon
  (w : world) (plate : string) (s : state) (res : response ET.element)
  (root : ET.element) (before : list ET.element) (e : ET.element)
  (after : list ET.element) (end_date now : Datetime.datetime) (s1 : state) :
  TIRA_API w plate = ok res ->
  decoded res = Some root ->
  ET.findall_descendants root "data" = (before ++ e :: after)%list ->
  ascii_titles (before ++ [e]) = true ->
  (forall x, In x before -> is_active x = false) ->
  is_active e = true ->
  end_date_of w e = ok end_date ->
  returns (datetime_now w) s now s1 ->
  end_date < now ->
  exists insurance days,
    days < 0 /\
    returns (get_insurance w plate) s insurance s1 /\
    Py.getitem insurance "active" = ok (VBool true) /\
    Py.getitem insurance "remaining_days" = ok (VInt days) /\
    log_file s1 = log_file s /\
    forall lang traffic parking,
    exists ns,
      notifications_of lang traffic parking insurance = ok ns /\
      In (VStr (wording lang (ExpiringSoon days))) ns /\
      ~ In (VStr (wording lang InsuranceExpired)) ns.
Proof.
  intros Hres Hdoc Hentries _ Hbefore He Hend Hnow Hpast.
  exists (active_dict (Datetime.strftime_ymd end_date)
                      (Datetime.days_between end_date now)),
         (Datetime.days_between end_date now).
  pose proof (days_between_negative end_date now Hpast) as Hneg.
  split; [exact Hneg |].
  split.
  { unfold returns.
    rewrite (get_insurance_active w plate s res root before e after
               Hres Hdoc Hentries Hbefore He).
    unfold try_except, active_result.
    erewrite bind_lift_ok by exact Hend.
    erewrite bind_returns by exact Hnow.
    reflexivity. }
  split; [reflexivity |]. split; [reflexivity |].
  split; [exact (datetime_now_keeps_the_log w s now s1 Hnow) |].
  intros lang traffic parking.
  set (insurance := active_dict (Datetime.strftime_ymd end_date)
                                (Datetime.days_between end_date now)).
  assert (Hshape : insurance_result w insurance) by constructor.
  exists (notices lang (triggered traffic parking insurance)).
  split; [exact (notifications_of_notices w lang traffic parking insurance Hshape) |].
  rewrite !in_notices. split.
  - apply (expiring_soon_triggered w traffic parking insurance _ Hshape).
    split; [now exists (Datetime.strftime_ymd end_date) | lia].
  - intros Hin.
    apply (proj2 (proj2 (triggered_members traffic parking insurance))) in Hin.
    discriminate Hin.
Qed.

(** A cover marked ACTIVE that ended 5 days before now. *)
Lemma overdue_active_cover_is_expiring_soon_at_overdue :
  exists insurance days,
    days < 0 /\
    returns (get_insurance Cases.w_overdue Examples.plate) Examples.initial
            insurance (State [] 1) /\
    Py.getitem insurance "active" = ok (VBool true) /\
    Py.getitem insurance "remaining_days" = ok (VInt days) /\
    log_file (State [] 1) = log_file Examples.initial /\
    forall lang traffic parking,
    exists ns,
      notifications_of lang traffic parking insurance = ok ns /\
      In (VStr (wording lang (ExpiringSoon days))) ns /\
      ~ In (VStr (wording lang InsuranceExpired)) ns.
Proof.
  apply (overdue_active_cover_is_expiring_soon Cases.w_overdue Examples.plate
           Examples.initial
           (Response 200
              (Some (Examples.covers
                       [Examples.cover "ACTIVE" (Some "1699568000000")])))
           (Examples.covers [Examples.cover "ACTIVE" (Some "1699568000000")])
           [] (Examples.cover "ACTIVE" (Some "1699568000000")) []
           1699578800000000 Examples.local_now (State [] 1));
    try (vm_compute; reflexivity).
  intros x [].
Defined.

(* ================================================================== *)
(** * The endpoint: status, notifications, normalisation *)
(* ================================================================== *)

(** The answer to a request [check] could not read. *)
Ltac rejected Hnone :=
  eexists _, _; split;
  [ reflexivity
  | right; split; [reflexivity |];
    split; [reflexivity |];
    split; [eexists; reflexivity |];
    let q := fresh "q" in
    let Hq := fresh "Hq" in
    intros q Hq; inversion Hq; subst; exact Hnone ].

(** X16. [check] always answers, with status 200 or 500, and what decides
    is the request alone: 200 exactly when the body was decoded and follows
    the wire contract (an object, or nothing, whose plate, lang and type
    are strings where present), whatever the three services do; otherwise
    500 with the body error: text of the exception, and then the clock was
    not read and nothing was written to the log. *)
Theorem check_answers_200_or_500
  (w : world) (request_json : result value) (s : state) :
  exists resp s',
    returns (check w request_json) s resp s' /\
    ((status resp = 200 /\
      exists payload p l t,
        request_json = ok payload /\ request_fields payload = Some (p, l, t)) \/
     (status resp = 500 /\
      s' = s /\
      (exists e, body resp = failure_body w e) /\
      forall payload, request_json = ok payload -> request_fields payload = None)).
Proof.
  destruct request_json as [e | payload].
  { exists (make_response (failure_body w e) 500), s.
    split; [reflexivity |]. right.
    split; [reflexivity |]. split; [reflexivity |].
    split; [now exists e | discriminate]. }
  destruct (request_fields payload) as [[[p l] t] |] eqn:Hreq.
  - destruct (sources_run w (Text.upper p) s)
      as (traffic & s1 & parking & s2 & insurance & s3 & Ht & Hp & Hi).
    eexists _, s3. split.
    + exact (check_run w payload s p l t _ _ _ _ _ _ Hreq Ht Hp Hi).
    + left. split; [reflexivity |]. now exists payload, p, l, t.
  - pose proof Hreq as Hnone.
    unfold request_fields, field in Hreq. cbv zeta in Hreq.
    unfold returns, check, try_except, check_report, bind, lift, ret.
    cbv beta iota zeta delta [ok].
    set (data := if Py.truthy payload then payload else VDict []) in *.
    destruct (Py.get data "plate" (VStr "")) as [e | pv] eqn:Hp;
      cbv beta iota; [rejected Hnone |].
    destruct pv as [| b | n | f | p | xs | kvs];
      cbv beta iota delta [Py.upper raise]; try (rejected Hnone).
    destruct (Py.get data "lang" (VStr "en")) as [e | lv] eqn:Hl;
      cbv beta iota; [rejected Hnone |].
    destruct lv as [| b | n | f | l | xs | kvs];
      cbv beta iota delta [Py.lower raise]; try (rejected Hnone).
    destruct (Py.get data "type" (VStr "full")) as [e | tv] eqn:Ht;
      cbv beta iota; [rejected Hnone |].
    destruct tv as [| b | n | f | t | xs | kvs];
      cbv beta iota delta [Py.lower raise]; try (rejected Hnone).
    discriminate Hreq.
Qed.

(** X17. For a request that follows the wire contract, each of the first
    three notifications is in the report exactly when its source found
    something: the violation one when the traffic lookup returned found
    with tickets, the parking one when the parking lookup returned found
    with bills, the expired one when the insurance lookup returned expired
    (days known or not).  So a source that failed or found nothing gives no
    notification. *)
Theorem notifications_mirror_the_findings
  (w : world) (payload : value) (s : state) (p l t : string) :
  request_fields payload = Some (p, l, t) ->
  exists traffic s1 parking s2 insurance s3 resp ns,
    returns (get_traffic_penalties w (Text.upper p)) s traffic s1 /\
    returns (get_parking_fees w (Text.upper p)) s1 parking s2 /\
    returns (get_insurance w (Text.upper p)) s2 insurance s3 /\
    returns (check w (ok payload)) s resp s3 /\
    report_field resp "notifications" = Some (VList ns) /\
    (In (VStr (wording (Text.lower l) Violation)) ns <->
     exists tickets total, traffic = tickets_found tickets total) /\
    (In (VStr (wording (Text.lower l) UnpaidParking)) ns <->
     exists bills total, parking = bills_found bills total) /\
    (In (VStr (wording (Text.lower l) InsuranceExpired)) ns <->
     exists days, insurance = expired_result days).
Proof.
  intros Hreq.
  destruct (traffic_run w (Text.upper p) s) as (traffic & s1 & Ht & Htc).
  destruct (parking_run w (Text.upper p) s1) as (parking & s2 & Hp & Hpc).
  destruct (insurance_run w (Text.upper p) s2) as (insurance & s3 & Hi & Hic).
  pose proof (check_run w payload s p l t _ _ _ _ _ _ Hreq Ht Hp Hi) as Hrun.
  cbv zeta in Hrun.
  eexists traffic, s1, parking, s2, insurance, s3, _, _.
  split; [exact Ht |]. split; [exact Hp |]. split; [exact Hi |].
  split; [exact Hrun |].
  split; [apply report_notifications |].
  rewrite !in_notices.
  destruct (triggered_members traffic parking insurance) as (Mt & Mp & Mi).
  rewrite Mt, Mp, Mi.
  split; [| split].
  - destruct Htc as [(tickets & amounts & now & _ & _ & -> & _) | [[-> | [e ->]] _]].
    + split; [intros _; eauto | reflexivity].
    + split; [discriminate | intros (? & ? & H); discriminate H].
    + split; [discriminate | intros (? & ? & H); discriminate H].
  - destruct Hpc
      as [(bills & amounts & total & now & _ & _ & _ & -> & _) | [[-> | [e ->]] _]].
    + split; [intros _; eauto | reflexivity].
    + split; [discriminate | intros (? & ? & H); discriminate H].
    + split; [discriminate | intros (? & ? & H); discriminate H].
  - destruct Hic as [(days & now & -> & _) | [[-> | [(vt & d & ->) | [e ->]]] _]].
    + split; [intros _; eauto | reflexivity].
    + split; [intros _; eauto | reflexivity].
    + split; [discriminate | intros (? & H); discriminate H].
    + split; [discriminate | intros (? & H); discriminate H].
Qed.

(** Tickets and an insurance service that times out: the violation is
    notified, no expiry is. *)
Lemma notifications_mirror_the_findings_at_tickets :
  exists traffic s1 parking s2 insurance s3 resp ns,
    returns (get_traffic_penalties Examples.w_tickets (Text.upper "t123abc"))
            Examples.initial traffic s1 /\
    returns (get_parking_fees Examples.w_tickets (Text.upper "t123abc")) s1 parking s2 /\
    returns (get_insurance Examples.w_tickets (Text.upper "t123abc")) s2 insurance s3 /\
    returns (check Examples.w_tickets (ok (Examples.request [("plate", "t123abc")])))
            Examples.initial resp s3 /\
    report_field resp "notifications" = Some (VList ns) /\
    (In (VStr (wording (Text.lower "en") Violation)) ns <->
     exists tickets total, traffic = tickets_found tickets total) /\
    (In (VStr (wording (Text.lower "en") UnpaidParking)) ns <->
     exists bills total, parking = bills_found bills total) /\
    (In (VStr (wording (Text.lower "en") InsuranceExpired)) ns <->
     exists days, insurance = expired_result days).
Proof.
  apply (notifications_mirror_the_findings Examples.w_tickets
           (Examples.request [("plate", "t123abc")]) Examples.initial
           "t123abc" "en" "full").
  reflexivity.
Defined.

(** X18. The notifications of a report always come in the same order,
    violation, parking, expired, expiring soon, each kind at most once; the
    expired and the expiring-soon notifications never come together, so a
    report carries at most three. *)
Theorem notifications_come_in_a_fixed_order
  (w : world) (payload : value) (s : state) (p l t : string) :
  request_fields payload = Some (p, l, t) ->
  exists resp s' ks,
    returns (check w (ok payload)) s resp s' /\
    report_field resp "notifications" = Some (VList (notices (Text.lower l) ks)) /\
    StronglySorted (fun a b => (rank a < rank b)%nat) ks /\
    ~ (In InsuranceExpired ks /\ exists n, In (ExpiringSoon n) ks) /\
    (List.length ks <= 3)%nat.
Proof.
  intros Hreq.
  destruct (sources_run w (Text.upper p) s)
    as (traffic & s1 & parking & s2 & insurance & s3 & Ht & Hp & Hi).
  pose proof (check_run w payload s p l t _ _ _ _ _ _ Hreq Ht Hp Hi) as Hrun.
  cbv zeta in Hrun.
  eexists _, s3, (triggered traffic parking insurance).
  split; [exact Hrun |].
  split; [apply report_notifications |].
  pose proof (get_insurance_result _ _ _ _ _ Hi) as Hshape.
  unfold triggered.
  destruct (insurance_flags w insurance Hshape)
    as [[-> ->] | [[-> ->] | (vt & days & _ & -> & -> & ->)]];
    destruct (flag traffic "found"), (flag parking "found");
    cbv beta iota delta [app ok];
    try destruct (days <=? 10);
    cbv beta iota delta [app];
    (split; [solve [repeat constructor] |];
     split; [| simpl; lia];
     intros [Hexpired [n Hsoon]]; simpl in Hexpired, Hsoon;
     repeat (destruct Hexpired as [Hexpired | Hexpired]; try discriminate Hexpired);
     repeat (destruct Hsoon as [Hsoon | Hsoon]; try discriminate Hsoon);
     contradiction).
Qed.

(** Tickets, bills and an expired cover: the three notifications, in
    order. *)
Lemma notifications_come_in_a_fixed_order_at_all :
  exists resp s' ks,
    returns (check Cases.w_all (ok (Examples.request [("plate", "t123abc")])))
            Examples.initial resp s' /\
    report_field resp "notifications" = Some (VList (notices (Text.lower "en") ks)) /\
    StronglySorted (fun a b => (rank a < rank b)%nat) ks /\
    ~ (In InsuranceExpired ks /\ exists n, In (ExpiringSoon n) ks) /\
    (List.length ks <= 3)%nat.
Proof.
  apply (notifications_come_in_a_fixed_order Cases.w_all
           (Examples.request [("plate", "t123abc")]) Examples.initial
           "t123abc" "en" "full").
  reflexivity.
Defined.

(** X19. The detail type changes the shape of the report and nothing
    else: two requests that differ only in their type get the same status,
    the same plate and the same notifications, and leave the same log and
    clock; the summary is the full report without the three sub-results. *)
Theorem detail_type_changes_only_the_shape
  (w : world) (payload payload' : value) (s : state) (p l t t' : string) :
  request_fields payload = Some (p, l, t) ->
  request_fields payload' = Some (p, l, t') ->
  exists resp resp' s',
    returns (check w (ok payload)) s resp s' /\
    returns (check w (ok payload')) s resp' s' /\
    status resp = status resp' /\
    report_field resp "plate" = report_field resp' "plate" /\
    report_field resp "notifications" = report_field resp' "notifications".
Proof.
  intros Hreq Hreq'.
  destruct (sources_run w (Text.upper p) s)
    as (traffic & s1 & parking & s2 & insurance & s3 & Ht & Hp & Hi).
  pose proof (check_run w payload s p l t _ _ _ _ _ _ Hreq Ht Hp Hi) as Hrun.
  pose proof (check_run w payload' s p l t' _ _ _ _ _ _ Hreq' Ht Hp Hi) as Hrun'.
  cbv zeta in Hrun, Hrun'.
  eexists _, _, s3.
  split; [exact Hrun |]. split; [exact Hrun' |].
  destruct (String.eqb (Text.lower t) "summary"),
    (String.eqb (Text.lower t') "summary");
    repeat split; reflexivity.
Qed.

(** The summary and the full report of the same plate, with tickets. *)
Lemma detail_type_changes_only_the_shape_at_tickets :
  exists resp resp' s',
    returns (check Examples.w_tickets
               (ok (Examples.request [("plate", "T123ABC"); ("type", "summary")])))
            Examples.initial resp s' /\
    returns (check Examples.w_tickets (ok (Examples.request [("plate", "T123ABC")])))
            Examples.initial resp' s' /\
    status resp = status resp' /\
    report_field resp "plate" = report_field resp' "plate" /\
    report_field resp "notifications" = report_field resp' "notifications".
Proof.
  apply (detail_type_changes_only_the_shape Examples.w_tickets
           (Examples.request [("plate", "T123ABC"); ("type", "summary")])
           (Examples.request [("plate", "T123ABC")])
           Examples.initial "T123ABC" "en" "summary" "full");
    reflexivity.
Defined.

(** X20. The plate is upper-cased before anything is done with it: two
    requests whose plates, ASCII text, differ only in case get the same
    response and leave the same log and clock, and the plate of the report
    is the upper-cased one. *)
Theorem plate_is_case_insensitive
  (w : world) (payload payload' : value) (s : state) (p p' l t : string) :
  request_fields payload = Some (p, l, t) ->
  request_fields payload' = Some (p', l, t) ->
  Text.isascii p = true ->
  Text.isascii p' = true ->
  Text.upper p = Text.upper p' ->
  exists resp s',
    returns (check w (ok payload)) s resp s' /\
    returns (check w (ok payload')) s resp s' /\
    report_field resp "plate" = Some (VStr (Text.upper p)).
Proof.
  intros Hreq Hreq' _ _ Hsame.
  destruct (sources_run w (Text.upper p) s)
    as (traffic & s1 & parking & s2 & insurance & s3 & Ht & Hp & Hi).
  pose proof (check_run w payload s p l t _ _ _ _ _ _ Hreq Ht Hp Hi) as Hrun.
  rewrite Hsame in Ht, Hp, Hi.
  pose proof (check_run w payload' s p' l t _ _ _ _ _ _ Hreq' Ht Hp Hi) as Hrun'.
  cbv zeta in Hrun, Hrun'. rewrite <- Hsame in Hrun'.
  eexists _, s3.
  split; [exact Hrun |]. split; [exact Hrun' |].
  destruct (String.eqb (Text.lower t) "summary"); reflexivity.
Qed.

(** The same plate in small letters and in capitals. *)
Lemma plate_is_case_insensitive_at_tickets :
  exists resp s',
    returns (check Examples.w_tickets (ok (Examples.request [("plate", "t123abc")])))
            Examples.initial resp s' /\
    returns (check Examples.w_tickets (ok (Examples.request [("plate", "T123ABC")])))
            Examples.initial resp s' /\
    report_field resp "plate" = Some (VStr (Text.upper "t123abc")).
Proof.
  apply (plate_is_case_insensitive Examples.w_tickets
           (Examples.request [("plate", "t123abc")])
           (Examples.request [("plate", "T123ABC")])
           Examples.initial "t123abc" "T123ABC" "en" "full");
    reflexivity.
Defined.

(** X21. A request with no usable body (null, an empty object, an empty
    array or string, 0, false) is not rejected: it is served as a request
    for the empty plate, in English, with the full report, so the three
    services are asked about the plate "". *)
Theorem empty_body_asks_for_the_empty_plate
  (w : world) (payload : value) (s : state) :
  Py.truthy payload = false ->
  exists traffic s1 parking s2 insurance s3,
    returns (get_traffic_penalties w "") s traffic s1 /\
    returns (get_parking_fees w "") s1 parking s2 /\
    returns (get_insurance w "") s2 insurance s3 /\
    returns (check w (ok payload)) s
      (make_response
         (full_report "" traffic parking insurance
            (notices "en" (triggered traffic parking insurance)))
         200)
      s3.
Proof.
  intros Hfalse.
  assert (Hreq : request_fields payload = Some ("", "en", "full"))
    by (unfold request_fields; rewrite Hfalse; reflexivity).
  destruct (sources_run w "" s)
    as (traffic & s1 & parking & s2 & insurance & s3 & Ht & Hp & Hi).
  exists traffic, s1, parking, s2, insurance, s3.
  split; [exact Ht |]. split; [exact Hp |]. split; [exact Hi |].
  exact (check_run w payload s "" "en" "full" _ _ _ _ _ _ Hreq Ht Hp Hi).
Qed.

(** The body null. *)
Lemma empty_body_asks_for_the_empty_plate_at_null :
  exists traffic s1 parking s2 insurance s3,
    returns (get_traffic_penalties Examples.w_tickets "") Examples.initial traffic s1 /\
    returns (get_parking_fees Examples.w_tickets "") s1 parking s2 /\
    returns (get_insurance Examples.w_tickets "") s2 insurance s3 /\
    returns (check Examples.w_tickets (ok VNone)) Examples.initial
      (make_response
         (full_report "" traffic parking insurance
            (notices "en" (triggered traffic parking insurance)))
         200)
      s3.
Proof.
  apply (empty_body_asks_for_the_empty_plate Examples.w_tickets VNone Examples.initial).
  reflexivity.
Defined.

(** X22. The log agrees with the report.  What a request with an ASCII
    plate adds to the log is, in this order, at most one violation entry,
    at most one parking entry and at most one expired entry (an entry is
    what one call of [log_alert] writes), all for the upper-cased plate;
    the violation entry is there exactly when the violation notification is
    in the report, the parking entry exactly when the parking notification
    is, and an expired entry only when the expired notification is (an
    expired cover with an unknown day count is notified without one). *)
Theorem log_lines_match_the_notifications
  (w : world) (payload : value) (s : state) (p l t : string) :
  request_fields payload = Some (p, l, t) ->
  Text.isascii p = true ->
  exists resp s' ns lt lp li,
    returns (check w (ok payload)) s resp s' /\
    report_field resp "notifications" = Some (VList ns) /\
    log_file s' = (log_file s ++ lt ++ lp ++ li)%list /\
    ((exists now total,
         lt = [LogLine now (violation_message (Text.upper p) total)]) /\
     In (VStr (wording (Text.lower l) Violation)) ns \/
     lt = [] /\ ~ In (VStr (wording (Text.lower l) Violation)) ns) /\
    ((exists now total,
         lp = [LogLine now (parking_message (Text.upper p) total)]) /\
     In (VStr (wording (Text.lower l) UnpaidParking)) ns \/
     lp = [] /\ ~ In (VStr (wording (Text.lower l) UnpaidParking)) ns) /\
    ((exists now days,
         li = [LogLine now (expired_message (Text.upper p) days)]) /\
     In (VStr (wording (Text.lower l) InsuranceExpired)) ns \/
     li = []).
Proof.
  intros Hreq _.
  destruct (traffic_run w (Text.upper p) s) as (traffic & s1 & Ht & Htc).
  destruct (parking_run w (Text.upper p) s1) as (parking & s2 & Hp & Hpc).
  destruct (insurance_run w (Text.upper p) s2) as (insurance & s3 & Hi & Hic).
  pose proof (check_run w payload s p l t _ _ _ _ _ _ Hreq Ht Hp Hi) as Hrun.
  cbv zeta in Hrun.
  assert (At : exists lt,
             log_file s1 = (log_file s ++ lt)%list /\
             ((exists now total,
                  lt = [LogLine now (violation_message (Text.upper p) total)]) /\
              flag traffic "found" = true \/
              lt = [] /\ flag traffic "found" = false)).
  { destruct Htc as [(tickets & amounts & now & _ & _ & -> & _ & ->) | [[-> | [e ->]] Hk]].
    - eexists. split; [reflexivity |]. left. split; [eauto | reflexivity].
    - exists []. rewrite app_nil_r. split; [exact Hk |]. right. split; reflexivity.
    - exists []. rewrite app_nil_r. split; [exact Hk |]. right. split; reflexivity. }
  assert (Ap : exists lp,
             log_file s2 = (log_file s1 ++ lp)%list /\
             ((exists now total,
                  lp = [LogLine now (parking_message (Text.upper p) total)]) /\
              flag parking "found" = true \/
              lp = [] /\ flag parking "found" = false)).
  { destruct Hpc
      as [(bills & amounts & total & now & _ & _ & _ & -> & _ & ->) | [[-> | [e ->]] Hk]].
    - eexists. split; [reflexivity |]. left. split; [eauto | reflexivity].
    - exists []. rewrite app_nil_r. split; [exact Hk |]. right. split; reflexivity.
    - exists []. rewrite app_nil_r. split; [exact Hk |]. right. split; reflexivity. }
  assert (Ai : exists li,
             log_file s3 = (log_file s2 ++ li)%list /\
             ((exists now days,
                  li = [LogLine now (expired_message (Text.upper p) days)]) /\
              flag insurance "expired" = true \/
              li = [])).
  { destruct Hic as [(days & now & -> & _ & ->) | [_ Hk]].
    - eexists. split; [reflexivity |]. left. split; [eauto | reflexivity].
    - exists []. rewrite app_nil_r. split; [exact Hk |]. now right. }
  destruct At as (lt & Hlt & Ct), Ap as (lp & Hlp & Cp), Ai as (li & Hli & Ci).
  eexists _, s3, _, lt, lp, li.
  split; [exact Hrun |].
  split; [apply report_notifications |].
  split; [rewrite Hli, Hlp, Hlt, <- !app_assoc; reflexivity |].
  rewrite !in_notices.
  destruct (triggered_members traffic parking insurance) as (Mt & Mp & Mi).
  rewrite Mt, Mp, Mi.
  split; [| split].
  - destruct Ct as [[Hline Hflag] | [Hnil Hflag]]; [now left | right].
    split; [exact Hnil | congruence].
  - destruct Cp as [[Hline Hflag] | [Hnil Hflag]]; [now left | right].
    split; [exact Hnil | congruence].
  - destruct Ci as [[Hline Hflag] | Hnil]; [now left | now right].
Qed.

(** Tickets, bills and an expired cover: three entries, three
    notifications. *)
Lemma log_lines_match_the_notifications_at_all :
  exists resp s' ns lt lp li,
    returns (check Cases.w_all (ok (Examples.request [("plate", "t123abc")])))
            Examples.initial resp s' /\
    report_field resp "notifications" = Some (VList ns) /\
    log_file s' = (log_file Examples.initial ++ lt ++ lp ++ li)%list /\
    ((exists now total,
         lt = [LogLine now (violation_message (Text.upper "t123abc") total)]) /\
     In (VStr (wording (Text.lower "en") Violation)) ns \/
     lt = [] /\ ~ In (VStr (wording (Text.lower "en") Violation)) ns) /\
    ((exists now total,
         lp = [LogLine now (parking_message (Text.upper "t123abc") total)]) /\
     In (VStr (wording (Text.lower "en") UnpaidParking)) ns \/
     lp = [] /\ ~ In (VStr (wording (Text.lower "en") UnpaidParking)) ns) /\
    ((exists now days,
         li = [LogLine now (expired_message (Text.upper "t123abc") days)]) /\
     In (VStr (wording (Text.lower "en") InsuranceExpired)) ns \/
     li = []).
Proof.
  apply (log_lines_match_the_notifications Cases.w_all
           (Examples.request [("plate", "t123abc")]) Examples.initial
           "t123abc" "en" "full"); reflexivity.
Defined.

(* ================================================================== *)
(** * The expired branch, before the end date *)
(* ================================================================== *)

Lemma find_all_false {A} (f : A -> bool) (xs : list A) :
  (forall x, In x xs -> f x = false) -> find f xs = None.
Proof.
  induction xs as [| x xs IH]; intros H; simpl; [reflexivity |].
  rewrite (H x) by now left.
  apply IH. intros y Hy. apply H. now right.
Qed.

(** X23. Only the status title decides between active and expired: when
    no entry is active (the status titles ASCII text), a first entry whose
    end date is still ahead of now is returned as expired all the same,
    with a number of expired days below zero; the expired message with that
    number is written to the log and every report built from the result
    carries the expired notification. *)
Theorem inactive_cover_is_expired_before_its_end
  (w : world) (plate : string) (s : state)
  (res : response ET.element) (root first : ET.element) (rest : list ET.element)
  (end_date now : Datetime.datetime) (s1 s2 : state) :
  TIRA_API w plate = ok res ->
  decoded res = Some root ->
  ET.findall_descendants root "data" = first :: rest ->
  ascii_titles (first :: rest) = true ->
  (forall x, In x (first :: rest) -> is_active x = false) ->
  end_date_of w first = ok end_date ->
  returns (datetime_now w) s now s1 ->
  returns (log_alert w (expired_message plate (Datetime.days_between now end_date)))
          s1 tt s2 ->
  now < end_date ->
  exists insurance days,
    days < 0 /\
    returns (get_insurance w plate) s insurance s2 /\
    Py.getitem insurance "expired" = ok (VBool true) /\
    Py.getitem insurance "expired_days" = ok (VInt days) /\
    (exists stamp, In (LogLine stamp (expired_message plate days)) (log_file s2)) /\
    forall lang traffic parking,
    exists ns,
      notifications_of lang traffic parking insurance = ok ns /\
      In (VStr (wording lang InsuranceExpired)) ns.
Proof.
  intros Hres Hdoc Hentries _ Hnone Hend Hnow Hlog Hahead.
  apply find_all_false in Hnone.
  exists (expired_result (VInt (Datetime.days_between now end_date))),
         (Datetime.days_between now end_date).
  split; [exact (days_between_negative now end_date Hahead) |].
  split; [| split; [reflexivity | split; [reflexivity | split]]].
  - pose proof (expired_days_run w plate first s end_date now s1 s2 Hend Hnow Hlog)
      as Hrun.
    unfold returns in *.
    rewrite (get_insurance_none_active w plate s res root first rest
               Hres Hdoc Hentries Hnone).
    unfold try_except. now rewrite Hrun.
  - destruct (log_alert_cases w
                (expired_message plate (Datetime.days_between now end_date)) s1)
      as [(stamp & _ & Hline) | (e & t & Hraise & _)].
    + exists stamp. unfold returns in Hlog. rewrite Hline in Hlog.
      inversion Hlog. apply in_or_app. right. now left.
    + unfold returns in Hlog. rewrite Hraise in Hlog. discriminate.
  - intros lang traffic parking.
    set (insurance := expired_result (VInt (Datetime.days_between now end_date))).
    assert (Hshape : insurance_result w insurance) by constructor.
    exists (notices lang (triggered traffic parking insurance)).
    split; [exact (notifications_of_notices w lang traffic parking insurance Hshape) |].
    rewrite in_notices.
    now apply (proj2 (proj2 (triggered_members traffic parking insurance))).
Qed.

(** A cancelled cover that would have run for 5 more days. *)
Lemma inactive_cover_is_expired_before_its_end_at_cancelled :
  exists insurance days,
    days < 0 /\
    returns (get_insurance Cases.w_cancelled_early Examples.plate) Examples.initial
            insurance
            (Examples.logged "❌ Insurance expired for T123ABC – -5 days ago" 2) /\
    Py.getitem insurance "expired" = ok (VBool true) /\
    Py.getitem insurance "expired_days" = ok (VInt days) /\
    (exists stamp,
        In (LogLine stamp (expired_message Examples.plate days))
           (log_file (Examples.logged
                        "❌ Insurance expired for T123ABC – -5 days ago" 2))) /\
    forall lang traffic parking,
    exists ns,
      notifications_of lang traffic parking insurance = ok ns /\
      In (VStr (wording lang InsuranceExpired)) ns.
Proof.
  apply (inactive_cover_is_expired_before_its_end Cases.w_cancelled_early
           Examples.plate Examples.initial
           (Response 200
              (Some (Examples.covers
                       [Examples.cover "CANCELLED" (Some "1700432000000")])))
           (Examples.covers [Examples.cover "CANCELLED" (Some "1700432000000")])
           (Examples.cover "CANCELLED" (Some "1700432000000")) []
           1700442800000000 Examples.local_now (State [] 1)
           (Examples.logged "❌ Insurance expired for T123ABC – -5 days ago" 2));
    try (vm_compute; reflexivity).
  intros x [<- | []]. vm_compute. reflexivity.
Defined.
